(** * Correlation and scoring pipeline of the interaction logger

    A shallow embedding of
    - [evaluator/correlation-engine.js]  (module [CorrelationEngine]),
    - the three understanding analyzers and their prompt templates
      (module [Understanding]),
    - [evaluator/scoring-engine.js]      (module [ScoringEngine]),
    - [background-analyzer.js]           (module [BackgroundAnalyzer]),
    followed by the properties established about them.

    Conventions.  JavaScript numbers that stay finite are rationals ([Q]);
    where the source divides without a guard the result lives in [Js.num],
    which adds [NaN] and the infinities.  Strings are byte strings and
    [length] counts bytes, so texts are taken to be ASCII.  A [timestamp]
    column is represented by the number of milliseconds that
    [new Date(timestamp).getTime()] reads from it. *)

From Stdlib Require Import List String Ascii Bool Arith ZArith QArith Qround Lia Lqa.
From Stdlib Require Import DecimalString Sorting.Sorted Sorting.Permutation.
Import ListNotations.
Local Open Scope string_scope.
Local Open Scope Z_scope.

Set Implicit Arguments.

(* ------------------------------------------------------------------ *)
(** ** JavaScript values and string primitives *)

Module Js.

(** A number as an unguarded division can produce it. *)
Inductive num : Type :=
| Fin (q : Q)
| NaN
| PosInf
| NegInf.

(** [a / b] on finite operands. *)
Definition div (a b : Q) : num :=
  if Qeq_bool b 0%Q then
    (if Qeq_bool a 0%Q then NaN
     else if Qle_bool 0%Q a then PosInf else NegInf)
  else Fin (a / b)%Q.

(** [x * k] for a finite positive constant [k]. *)
Definition scale (x : num) (k : Q) : num :=
  match x with
  | Fin q => Fin (q * k)%Q
  | other => other
  end.

(** [Math.round] on a finite number: the nearest integer, halves up. *)
Definition roundQ (q : Q) : Z := Qfloor (q + (1 # 2))%Q.

Definition round (x : num) : num :=
  match x with
  | Fin q => Fin (inject_Z (roundQ q))
  | other => other
  end.

(** [x > k]; every comparison with [NaN] is false. *)
Definition gtb (x : num) (k : Q) : bool :=
  match x with
  | Fin q => negb (Qle_bool q k)
  | PosInf => true
  | NaN | NegInf => false
  end.

Definition Qltb (a b : Q) : bool := negb (Qle_bool b a).
Definition Qmax (a b : Q) : Q := if Qle_bool a b then b else a.
Definition Qmin (a b : Q) : Q := if Qle_bool a b then a else b.

Definition ofNat (n : nat) : Q := inject_Z (Z.of_nat n).

(** What a property holds: a number, or the text [toFixed] returns. *)
Inductive value : Type :=
| Num (n : num)
| Str (s : string).

(** Truthiness of a nullable string: [null] and [''] are falsy. *)
Definition truthy (s : option string) : bool :=
  match s with
  | Some EmptyString | None => false
  | Some _ => true
  end.

(** The class [\s] on ASCII: tab, line feed, vertical tab, form feed,
    carriage return and space. *)
Definition isSpace (c : ascii) : bool :=
  let n := nat_of_ascii c in
  ((9 <=? n) && (n <=? 13) || (n =? 32))%nat.

(** [s.split(/\s+/)]: a separator at either end leaves an empty token
    there, and the empty string splits into one empty token. *)
Fixpoint splitFrom (cur : string) (inSep : bool) (s : string) : list string :=
  match s with
  | EmptyString => [cur]
  | String c rest =>
      if isSpace c then
        (if inSep then splitFrom "" true rest
         else cur :: splitFrom "" true rest)
      else splitFrom (cur ++ String c "") false rest
  end.

Definition splitWs (s : string) : list string := splitFrom "" false s.

(** [s.replace(/\s+/g, ' ')]. *)
Fixpoint collapseFrom (inSep : bool) (s : string) : string :=
  match s with
  | EmptyString => EmptyString
  | String c rest =>
      if isSpace c then
        (if inSep then collapseFrom true rest
         else String " " (collapseFrom true rest))
      else String c (collapseFrom false rest)
  end.

Definition collapseWs (s : string) : string := collapseFrom false s.

Fixpoint trimStart (s : string) : string :=
  match s with
  | EmptyString => EmptyString
  | String c rest => if isSpace c then trimStart rest else s
  end.

Fixpoint trimEnd (s : string) : string :=
  match s with
  | EmptyString => EmptyString
  | String c rest =>
      let rest' := trimEnd rest in
      if isSpace c && (rest' =? "")%string then EmptyString
      else String c rest'
  end.

Definition trim (s : string) : string := trimEnd (trimStart s).

(** [s.includes(t)]. *)
Fixpoint includes (s t : string) : bool :=
  String.prefix t s ||
  match s with
  | EmptyString => false
  | String _ rest => includes rest t
  end.

(** Number of occurrences of a character, for [split('\n').length]. *)
Fixpoint countChar (c : ascii) (s : string) : nat :=
  match s with
  | EmptyString => O
  | String d rest => ((if Ascii.eqb c d then 1 else 0) + countChar c rest)%nat
  end.

Definition mem (x : string) (l : list string) : bool :=
  existsb (String.eqb x) l.

(** [set.add(x)] and [new Set(l)]; a set is the list of its members in
    insertion order. *)
Definition add (acc : list string) (x : string) : list string :=
  if mem x acc then acc else (acc ++ [x])%list.

Definition setOf (l : list string) : list string := fold_left add l [].

(** [x.toFixed(2)] of a non-negative finite number. *)
Definition twoDigits (n : Z) : string :=
  (if n <? 10 then "0" else "") ++
  NilZero.string_of_uint (N.to_uint (Z.to_N n)).

Definition toFixed2 (q : Q) : string :=
  let h := roundQ (q * 100)%Q in
  NilZero.string_of_uint (N.to_uint (Z.to_N (h / 100)))
    ++ "." ++ twoDigits (h mod 100).

End Js.

(* ------------------------------------------------------------------ *)
(** ** The event store: tables [prompts] and [edits] *)

Module Prompt.
Record t : Type := mk {
  id : Z;
  conversation_id : string;
  prompt_text : string;
  source : option string;
  timestamp : Z;
  prompt_sequence_number : Z;
  is_debugging : bool
}.
End Prompt.

Module Edit.
Record t : Type := mk {
  id : Z;
  conversation_id : string;
  file_path : string;
  old_string : option string;
  new_string : option string;
  source : option string;
  timestamp : Z
}.
End Edit.

Module Db.
(** [debugging_sessions] keeps the [conversation_id] column of its rows,
    the only one the pipeline reads. *)
Record t : Type := mk {
  prompts : list Prompt.t;
  edits : list Edit.t;
  debugging_sessions : list string
}.

(** [ORDER BY key], as a stable insertion sort. *)
Fixpoint insertBy {A : Type} (key : A -> Z) (x : A) (l : list A) : list A :=
  match l with
  | [] => [x]
  | y :: rest =>
      if key x <=? key y then x :: l else y :: insertBy key x rest
  end.

Definition orderBy {A : Type} (key : A -> Z) (l : list A) : list A :=
  fold_right (insertBy key) [] l.
End Db.

(* ------------------------------------------------------------------ *)
(** ** evaluator/correlation-engine.js *)

Module CorrelationEngine.

Module Conversation.
Record t : Type := mk {
  conversation_id : string;
  prompts : list Prompt.t;
  edits : list Edit.t;
  source : string;
  started_at : option Z;
  ended_at : option Z
}.
End Conversation.

Module RelatedEdit.
Record t : Type := mk {
  edit_id : Z;
  file_path : string;
  timestamp : Z;
  old_string : option string;
  new_string : option string;
  time_after_prompt : Z
}.
End RelatedEdit.

Module Stats.
Record t : Type := mk {
  total_edits : nat;
  files_changed : nat;
  lines_added : nat;
  lines_removed : nat;
  time_to_first_edit : option Z;
  edit_duration : option Z
}.
End Stats.

Module Correlation.
Record t : Type := mk {
  prompt_id : Z;
  prompt_text : string;
  prompt_timestamp : Z;
  conversation_id : string;
  source : string;
  related_edits : list RelatedEdit.t;
  stats : Stats.t
}.
End Correlation.

(** [getConversationData]: both queries filter on the conversation id
    and order by timestamp. *)
Definition getConversationData (db : Db.t) (conversationId : string)
  : Conversation.t :=
  let prompts :=
    Db.orderBy Prompt.timestamp
      (filter (fun p => (Prompt.conversation_id p =? conversationId)%string)
              (Db.prompts db)) in
  let edits :=
    Db.orderBy Edit.timestamp
      (filter (fun e => (Edit.conversation_id e =? conversationId)%string)
              (Db.edits db)) in
  Conversation.mk conversationId prompts edits
    (match prompts with
     | p :: _ => if Js.truthy (Prompt.source p)
                 then match Prompt.source p with Some s => s | None => "unknown" end
                 else "unknown"
     | [] => "unknown"
     end)
    (option_map Prompt.timestamp (hd_error prompts))
    (match last (map Some edits) None with
     | Some e => Some (Edit.timestamp e)
     | None => option_map Prompt.timestamp (last (map Some prompts) None)
     end).

(** [getConversationGroups]: the distinct conversation ids of the
    prompts table, each loaded with [getConversationData]. *)
Definition getConversationGroups (db : Db.t) : list Conversation.t :=
  map (getConversationData db)
      (Js.setOf (map Prompt.conversation_id
                     (Db.orderBy Prompt.timestamp (Db.prompts db)))).

(** The window test of the inner loop; [None] is [Infinity]. *)
Definition inWindow (promptTime : Z) (nextPromptTime : option Z)
                    (editTime : Z) : bool :=
  (promptTime <=? editTime) &&
  match nextPromptTime with
  | Some n => editTime <? n
  | None => true
  end.

Definition relatedOf (promptTime : Z) (edit : Edit.t) : RelatedEdit.t :=
  RelatedEdit.mk (Edit.id edit) (Edit.file_path edit) (Edit.timestamp edit)
                 (Edit.old_string edit) (Edit.new_string edit)
                 (Edit.timestamp edit - promptTime).

(** [s ? s.split('\n').length : 0]. *)
Definition lineCount (s : option string) : nat :=
  match s with
  | Some (String c rest) => S (Js.countChar "010"%char (String c rest))
  | _ => O
  end.

Definition countLines (acc : nat * nat) (edit : RelatedEdit.t) : nat * nat :=
  let oldLines := lineCount (RelatedEdit.old_string edit) in
  let newLines := lineCount (RelatedEdit.new_string edit) in
  if (oldLines <? newLines)%nat
  then (fst acc + (newLines - oldLines), snd acc)%nat
  else (fst acc, snd acc + (oldLines - newLines))%nat.

Definition statsOf (related : list RelatedEdit.t) : Stats.t :=
  match related with
  | [] => Stats.mk 0 0 0 0 None None
  | first :: _ =>
      let lines := fold_left countLines related (O, O) in
      Stats.mk (List.length related)
               (List.length (Js.setOf (map RelatedEdit.file_path related)))
               (fst lines) (snd lines)
               (Some (RelatedEdit.time_after_prompt first))
               (Some (RelatedEdit.time_after_prompt (last related first)))
  end.

(** The body of [conv.prompts.forEach((prompt, promptIndex) => ...)]. *)
Definition correlatePrompt (conv : Conversation.t) (promptIndex : nat)
                           (prompt : Prompt.t) : Correlation.t :=
  let promptTime := Prompt.timestamp prompt in
  let nextPromptTime :=
    option_map Prompt.timestamp
               (nth_error (Conversation.prompts conv) (S promptIndex)) in
  let related :=
    map (relatedOf promptTime)
        (filter (fun edit => inWindow promptTime nextPromptTime
                                      (Edit.timestamp edit))
                (Conversation.edits conv)) in
  Correlation.mk (Prompt.id prompt) (Prompt.prompt_text prompt)
                 (Prompt.timestamp prompt)
                 (Conversation.conversation_id conv)
                 (Conversation.source conv)
                 related (statsOf related).

Definition forEachIndexed {A B : Type} (f : nat -> A -> B) (l : list A)
  : list B :=
  map (fun ix => f (fst ix) (snd ix)) (combine (seq 0 (List.length l)) l).

Definition correlateConversation (conv : Conversation.t)
  : list Correlation.t :=
  forEachIndexed (correlatePrompt conv) (Conversation.prompts conv).

Definition correlatePromptsToEdits (db : Db.t) : list Correlation.t :=
  flat_map correlateConversation (getConversationGroups db).

(** The timestamps of a conversation's prompts, in order. *)
Definition promptTimes (conv : Conversation.t) : list Z :=
  map Prompt.timestamp (Conversation.prompts conv).



(** *** analyzeEffectiveness *)

Module Effectiveness.
Record t : Type := mk {
  total_prompts : nat;
  prompts_with_edits : nat;
  prompts_without_edits : nat;
  avg_edits_per_prompt : Js.value;
  avg_files_per_prompt : Js.value;
  avg_time_to_first_edit : Js.num;
  effectiveness_score : Js.num
}.
End Effectiveness.

(** The accumulators of the [forEach]: prompts with and without edits,
    [totalEdits], [totalFiles], [totalTime], [timeCount]. *)
Module Tally.
Record t : Type := mk {
  withEdits : nat;
  withoutEdits : nat;
  totalEdits : nat;
  totalFiles : nat;
  totalTime : Z;
  timeCount : nat
}.
End Tally.

Definition tally (acc : Tally.t) (corr : Correlation.t) : Tally.t :=
  match Correlation.related_edits corr with
  | [] =>
      Tally.mk (Tally.withEdits acc) (S (Tally.withoutEdits acc))
               (Tally.totalEdits acc) (Tally.totalFiles acc)
               (Tally.totalTime acc) (Tally.timeCount acc)
  | _ :: _ =>
      let st := Correlation.stats corr in
      let timed :=
        match Stats.time_to_first_edit st with
        | Some t => (Tally.totalTime acc + t, S (Tally.timeCount acc))
        | None => (Tally.totalTime acc, Tally.timeCount acc)
        end in
      Tally.mk (S (Tally.withEdits acc)) (Tally.withoutEdits acc)
               (Tally.totalEdits acc + Stats.total_edits st)%nat
               (Tally.totalFiles acc + Stats.files_changed st)%nat
               (fst timed) (snd timed)
  end.

Definition analyzeEffectiveness (correlations : list Correlation.t)
  : Effectiveness.t :=
  let t := fold_left tally correlations (Tally.mk 0 0 0 0 0 0) in
  let guarded (total : nat) : Js.value :=
    if (0 <? Tally.withEdits t)%nat
    then Js.Str (Js.toFixed2 (Js.ofNat total / Js.ofNat (Tally.withEdits t))%Q)
    else Js.Num (Js.Fin 0%Q) in
  Effectiveness.mk
    (List.length correlations)
    (Tally.withEdits t)
    (Tally.withoutEdits t)
    (guarded (Tally.totalEdits t))
    (guarded (Tally.totalFiles t))
    (if (0 <? Tally.timeCount t)%nat
     then Js.round (Js.div (inject_Z (Tally.totalTime t))
                           (Js.ofNat (Tally.timeCount t)))
     else Js.Fin 0%Q)
    (Js.round
       (Js.scale (Js.div (Js.ofNat (Tally.withEdits t))
                         (Js.ofNat (List.length correlations)))
                 100%Q)).

(** *** Reversal detection *)

Module HistoryEntry.
Record t : Type := mk {
  prompt_id : Z;
  prompt_text : string;
  timestamp : Z;
  old_string : option string;
  new_string : option string
}.
End HistoryEntry.

Module Reversal.
Record t : Type := mk {
  index : nat;
  prompt_reverted_from : string;
  prompt_reverted_to : string;
  explanation : string
}.
End Reversal.

(** [calculateSimilarity]: Jaccard index of the two token sets. *)
Definition calculateSimilarity (str1 str2 : string) : Js.num :=
  let set1 := Js.setOf (Js.splitWs str1) in
  let set2 := Js.setOf (Js.splitWs str2) in
  let intersection := Js.setOf (filter (fun x => Js.mem x set2) set1) in
  let union := Js.setOf (set1 ++ set2)%list in
  Js.div (Js.ofNat (List.length intersection)) (Js.ofNat (List.length union)).

Definition normalize (s : string) : string := Js.trim (Js.collapseWs s).

Definition isSimilarCode (str1 str2 : option string) : bool :=
  match str1, str2 with
  | Some s1, Some s2 =>
      if negb (Js.truthy str1) || negb (Js.truthy str2) then false
      else
        let normalized1 := normalize s1 in
        let normalized2 := normalize s2 in
        if (normalized1 =? normalized2)%string then true
        else Js.gtb (calculateSimilarity normalized1 normalized2) (9 # 10)
  | _, _ => false
  end.

(** The loop of [detectReversals] from index [i], [prev] being
    [editHistory[i - 1]]. *)
Fixpoint detectReversalsFrom (i : nat) (prev : HistoryEntry.t)
                             (rest : list HistoryEntry.t) : list Reversal.t :=
  match rest with
  | [] => []
  | curr :: rest' =>
      (if isSimilarCode (HistoryEntry.new_string curr)
                        (HistoryEntry.old_string prev)
       then [Reversal.mk i (HistoryEntry.prompt_text prev)
                         (HistoryEntry.prompt_text curr)
                         "Code reverted to earlier state"]
       else []) ++ detectReversalsFrom (S i) curr rest'
  end%list.

Definition detectReversals (editHistory : list HistoryEntry.t)
  : list Reversal.t :=
  match editHistory with
  | [] => []
  | first :: rest => detectReversalsFrom 1 first rest
  end.

End CorrelationEngine.

(* ------------------------------------------------------------------ *)
(** ** The understanding analyzers

    [evaluator/understanding/critical-thinking-analyzer.js],
    [debugging-reasoning-analyzer.js] and [mistake-catcher-analyzer.js]
    with [evaluator/prompts/*-prompt.js].  The three classes share one
    shape; the differences are selected by the analyzer's name. *)

Module Understanding.

Inductive Analyzer : Type :=
| CriticalThinking
| DebuggingReasoning
| MistakeCatcher.

(** The object [JSON.parse] returns for the model's answer, as far as
    [parseResponse] looks at it: a field is [None] when it is missing or
    fails the [typeof] test, and [parseError] is the truthiness of a
    property of that name in the answer. *)
Module Raw.
Record t : Type := mk {
  flag : option bool;
  type : option string;
  severity : option string;
  quality : option Q;
  evidence : option string;
  reasoning : option string;
  parseError : bool
}.
End Raw.

(** What [parseResponse] finds in the response text. *)
Inductive Response : Type :=
| NoMatch
| ParseThrows (message : string)
| Parsed (raw : Raw.t).

(** What [axios.post] does: it rejects (connection error, error status,
    the 15 s timeout) or resolves with a response. *)
Inductive Outcome : Type :=
| CallFailed
| Responded (r : Response).

(** The judgment of one prompt.  [relevant] is [isCriticalThinking],
    [isSystematic] or [caughtMistake]; [qualityScore] is
    [debuggingQuality] for the debugging analyzer; [severity] exists for
    the mistake catcher only. *)
Module Verdict.
Record t : Type := mk {
  relevant : bool;
  type : string;
  severity : option string;
  qualityScore : Q;
  evidence : string;
  reasoning : string;
  parseError : bool;
  fallback : bool
}.
End Verdict.

Definition allowedTypes (a : Analyzer) : list string :=
  match a with
  | CriticalThinking =>
      ["tradeoff"; "security"; "edge_case"; "architecture";
       "questioning_ai"; "learning"; "none"]
  | DebuggingReasoning =>
      ["hypothesis"; "testing"; "root_cause"; "narrowing";
       "trial_error"; "helpless"]
  | MistakeCatcher =>
      ["security"; "bug"; "logic"; "edge_case"; "prevention"; "none"]
  end.

Definition defaultType (a : Analyzer) : string :=
  match a with
  | DebuggingReasoning => "helpless"
  | _ => "none"
  end.

Definition allowedSeverities : list string :=
  ["high"; "medium"; "low"; "none"].

Definition getDefaultResponse (a : Analyzer) (reason : string) : Verdict.t :=
  Verdict.mk false (defaultType a)
             (match a with MistakeCatcher => Some "none" | _ => None end)
             0%Q "none" ("Parse failed: " ++ reason) true false.

Definition parseResponse (a : Analyzer) (response : Response) : Verdict.t :=
  match response with
  | NoMatch => getDefaultResponse a "Could not find JSON in response"
  | ParseThrows message =>
      getDefaultResponse a ("JSON parse error: " ++ message)
  | Parsed raw =>
      Verdict.mk
        (match Raw.flag raw with Some b => b | None => false end)
        (match Raw.type raw with
         | Some t => if Js.mem t (allowedTypes a) then t else defaultType a
         | None => defaultType a
         end)
        (match a with
         | MistakeCatcher =>
             match Raw.severity raw with
             | Some s => if Js.mem s allowedSeverities then Some s
                         else Some "none"
             | None => Some "none"
             end
         | _ => None
         end)
        (match Raw.quality raw with
         | Some q => if Js.Qltb q 0 || Js.Qltb 10 q then 0%Q else q
         | None => 0%Q
         end)
        (match Raw.evidence raw with Some e => e | None => "none" end)
        (match Raw.reasoning raw with
         | Some r => r
         | None => "No reasoning provided"
         end)
        (Raw.parseError raw)
        false
  end.

(** One analysis kept by the loop. *)
Module Finding.
Record t : Type := mk {
  text : string;
  type : string;
  severity : option string;
  qualityScore : Q;
  evidence : string;
  reasoning : string;
  sequence : Z
}.
End Finding.

Module Reasoning.
Record t : Type := mk {
  prompt : string;
  type : string;
  severity : option string;
  score : Q;
  evidence : string;
  reasoning : string
}.
End Reasoning.

(** [criticalQuestions], [systematicDebugging] or [mistakesCaught].
    [breakdown] is the histogram by type ([breakdown.byType] for the
    mistake catcher) and [bySeverity] the mistake catcher's second
    histogram; both list their keys in insertion order. *)
Module Findings.
Record t : Type := mk {
  count : nat;
  examples : list string;
  quality : Q;
  breakdown : list (string * nat);
  bySeverity : list (string * nat);
  aiReasoning : list Reasoning.t
}.
End Findings.

Module AiAnalysis.
Record t : Type := mk {
  findings : Findings.t;
  allAnalyses : list Finding.t;
  method : string;
  successRate : Q
}.
End AiAnalysis.

Module Result.
Record t : Type := mk {
  score : Q;
  confidence : option Q;
  verdict : string;
  findings : Findings.t;
  analysisMethod : string;
  promptsAnalyzed : option nat;
  debuggingSessionCount : option nat;
  debuggingPromptCount : option nat;
  aiSuccessRate : option Q;
  error : option string
}.
End Result.

(** The counters of the loop in [analyzeAllPromptsWithAI]. *)
Module Loop.
Record t : Type := mk {
  analyses : list Finding.t;
  aiSuccessCount : nat;
  fallbackCount : nat
}.
End Loop.

(** [m[key] = (m[key] || 0) + 1]. *)
Fixpoint increment (key : string) (m : list (string * nat))
  : list (string * nat) :=
  match m with
  | [] => [(key, 1%nat)]
  | (k, n) :: rest =>
      if (key =? k)%string then (k, S n) :: rest
      else (k, n) :: increment key rest
  end.

(** A property key made from a possibly missing value. *)
Definition keyOf (s : option string) : string :=
  match s with Some k => k | None => "undefined" end.

(** [m[key] || 0]. *)
Fixpoint lookup (key : string) (m : list (string * nat)) : nat :=
  match m with
  | [] => O
  | (k, n) :: rest => if (key =? k)%string then n else lookup key rest
  end.

(** *** The computation: calls to the judgment capability are logged *)

(** State: the prompt texts submitted so far, oldest first. *)
Definition M (A : Type) : Type := list string -> A * list string.

Definition ret {A : Type} (x : A) : M A := fun log => (x, log).

Definition bind {A B : Type} (c : M A) (k : A -> M B) : M B :=
  fun log => let (x, log') := c log in k x log'.

Notation "x <- c ;; k" := (bind c (fun x => k))
  (at level 61, c at next level, right associativity).

Definition run {A : Type} (c : M A) : A * list string := c [].

Section Analyzers.

(** [regexTest pattern text] is [/pattern/i.test(text)]. *)
Variable regexTest : string -> string -> bool.

(** The capability: the outcome of the [n]-th call, on this text. *)
Variable judge : nat -> string -> Outcome.

Definition post (promptText : string) : M Outcome :=
  fun log => (judge (List.length log) promptText, (log ++ [promptText])%list).

(** First pattern group, in declaration order, one of whose patterns
    matches. *)
Definition firstMatch (patterns : list (string * list string))
                      (text : string) : option string :=
  option_map fst
    (find (fun group => existsb (fun p => regexTest p text) (snd group))
          patterns).

Definition criticalThinkingPatterns : list (string * list string) :=
  [ ("tradeoff",
     ["why\s+(?:use|choose|pick|prefer)\s+\w+\s+(?:instead of|over|rather than)";
      "trade-?off"; "pros and cons"; "advantages and disadvantages"]);
    ("security",
     ["security|vulnerable|injection|xss|csrf|authentication|authorization";
      "password|hash|encrypt|token"]);
    ("edge_case",
     ["what\s+(?:if|happens|when)"; "edge case|corner case|boundary";
      "error handling|exception"]);
    ("architecture",
     ["scale|performance|optimize"; "architecture|design pattern";
      "how\s+does\s+(?:this|that|it)\s+handle"]);
    ("questioning_ai",
     ["wouldn't\s+this\s+(?:cause|create|lead to)";
      "could\s+(?:this|that)\s+(?:cause|lead to)";
      "are you sure|is this correct|shouldn't"]) ].

Definition systematicPatterns : list (string * list string) :=
  [ ("hypothesis",
     ["I think\s+(?:the\s+)?(?:issue|problem|bug|error)\s+is";
      "(?:probably|likely|maybe)\s+(?:caused by|due to|because)";
      "the\s+error\s+suggests";
      "(?:I believe|I suspect)\s+(?:the|this|it)"]);
    ("testing",
     ["I (?:tested|tried|checked)"; "(?:first|then|next)\s+I";
      "step\s+\d+"; "I'll\s+(?:start by|begin with)"]);
    ("root_cause",
     ["root\s+cause"; "caused\s+by"; "the\s+reason\s+(?:is|was)";
      "underlying\s+(?:issue|problem)"]);
    ("narrowing",
     ["narrowed\s+(?:it\s+)?down\s+to";
      "isolated\s+(?:the\s+)?(?:issue|problem|bug)";
      "ruled\s+out"; "eliminated"]) ].

Definition trialErrorPatterns : list string :=
  ["try\s+(?:this|that)\??"; "(?:still|doesn't)\s+(?:not\s+)?work";
   "(?:what|how)\s+about"].

Definition mistakePatterns : list (string * list string) :=
  [ ("security",
     ["security|vulnerability|exploit|sql injection|xss|csrf";
      "authenticate|authorize|password|token|leak";
      "encrypt|hash|salt|sanitize|validate|escape"]);
    ("bug",
     ["(?:this|that)\s+(?:has|contains)\s+(?:a\s+)?(?:bug|error|issue|problem)";
      "(?:this|that)\s+(?:doesn't|won't)\s+(?:work|handle)";
      "(?:I think|I believe)\s+(?:this|that)\s+(?:is|has)\s+(?:wrong|incorrect|broken)"]);
    ("logic",
     ["wait,?\s+(?:this|that)";
      "(?:but|however)\s+(?:this|that)\s+(?:doesn't|won't|can't)"]);
    ("edge_case",
     ["what\s+about\s+(?:edge case|corner case|boundary|null|undefined|empty)";
      "what\s+(?:if|happens)\s+(?:the|a|an)?.*(?:fails?|errors?|breaks?)"]);
    ("prevention",
     ["(?:should|shouldn't|need to)\s+(?:handle|check|validate)";
      "(?:could|might)\s+(?:this|that)\s+(?:cause|lead to|result in)";
      "(?:missing|forgot|need to add)"]) ].

Definition bonusIf (b : bool) (q : Q) : Q := if b then q else 0%Q.

(** [ruleBasedAnalysis], the fallback taken when the call fails. *)
Definition ruleBasedAnalysis (a : Analyzer) (text : string) : Verdict.t :=
  match a with
  | CriticalThinking =>
      match firstMatch criticalThinkingPatterns text with
      | Some matchedType =>
          let qualityScore :=
            (5 + bonusIf (Js.includes text "trade-off"
                          || Js.includes text "tradeoff") 2
               + bonusIf (Js.includes text "security"
                          || Js.includes text "performance") 1
               + bonusIf (Js.includes text "instead of"
                          || Js.includes text "rather than") 1
               + bonusIf (100 <? String.length text)%nat 1)%Q in
          Verdict.mk true matchedType None (Js.Qmin 10 qualityScore)
                     "Matched regex pattern"
                     ("Rule-based: matched " ++ matchedType ++ " pattern")
                     false true
      | None =>
          Verdict.mk false "none" None 0%Q "none"
                     "No critical thinking patterns detected" false true
      end
  | DebuggingReasoning =>
      match firstMatch systematicPatterns text with
      | Some matchedType =>
          let qualityScore :=
            (6 + bonusIf (matchedType =? "root_cause")%string 2
               + bonusIf (matchedType =? "narrowing")%string 1
               + bonusIf (100 <? String.length text)%nat 1)%Q in
          Verdict.mk true matchedType None (Js.Qmin 10 qualityScore)
                     "Matched regex pattern"
                     ("Rule-based: " ++ matchedType ++ " pattern detected")
                     false true
      | None =>
          if existsb (fun p => regexTest p text) trialErrorPatterns
          then Verdict.mk false "trial_error" None 3%Q
                          "Matched regex pattern"
                          "Rule-based: trial_error pattern detected"
                          false true
          else Verdict.mk false "helpless" None 0%Q "none"
                          "Rule-based: helpless pattern detected"
                          false true
      end
  | MistakeCatcher =>
      match firstMatch mistakePatterns text with
      | Some matchedType =>
          let graded :=
            if (matchedType =? "security")%string then ("high", 8%Q)
            else if (matchedType =? "bug")%string
                    || (matchedType =? "logic")%string
            then ("medium", 7%Q)
            else if (matchedType =? "edge_case")%string
                    || (matchedType =? "prevention")%string
            then ("low", 6%Q)
            else ("none", 0%Q) in
          Verdict.mk true matchedType (Some (fst graded)) (snd graded)
                     "Matched regex pattern"
                     ("Rule-based: matched " ++ matchedType ++ " pattern")
                     false true
      | None =>
          Verdict.mk false "none" (Some "none") 0%Q "none"
                     "No mistake-catching patterns detected" false true
      end
  end.

(** [analyzePromptWithAI]: the [catch] branch runs the rules. *)
Definition analyzePromptWithAI (a : Analyzer) (promptText : string)
  : M Verdict.t :=
  outcome <- post promptText ;;
  ret (match outcome with
       | Responded response => parseResponse a response
       | CallFailed => ruleBasedAnalysis a promptText
       end).

Definition record (prompt : Prompt.t) (analysis : Verdict.t)
                  (acc : Loop.t) : Loop.t :=
  let counted :=
    if Verdict.parseError analysis
    then Loop.mk (Loop.analyses acc) (Loop.aiSuccessCount acc)
                 (S (Loop.fallbackCount acc))
    else Loop.mk (Loop.analyses acc) (S (Loop.aiSuccessCount acc))
                 (Loop.fallbackCount acc) in
  if Verdict.relevant analysis
  then Loop.mk
         (Loop.analyses counted ++
          [Finding.mk (Prompt.prompt_text prompt) (Verdict.type analysis)
                      (Verdict.severity analysis)
                      (Verdict.qualityScore analysis)
                      (Verdict.evidence analysis)
                      (Verdict.reasoning analysis)
                      (Prompt.prompt_sequence_number prompt)])%list
         (Loop.aiSuccessCount counted) (Loop.fallbackCount counted)
  else counted.

(** The [for (const prompt of prompts)] loop. *)
Fixpoint judgeAll (a : Analyzer) (prompts : list Prompt.t) (acc : Loop.t)
  : M Loop.t :=
  match prompts with
  | [] => ret acc
  | prompt :: rest =>
      let text := Prompt.prompt_text prompt in
      if (String.length text <? 10)%nat then judgeAll a rest acc
      else
        analysis <- analyzePromptWithAI a text ;;
        judgeAll a rest (record prompt analysis acc)
  end.

Definition sumQuality (analyses : list Finding.t) : Q :=
  fold_left (fun sum f => (sum + Finding.qualityScore f)%Q) analyses 0%Q.

Definition reasoningOf (f : Finding.t) : Reasoning.t :=
  Reasoning.mk
    (String.substring 0 100 (Finding.text f) ++
     (if (100 <? String.length (Finding.text f))%nat then "..." else ""))
    (Finding.type f) (Finding.severity f) (Finding.qualityScore f)
    (Finding.evidence f) (Finding.reasoning f).

Definition summarize (a : Analyzer) (promptCount : nat) (l : Loop.t)
  : AiAnalysis.t :=
  let analyses := Loop.analyses l in
  let breakdown :=
    fold_left (fun m f => increment (Finding.type f) m) analyses [] in
  let bySeverity :=
    match a with
    | MistakeCatcher =>
        fold_left (fun m f => increment (keyOf (Finding.severity f)) m)
                  analyses []
    | _ => []
    end in
  let avgQuality :=
    if (0 <? List.length analyses)%nat
    then (sumQuality analyses / Js.ofNat (List.length analyses))%Q
    else 0%Q in
  AiAnalysis.mk
    (Findings.mk (List.length analyses)
                 (map Finding.text (firstn 5 analyses))
                 avgQuality breakdown bySeverity
                 (map reasoningOf (firstn 5 analyses)))
    analyses
    (if (Loop.aiSuccessCount l <? Loop.fallbackCount l)%nat
     then "fallback" else "ai")
    (if (0 <? promptCount)%nat
     then (Js.ofNat (Loop.aiSuccessCount l) / Js.ofNat promptCount)%Q
     else 0%Q).

(** The prompts the loop does not skip. *)
Definition longEnough (prompts : list Prompt.t) : list Prompt.t :=
  filter (fun p => negb (String.length (Prompt.prompt_text p) <? 10)%nat)
         prompts.

Definition analyzeAllPromptsWithAI (a : Analyzer) (prompts : list Prompt.t)
  : M AiAnalysis.t :=
  l <- judgeAll a prompts (Loop.mk [] 0 0) ;;
  ret (summarize a (List.length prompts) l).

End Analyzers.

(** *** Score, verdict and confidence *)

(** The stepped count score: 0, 2, 3 or 4. *)
Definition countScore (count : nat) : Q :=
  if (5 <=? count)%nat then 4
  else if (3 <=? count)%nat then 3
  else if (1 <=? count)%nat then 2
  else 0.

Definition highSeverityCount (f : Findings.t) : nat :=
  lookup "high" (Findings.bySeverity f).

Definition typeCount (f : Findings.t) : nat :=
  List.length (Findings.breakdown f).

(** The third term: the severity bonus for the mistake catcher, the
    diversity bonus for the other two. *)
Definition bonusScore (a : Analyzer) (f : Findings.t) : Q :=
  match a with
  | MistakeCatcher => Js.Qmin 2 (Js.ofNat (highSeverityCount f) * (1 # 2))
  | _ => Js.Qmin 2 (Js.ofNat (typeCount f) * (1 # 2))
  end.

Definition calculateScoreFromAI (a : Analyzer) (ai : AiAnalysis.t) : Q :=
  match AiAnalysis.allAnalyses ai with
  | [] => 0
  | _ :: _ =>
      let f := AiAnalysis.findings ai in
      let qualityScore := (Findings.quality f / 10 * 4)%Q in
      let totalScore :=
        Js.Qmin 10 (countScore (Findings.count f) + qualityScore
                    + bonusScore a f)%Q in
      (inject_Z (Js.roundQ (totalScore * 10)) / 10)%Q
  end.

Definition determineVerdict (a : Analyzer) (score : Q) : string :=
  match a with
  | CriticalThinking =>
      if Qle_bool (15 # 2) score then "understands"
      else if Qle_bool 5 score then "uncertain"
      else "copy-paste"
  | DebuggingReasoning =>
      if Qle_bool 8 score then "systematic"
      else if Qle_bool 4 score then "trial_and_error"
      else "helpless"
  | MistakeCatcher =>
      if Qle_bool 8 score then "highly_critical"
      else if Qle_bool 5 score then "somewhat_critical"
      else "not_critical"
  end.

Definition countConfidence (count : nat) : Q :=
  if (5 <=? count)%nat then 3 # 10
  else if (3 <=? count)%nat then 2 # 10
  else if (1 <=? count)%nat then 1 # 10
  else 0.

(** Diversity of types, or number of high-severity catches. *)
Definition bonusConfidence (a : Analyzer) (f : Findings.t) : Q :=
  match a with
  | MistakeCatcher =>
      if (2 <=? highSeverityCount f)%nat then 2 # 10
      else if (1 <=? highSeverityCount f)%nat then 1 # 10
      else 0
  | _ =>
      if (3 <=? typeCount f)%nat then 2 # 10
      else if (2 <=? typeCount f)%nat then 1 # 10
      else 0
  end.

Definition successConfidence (successRate : Q) : Q :=
  if Js.Qltb (8 # 10) successRate then 15 # 100
  else if Js.Qltb (5 # 10) successRate then 5 # 100
  else 0.

Definition calculateConfidenceFromAI (a : Analyzer) (ai : AiAnalysis.t) : Q :=
  let f := AiAnalysis.findings ai in
  let confidence :=
    ((3 # 10) + countConfidence (Findings.count f) + bonusConfidence a f
     + successConfidence (AiAnalysis.successRate ai))%Q in
  Js.Qmin (95 # 100) (inject_Z (Js.roundQ (confidence * 100)) / 100)%Q.

(** *** analyze *)

Definition getConversationPrompts (db : Db.t) (conversationId : string)
  : list Prompt.t :=
  Db.orderBy Prompt.prompt_sequence_number
    (filter (fun p => (Prompt.conversation_id p =? conversationId)%string)
            (Db.prompts db)).

Definition getDebuggingSessions (db : Db.t) (conversationId : string)
  : list string :=
  filter (fun c => (c =? conversationId)%string) (Db.debugging_sessions db).

Definition noFindings : Findings.t := Findings.mk 0 [] 0 [] [] [].

(** The result returned when the conversation has no prompts. *)
Definition noPrompts (a : Analyzer) : Result.t :=
  match a with
  | CriticalThinking =>
      Result.mk 0 (Some 0%Q) "uncertain" noFindings "none" None None None
                None (Some "No prompts found")
  | DebuggingReasoning =>
      Result.mk 0 None "helpless" noFindings "none" None None None
                None (Some "No prompts found")
  | MistakeCatcher =>
      Result.mk 0 None "not_critical" noFindings "none" None None None
                None (Some "No prompts found")
  end.

Section Analyze.

Variable regexTest : string -> string -> bool.
Variable judge : nat -> string -> Outcome.

(** The prompts handed to the loop: the debugging analyzer keeps the
    prompts flagged as debugging when there are any. *)
Definition promptsToAnalyze (a : Analyzer) (prompts : list Prompt.t)
  : list Prompt.t :=
  match a with
  | DebuggingReasoning =>
      match filter Prompt.is_debugging prompts with
      | [] => prompts
      | debuggingPrompts => debuggingPrompts
      end
  | _ => prompts
  end.

Definition analyze (a : Analyzer) (db : Db.t) (conversationId : string)
  : M Result.t :=
  let prompts := getConversationPrompts db conversationId in
  match prompts with
  | [] => ret (noPrompts a)
  | _ :: _ =>
      let selected := promptsToAnalyze a prompts in
      ai <- analyzeAllPromptsWithAI regexTest judge a selected ;;
      let score := calculateScoreFromAI a ai in
      ret (Result.mk
             score
             (Some (calculateConfidenceFromAI a ai))
             (determineVerdict a score)
             (AiAnalysis.findings ai)
             (AiAnalysis.method ai)
             (match a with
              | DebuggingReasoning => None
              | _ => Some (List.length prompts)
              end)
             (match a with
              | DebuggingReasoning =>
                  Some (List.length (getDebuggingSessions db conversationId))
              | _ => None
              end)
             (match a with
              | DebuggingReasoning => Some (List.length selected)
              | _ => None
              end)
             (Some (AiAnalysis.successRate ai))
             None)
  end.

End Analyze.

End Understanding.

(* ------------------------------------------------------------------ *)
(** ** evaluator/scoring-engine.js *)

Module ScoringEngine.

Import CorrelationEngine.

(** [combined_insights] of a semantic analysis; a field is [None] when
    the property is missing. *)
Module Insights.
Record t : Type := mk {
  confidence_score : option Q;
  green_flags : option (list string);
  red_flags : option (list string)
}.
End Insights.

Module Metrics.
Record t : Type := mk {
  technical_term_count : nat;
  has_file_refs : bool
}.
End Metrics.

Module SemanticAnalysis.
Record t : Type := mk {
  prompt_text : string;
  rule_based_metrics : option Metrics.t;
  combined_insights : option Insights.t
}.
End SemanticAnalysis.

Module EditCoherence.
Record t : Type := mk {
  coherence_score : Q;
  focused_edits : nat;
  scattered_edits : nat
}.
End EditCoherence.

Module ReversalAnalysis.
Record t : Type := mk {
  reversal_score : Q;
  red_flag : bool
}.
End ReversalAnalysis.

(** [iteration_analysis] and [productivity_metrics] are represented by
    the one number read from them. *)
Module PatternAnalysis.
Record t : Type := mk {
  edit_coherence : option EditCoherence.t;
  iteration_score : option Q;
  reversal_analysis : option ReversalAnalysis.t;
  productivity_score : option Q
}.
End PatternAnalysis.

Module AntiPattern.
Record t : Type := mk {
  type : string;
  severity : string
}.
End AntiPattern.

Module PositivePattern.
Record t : Type := mk {
  type : string
}.
End PositivePattern.

Module Data.
Record t : Type := mk {
  semanticAnalyses : option (list SemanticAnalysis.t);
  correlations : option (list Correlation.t);
  patternAnalysis : option PatternAnalysis.t;
  antiPatterns : option (list AntiPattern.t);
  positivePatterns : option (list PositivePattern.t)
}.
End Data.

Module Scores.
Record t : Type := mk {
  prompt_quality : Q;
  self_sufficiency : Q;
  technical_depth : Q;
  code_coherence : Q;
  understanding : Q;
  overall : Q
}.
End Scores.

(** [Math.round(Math.max(0, Math.min(100, score)))]. *)
Definition clamp (score : Q) : Q :=
  inject_Z (Js.roundQ (Js.Qmax 0 (Js.Qmin 100 score))).

Definition size {A : Type} (l : option (list A)) : nat :=
  match l with Some x => List.length x | None => O end.

(** [(part.length / whole.length) * 100]. *)
Definition rate (part whole : nat) : Q :=
  (Js.ofNat part / Js.ofNat whole * 100)%Q.

Definition scorePromptQuality (semanticAnalyses : option (list SemanticAnalysis.t))
  : Q :=
  match semanticAnalyses with
  | None | Some [] => 50
  | Some analyses =>
      let insights :=
        flat_map (fun a => match SemanticAnalysis.combined_insights a with
                           | Some i => [i]
                           | None => []
                           end) analyses in
      let totalConfidence :=
        fold_left (fun sum i =>
                     (sum + match Insights.confidence_score i with
                            | Some c => c
                            | None => 0
                            end)%Q) insights 0%Q in
      let totalGreenFlags :=
        fold_left (fun sum i => (sum + size (Insights.green_flags i))%nat)
                  insights O in
      let totalRedFlags :=
        fold_left (fun sum i => (sum + size (Insights.red_flags i))%nat)
                  insights O in
      let avgConfidence :=
        (totalConfidence / Js.ofNat (List.length analyses))%Q in
      let flagRatio :=
        if (0 <? totalRedFlags)%nat
        then (Js.ofNat totalGreenFlags / Js.ofNat totalRedFlags)%Q
        else Js.ofNat totalGreenFlags in
      clamp (avgConfidence * (7 # 10) + Js.Qmin (flagRatio * 10) 30)%Q
  end.

Definition toLower (c : ascii) : ascii :=
  let n := nat_of_ascii c in
  if ((65 <=? n) && (n <=? 90))%nat then ascii_of_nat (n + 32) else c.

Fixpoint lowercase (s : string) : string :=
  match s with
  | EmptyString => EmptyString
  | String c rest => String (toLower c) (lowercase rest)
  end.

(** [/^(help|please|can you|could you|how do i)/i.test(text)]. *)
Definition asksForHelp (text : string) : bool :=
  existsb (fun w => String.prefix w (lowercase text))
          ["help"; "please"; "can you"; "could you"; "how do i"].

Definition scoreSelfSufficiency
    (correlations : option (list Correlation.t))
    (semanticAnalyses : option (list SemanticAnalysis.t)) : Q :=
  match correlations with
  | None | Some [] => 50
  | Some cs =>
      let total := List.length cs in
      let questionRate :=
        rate (List.length
                (filter (fun c => Js.includes (Correlation.prompt_text c) "?") cs))
             total in
      let actionRate :=
        rate (List.length
                (filter (fun c => (0 <? Stats.total_edits (Correlation.stats c))%nat)
                        cs))
             total in
      let helpRate :=
        rate (List.length
                (filter (fun c => asksForHelp (Correlation.prompt_text c)) cs))
             total in
      clamp (60
             + (if Js.Qltb 50 questionRate then - 30
                else if Js.Qltb 30 questionRate then - 15
                else if Js.Qltb questionRate 20 then 10 else 0)
             + (if Qle_bool 70 actionRate then 20
                else if Qle_bool 50 actionRate then 10
                else if Js.Qltb actionRate 30 then - 15 else 0)
             + (if Js.Qltb 40 helpRate then - 20
                else if Js.Qltb helpRate 20 then 10 else 0))%Q
  end.

Definition hasType (t : string) (ps : list PositivePattern.t) : bool :=
  existsb (fun p => (PositivePattern.type p =? t)%string) ps.

Definition scoreTechnicalDepth
    (semanticAnalyses : option (list SemanticAnalysis.t))
    (positivePatterns : option (list PositivePattern.t)) : Q :=
  let fromAnalyses :=
    match semanticAnalyses with
    | None | Some [] => 0%Q
    | Some analyses =>
        let total := List.length analyses in
        let techRate :=
          rate (List.length
                  (filter (fun a =>
                             match SemanticAnalysis.rule_based_metrics a with
                             | Some m => (2 <=? Metrics.technical_term_count m)%nat
                             | None => false
                             end) analyses))
               total in
        let fileRefRate :=
          rate (List.length
                  (filter (fun a =>
                             match SemanticAnalysis.rule_based_metrics a with
                             | Some m => Metrics.has_file_refs m
                             | None => false
                             end) analyses))
               total in
        ((if Qle_bool 60 techRate then 25
          else if Qle_bool 40 techRate then 15
          else if Js.Qltb techRate 20 then - 15 else 0)
         + (if Qle_bool 50 fileRefRate then 15
            else if Qle_bool 30 fileRefRate then 10 else 0))%Q
    end in
  let fromPatterns :=
    match positivePatterns with
    | None => 0%Q
    | Some ps =>
        ((if hasType "architectural_thinking" ps then 15 else 0)
         + (if hasType "testing_awareness" ps then 10 else 0)
         + (if hasType "technical_specificity" ps then 10 else 0))%Q
    end in
  clamp (50 + fromAnalyses + fromPatterns)%Q.

Definition scoreCodeCoherence (patternAnalysis : option PatternAnalysis.t)
  : Q :=
  match patternAnalysis with
  | None => 50
  | Some pa =>
      let score1 :=
        match PatternAnalysis.edit_coherence pa with
        | Some ec =>
            (EditCoherence.coherence_score ec * (4 # 10)
             + (if (EditCoherence.scattered_edits ec
                    <? EditCoherence.focused_edits ec)%nat
                then 15 else 0))%Q
        | None => 50%Q
        end in
      let score2 :=
        match PatternAnalysis.iteration_score pa with
        | Some s => (score1 + s * (3 # 10))%Q
        | None => score1
        end in
      let score3 :=
        match PatternAnalysis.reversal_analysis pa with
        | Some ra =>
            (score2 + ReversalAnalysis.reversal_score ra * (3 # 10)
             - (if ReversalAnalysis.red_flag ra then 20 else 0))%Q
        | None => score2
        end in
      clamp score3
  end.

Definition antiPatternPenalty (score : Q) (p : AntiPattern.t) : Q :=
  if (AntiPattern.severity p =? "high")%string then (score - 15)%Q
  else if (AntiPattern.severity p =? "medium")%string then (score - 10)%Q
  else (score - 5)%Q.

Definition positivePatternBonus (score : Q) (p : PositivePattern.t) : Q :=
  if (PositivePattern.type p =? "architectural_thinking")%string
  then (score + 15)%Q
  else if (PositivePattern.type p =? "testing_awareness")%string
  then (score + 12)%Q
  else if (PositivePattern.type p =? "improving_specificity")%string
  then (score + 10)%Q
  else (score + 8)%Q.

Definition scoreUnderstanding
    (antiPatterns : option (list AntiPattern.t))
    (positivePatterns : option (list PositivePattern.t))
    (patternAnalysis : option PatternAnalysis.t) : Q :=
  let score1 :=
    fold_left antiPatternPenalty
              (match antiPatterns with Some l => l | None => [] end) 60%Q in
  let score2 :=
    fold_left positivePatternBonus
              (match positivePatterns with Some l => l | None => [] end)
              score1 in
  let score3 :=
    match patternAnalysis with
    | Some pa =>
        match PatternAnalysis.productivity_score pa with
        | Some prodScore => (score2 + (prodScore - 50) * (2 # 10))%Q
        | None => score2
        end
    | None => score2
    end in
  clamp score3.

Definition calculateDeveloperScore (data : Data.t) : Scores.t :=
  let prompt_quality := scorePromptQuality (Data.semanticAnalyses data) in
  let self_sufficiency :=
    scoreSelfSufficiency (Data.correlations data)
                         (Data.semanticAnalyses data) in
  let technical_depth :=
    scoreTechnicalDepth (Data.semanticAnalyses data)
                        (Data.positivePatterns data) in
  let code_coherence := scoreCodeCoherence (Data.patternAnalysis data) in
  let understanding :=
    scoreUnderstanding (Data.antiPatterns data) (Data.positivePatterns data)
                       (Data.patternAnalysis data) in
  Scores.mk prompt_quality self_sufficiency technical_depth code_coherence
            understanding
            (inject_Z
               (Js.roundQ (prompt_quality * (20 # 100)
                           + self_sufficiency * (20 # 100)
                           + technical_depth * (20 # 100)
                           + code_coherence * (20 # 100)
                           + understanding * (20 # 100))%Q)).

End ScoringEngine.

(* ------------------------------------------------------------------ *)
(** ** background-analyzer.js: the [analysis_results] table *)

Module BackgroundAnalyzer.

Module Row.
Record t : Type := mk {
  id : Z;
  conversation_id : string;
  analyzer_name : string;
  score : Q;
  verdict : string;
  confidence : option Q;
  analysis_data : string;
  analyzed_at : string
}.
End Row.

(** The table with its [AUTOINCREMENT] counter: the largest row id ever
    handed out. *)
Module Table.
Record t : Type := mk {
  rows : list Row.t;
  sequence : Z
}.
End Table.

(** [initializeDatabase] on a fresh file: the table exists and is empty. *)
Definition initializeDatabase : Table.t := Table.mk [] 0.

Definition sameKey (conversationId analyzerName : string) (r : Row.t) : bool :=
  (Row.conversation_id r =? conversationId)%string
  && (Row.analyzer_name r =? analyzerName)%string.

(** One call of [storeResult], as data. *)
Module Call.
Record t : Type := mk {
  conversationId : string;
  analyzerName : string;
  result : Understanding.Result.t;
  now : string
}.
End Call.

Section Store.

(** [JSON.stringify] on an analyzer result. *)
Variable stringify : Understanding.Result.t -> string.

(** [storeResult]: [INSERT OR REPLACE] first deletes the row that
    holds the same [(conversation_id, analyzer_name)], then inserts the
    new row under a fresh id.  [now] is [new Date().toISOString()]. *)
Definition storeResult (table : Table.t) (conversationId analyzerName : string)
                       (result : Understanding.Result.t) (now : string)
  : Table.t :=
  let id := Table.sequence table + 1 in
  Table.mk
    (filter (fun r => negb (sameKey conversationId analyzerName r))
            (Table.rows table)
     ++ [Row.mk id conversationId analyzerName
                (Understanding.Result.score result)
                (Understanding.Result.verdict result)
                (Understanding.Result.confidence result)
                (stringify result) now])%list
    id.

(** A sequence of [storeResult] calls, run in order. *)
Definition store (table : Table.t) (c : Call.t) : Table.t :=
  storeResult table (Call.conversationId c) (Call.analyzerName c)
              (Call.result c) (Call.now c).

Definition storeAll (table : Table.t) (calls : list Call.t) : Table.t :=
  fold_left store calls table.

(** The row a call writes, whatever id it receives. *)
Definition rowOf (id : Z) (c : Call.t) : Row.t :=
  Row.mk id (Call.conversationId c) (Call.analyzerName c)
         (Understanding.Result.score (Call.result c))
         (Understanding.Result.verdict (Call.result c))
         (Understanding.Result.confidence (Call.result c))
         (stringify (Call.result c)) (Call.now c).

End Store.

(** [SELECT * FROM analysis_results WHERE conversation_id = ? AND
    analyzer_name = ?]. *)
Definition rowsFor (table : Table.t) (conversationId analyzerName : string)
  : list Row.t :=
  filter (sameKey conversationId analyzerName) (Table.rows table).

(** The [UNIQUE(conversation_id, analyzer_name)] constraint. *)
Definition uniqueKeys (table : Table.t) : Prop :=
  forall conversationId analyzerName,
    (List.length (rowsFor table conversationId analyzerName) <= 1)%nat.

Definition callKey (conversationId analyzerName : string) (c : Call.t) : bool :=
  (Call.conversationId c =? conversationId)%string
  && (Call.analyzerName c =? analyzerName)%string.

(** The most recent call for a key. *)
Definition lastCall (calls : list Call.t) (conversationId analyzerName : string)
  : option Call.t :=
  find (callKey conversationId analyzerName) (rev calls).

End BackgroundAnalyzer.

(* ------------------------------------------------------------------ *)
(** ** evaluator/correlation-engine.js: detectIterationPatterns

    [fileEditHistory] is an object keyed by file path.  It is represented
    by the list of its entries in insertion order, which is the order
    [Object.keys] lists them in; a path that is a canonical array index
    (listed first by [Object.keys]) or the name of a member of
    [Object.prototype] is outside the model. *)

Module Iteration.

Import CorrelationEngine.

Module Timeline.
Record t : Type := mk {
  prompt_text : string;
  timestamp : Z
}.
End Timeline.

Module Pattern.
Record t : Type := mk {
  file_path : string;
  edit_count : nat;
  unique_prompts : nat;
  has_reversals : bool;
  reversals : list Reversal.t;
  timeline : list Timeline.t
}.
End Pattern.

(** [if (!m[path]) m[path] = []; m[path].push(entry)]. *)
Fixpoint pushEntry (path : string) (entry : HistoryEntry.t)
                   (m : list (string * list HistoryEntry.t))
  : list (string * list HistoryEntry.t) :=
  match m with
  | [] => [(path, [entry])]
  | (k, history) :: rest =>
      if (path =? k)%string then (k, (history ++ [entry])%list) :: rest
      else (k, history) :: pushEntry path entry rest
  end.

Definition entryOf (corr : Correlation.t) (edit : RelatedEdit.t)
  : HistoryEntry.t :=
  HistoryEntry.mk (Correlation.prompt_id corr) (Correlation.prompt_text corr)
                  (RelatedEdit.timestamp edit) (RelatedEdit.old_string edit)
                  (RelatedEdit.new_string edit).

(** The two nested [forEach] loops that fill [fileEditHistory]. *)
Definition fileEditHistory (correlations : list Correlation.t)
  : list (string * list HistoryEntry.t) :=
  fold_left
    (fun m corr =>
       fold_left
         (fun m' edit => pushEntry (RelatedEdit.file_path edit)
                                   (entryOf corr edit) m')
         (Correlation.related_edits corr) m)
    correlations [].

(** [new Set(ids).size]. *)
Definition distinctCount (ids : list Z) : nat :=
  List.length (nodup Z.eq_dec ids).

(** The pattern pushed for one file, if any. *)
Definition patternOf (filePath : string) (history : list HistoryEntry.t)
  : list Pattern.t :=
  if (2 <=? List.length history)%nat then
    let reversals := detectReversals history in
    if (3 <=? List.length history)%nat || (0 <? List.length reversals)%nat
    then [Pattern.mk filePath (List.length history)
                     (distinctCount (map HistoryEntry.prompt_id history))
                     (0 <? List.length reversals)%nat
                     reversals
                     (map (fun h => Timeline.mk
                                      (String.substring
                                         0 60 (HistoryEntry.prompt_text h))
                                      (HistoryEntry.timestamp h))
                          history)]
    else []
  else [].

(** [patterns.sort((a, b) => b.edit_count - a.edit_count)]: a stable sort
    by descending edit count. *)
Definition sortByEditCount (patterns : list Pattern.t) : list Pattern.t :=
  Db.orderBy (fun p => - Z.of_nat (Pattern.edit_count p)) patterns.

Definition detectIterationPatterns (correlations : list Correlation.t)
  : list Pattern.t :=
  sortByEditCount
    (flat_map (fun kv => patternOf (fst kv) (snd kv))
              (fileEditHistory correlations)).

(** [fileEditHistory[path]], empty when the path has no entry. *)
Definition historyOf (path : string) (m : list (string * list HistoryEntry.t))
  : list HistoryEntry.t :=
  match find (fun kv => (fst kv =? path)%string) m with
  | Some kv => snd kv
  | None => []
  end.

(** The related edits of all correlations that touch [path], in order,
    each with the prompt of its correlation. *)
Definition entriesFor (path : string) (correlations : list Correlation.t)
  : list HistoryEntry.t :=
  flat_map
    (fun corr =>
       map (entryOf corr)
           (filter (fun edit => (RelatedEdit.file_path edit =? path)%string)
                   (Correlation.related_edits corr)))
    correlations.

End Iteration.
(* ------------------------------------------------------------------ *)
(** ** evaluator/code-pattern-analyzer.js *)

Module CodePatternAnalyzer.

Import CorrelationEngine.

(** [Number(x.toFixed(2))]: the value a two-decimal string compares as. *)
Definition fixed2 (q : Q) : Q := (inject_Z (Js.roundQ (q * 100)) / 100)%Q.

Module EditCoherence.
Record t : Type := mk {
  coherence_score : Q;
  coherent_prompts : nat;
  incoherent_prompts : nat;
  single_file_edits : nat;
  multi_file_edits : nat;
  focused_edits : nat;
  scattered_edits : nat;
  assessment : string
}.
End EditCoherence.

(** The six counters of the loop in [analyzeEditCoherence]. *)
Module Counts.
Record t : Type := mk {
  coherent : nat;
  incoherent : nat;
  singleFile : nat;
  multiFile : nat;
  focused : nat;
  scattered : nat
}.
End Counts.

Definition coherenceStep (acc : Counts.t) (corr : Correlation.t) : Counts.t :=
  let edits := Stats.total_edits (Correlation.stats corr) in
  let filesChanged := Stats.files_changed (Correlation.stats corr) in
  if (edits =? 0)%nat then acc
  else
    let acc1 :=
      if (filesChanged =? 1)%nat
      then Counts.mk (S (Counts.coherent acc)) (Counts.incoherent acc)
                     (S (Counts.singleFile acc)) (Counts.multiFile acc)
                     (Counts.focused acc) (Counts.scattered acc)
      else if (filesChanged <=? 3)%nat
      then Counts.mk (S (Counts.coherent acc)) (Counts.incoherent acc)
                     (Counts.singleFile acc) (S (Counts.multiFile acc))
                     (Counts.focused acc) (Counts.scattered acc)
      else Counts.mk (Counts.coherent acc) (S (Counts.incoherent acc))
                     (Counts.singleFile acc) (Counts.multiFile acc)
                     (Counts.focused acc) (S (Counts.scattered acc)) in
    if (filesChanged <=? 2)%nat && (edits <=? 5)%nat
    then Counts.mk (Counts.coherent acc1) (Counts.incoherent acc1)
                   (Counts.singleFile acc1) (Counts.multiFile acc1)
                   (S (Counts.focused acc1)) (Counts.scattered acc1)
    else if (4 <=? filesChanged)%nat || (10 <? edits)%nat
    then Counts.mk (Counts.coherent acc1) (Counts.incoherent acc1)
                   (Counts.singleFile acc1) (Counts.multiFile acc1)
                   (Counts.focused acc1) (S (Counts.scattered acc1))
    else acc1.

Definition analyzeEditCoherence (correlations : list Correlation.t)
  : EditCoherence.t :=
  let c := fold_left coherenceStep correlations (Counts.mk 0 0 0 0 0 0) in
  let totalWithEdits := (Counts.coherent c + Counts.incoherent c)%nat in
  let coherenceScore :=
    if (0 <? totalWithEdits)%nat
    then inject_Z (Js.roundQ (Js.ofNat (Counts.coherent c)
                              / Js.ofNat totalWithEdits * 100)%Q)
    else 0%Q in
  EditCoherence.mk coherenceScore (Counts.coherent c) (Counts.incoherent c)
                   (Counts.singleFile c) (Counts.multiFile c)
                   (Counts.focused c) (Counts.scattered c)
                   (if Qle_bool 70 coherenceScore then "good"
                    else if Qle_bool 50 coherenceScore then "moderate"
                    else "poor").

Module IterationAnalysis.
Record t : Type := mk {
  total_iterated_files : nat;
  high_iteration_files : nat;
  moderate_iteration_files : nat;
  avg_iterations_per_file : Js.value;
  iteration_score : Q;
  red_flag : bool;
  assessment : string
}.
End IterationAnalysis.

Definition analyzeIterations (iterationPatterns : list Iteration.Pattern.t)
  : IterationAnalysis.t :=
  let totalIteratedFiles := List.length iterationPatterns in
  let highIterationFiles :=
    List.length
      (filter (fun p => (4 <=? Iteration.Pattern.edit_count p)%nat)
              iterationPatterns) in
  let moderateIterationFiles :=
    List.length
      (filter (fun p => (2 <=? Iteration.Pattern.edit_count p)%nat
                        && (Iteration.Pattern.edit_count p <? 4)%nat)
              iterationPatterns) in
  let sumEdits :=
    fold_left (fun sum p => (sum + Iteration.Pattern.edit_count p)%nat)
              iterationPatterns O in
  let avgIterations :=
    if (0 <? totalIteratedFiles)%nat
    then Js.Str (Js.toFixed2 (Js.ofNat sumEdits / Js.ofNat totalIteratedFiles)%Q)
    else Js.Num (Js.Fin 0%Q) in
  let iterationScore :=
    if (0 <? totalIteratedFiles)%nat
    then Js.Qmax 0 (100 - Js.ofNat highIterationFiles
                          / Js.ofNat totalIteratedFiles * 50)%Q
    else 100%Q in
  IterationAnalysis.mk
    totalIteratedFiles highIterationFiles moderateIterationFiles avgIterations
    (inject_Z (Js.roundQ iterationScore))
    (3 <=? highIterationFiles)%nat
    (if (3 <=? highIterationFiles)%nat then "excessive_iteration"
     else if Js.Qltb (Js.ofNat totalIteratedFiles / 2)%Q
                     (Js.ofNat moderateIterationFiles)
          then "moderate_iteration"
          else "healthy_iteration").

Module ReversalDetail.
Record t : Type := mk {
  file : string;
  reversals : nat;
  timeline : list Iteration.Timeline.t
}.
End ReversalDetail.

Module ReversalAnalysis.
Record t : Type := mk {
  files_with_reversals : nat;
  total_reversals : nat;
  reversal_rate : Q;
  reversal_score : Q;
  red_flag : bool;
  details : list ReversalDetail.t;
  assessment : string
}.
End ReversalAnalysis.

Definition analyzeReversals (iterationPatterns : list Iteration.Pattern.t)
  : ReversalAnalysis.t :=
  let filesWithReversals :=
    filter Iteration.Pattern.has_reversals iterationPatterns in
  let totalReversals :=
    fold_left (fun sum p =>
                 (sum + List.length (Iteration.Pattern.reversals p))%nat)
              filesWithReversals O in
  let reversalRate :=
    if (0 <? List.length iterationPatterns)%nat
    then (Js.ofNat (List.length filesWithReversals)
          / Js.ofNat (List.length iterationPatterns) * 100)%Q
    else 0%Q in
  let reversalScore := Js.Qmax 0 (100 - reversalRate * 2)%Q in
  ReversalAnalysis.mk
    (List.length filesWithReversals) totalReversals
    (inject_Z (Js.roundQ reversalRate))
    (inject_Z (Js.roundQ reversalScore))
    (2 <=? List.length filesWithReversals)%nat
    (map (fun f => ReversalDetail.mk
                     (Iteration.Pattern.file_path f)
                     (List.length (Iteration.Pattern.reversals f))
                     (Iteration.Pattern.timeline f))
         filesWithReversals)
    (if (3 <=? List.length filesWithReversals)%nat then "high_confusion"
     else if (1 <=? List.length filesWithReversals)%nat
          then "some_uncertainty"
          else "confident").

(** [assessment] is missing from the result for a list without edits. *)
Module Productivity.
Record t : Type := mk {
  avg_edits_per_prompt : Js.value;
  avg_files_per_prompt : Js.value;
  productivity_score : Q;
  assessment : option string
}.
End Productivity.

Definition calculateProductivityMetrics (correlations : list Correlation.t)
  : Productivity.t :=
  let withEdits :=
    filter (fun c => (0 <? Stats.total_edits (Correlation.stats c))%nat)
           correlations in
  match withEdits with
  | [] => Productivity.mk (Js.Num (Js.Fin 0%Q)) (Js.Num (Js.Fin 0%Q)) 0 None
  | _ :: _ =>
      let totalEdits :=
        fold_left (fun sum c =>
                     (sum + Stats.total_edits (Correlation.stats c))%nat)
                  withEdits O in
      let totalFiles :=
        fold_left (fun sum c =>
                     (sum + Stats.files_changed (Correlation.stats c))%nat)
                  withEdits O in
      let edits := (Js.ofNat totalEdits / Js.ofNat (List.length withEdits))%Q in
      let files := (Js.ofNat totalFiles / Js.ofNat (List.length withEdits))%Q in
      let avgEdits := fixed2 edits in
      let avgFiles := fixed2 files in
      let productivityScore :=
        (50
         + (if Qle_bool 2 avgEdits && Qle_bool avgEdits 4 then 25
            else if Js.Qltb 4 avgEdits then - 10 else 0)
         + (if Qle_bool 1 avgFiles && Qle_bool avgFiles 2 then 25
            else if Js.Qltb 3 avgFiles then - 10 else 0))%Q in
      Productivity.mk
        (Js.Str (Js.toFixed2 edits)) (Js.Str (Js.toFixed2 files))
        (Js.Qmax 0 (Js.Qmin 100 productivityScore))
        (Some (if Qle_bool 70 productivityScore then "efficient"
               else if Qle_bool 50 productivityScore then "moderate"
               else "inefficient"))
  end.

(** [top_files] and [focus_percentage] are missing from the result when no
    file was touched. *)
Module FileFocus.
Record t : Type := mk {
  total_files_touched : nat;
  top_files : option (list (string * nat));
  focus_percentage : option Q;
  focus_score : Q;
  assessment : string
}.
End FileFocus.

(** [fileEditCount], an object keyed by file path, with its entries in
    insertion order (see [Iteration] for what that leaves out). *)
Definition fileEditCount (correlations : list Correlation.t)
  : list (string * nat) :=
  fold_left
    (fun m corr =>
       fold_left (fun m' edit =>
                    Understanding.increment (RelatedEdit.file_path edit) m')
                 (Correlation.related_edits corr) m)
    correlations [].

Definition sumEdits (files : list (string * nat)) : nat :=
  fold_left (fun sum f => (sum + snd f)%nat) files O.

Definition analyzeFileFocus (correlations : list Correlation.t) : FileFocus.t :=
  let counts := fileEditCount correlations in
  match counts with
  | [] => FileFocus.mk 0 None None 0 "no_data"
  | _ :: _ =>
      let sortedFiles :=
        Db.orderBy (fun f : string * nat => - Z.of_nat (snd f)) counts in
      let top3Files := firstn 3 sortedFiles in
      let focusPercentage :=
        (Js.ofNat (sumEdits top3Files) / Js.ofNat (sumEdits sortedFiles)
         * 100)%Q in
      FileFocus.mk
        (List.length counts) (Some top3Files)
        (Some (inject_Z (Js.roundQ focusPercentage)))
        (if Qle_bool 70 focusPercentage then 90
         else if Qle_bool 50 focusPercentage then 70
         else if Qle_bool 30 focusPercentage then 50 else 30)
        (if Qle_bool 70 focusPercentage then "highly_focused"
         else if Qle_bool 50 focusPercentage then "moderately_focused"
         else "scattered")
  end.

Module Analysis.
Record t : Type := mk {
  edit_coherence : EditCoherence.t;
  iteration_analysis : IterationAnalysis.t;
  reversal_analysis : ReversalAnalysis.t;
  productivity_metrics : Productivity.t;
  file_focus : FileFocus.t
}.
End Analysis.

Definition analyzePatterns (correlations : list Correlation.t)
                           (iterationPatterns : list Iteration.Pattern.t)
  : Analysis.t :=
  Analysis.mk (analyzeEditCoherence correlations)
              (analyzeIterations iterationPatterns)
              (analyzeReversals iterationPatterns)
              (calculateProductivityMetrics correlations)
              (analyzeFileFocus correlations).

(** *** Anti-patterns and positive patterns *)

Module AntiPattern.
Record t : Type := mk {
  type : string;
  severity : string;
  count : nat;
  description : string;
  suggestion : string
}.
End AntiPattern.

(** [/^(fix|help|update|change) (this|that|it)/i.test(text)]. *)
Definition vagueCommand (text : string) : bool :=
  existsb (fun w => String.prefix w (ScoringEngine.lowercase text))
          (flat_map (fun verb => map (fun object => verb ++ " " ++ object)
                                     ["this"; "that"; "it"])
                    ["fix"; "help"; "update"; "change"]).

Definition detectAntiPatterns (correlations : list Correlation.t)
                              (iterationPatterns : list Iteration.Pattern.t)
  : list AntiPattern.t :=
  let questions :=
    filter (fun c => Js.includes (Correlation.prompt_text c) "?"
                     && (Stats.total_edits (Correlation.stats c) =? 0)%nat)
           correlations in
  let vaguePrompts :=
    filter (fun c => (String.length (Correlation.prompt_text c) <? 20)%nat
                     || vagueCommand (Correlation.prompt_text c))
           correlations in
  let filesWithReversals :=
    filter Iteration.Pattern.has_reversals iterationPatterns in
  let excessiveIterations :=
    filter (fun p => (5 <=? Iteration.Pattern.edit_count p)%nat)
           iterationPatterns in
  ((if (5 <=? List.length questions)%nat
    then [AntiPattern.mk "excessive_questions" "medium"
            (List.length questions)
            "Many questions without implementation attempts"
            "Try implementing solutions before asking for guidance"]
    else [])
   ++ (if (5 <=? List.length vaguePrompts)%nat
       then [AntiPattern.mk "vague_prompts" "high"
               (List.length vaguePrompts)
               "Frequent vague or unclear prompts"
               "Be more specific about what you want to change and why"]
       else [])
   ++ (if (3 <=? List.length filesWithReversals)%nat
       then [AntiPattern.mk "frequent_reversals" "high"
               (List.length filesWithReversals)
               "Frequently reverting code changes"
               "Understand requirements before implementing; use version control to track changes"]
       else [])
   ++ (if (2 <=? List.length excessiveIterations)%nat
       then [AntiPattern.mk "excessive_iteration" "medium"
               (List.length excessiveIterations)
               "Editing same files many times"
               "Plan changes before implementing; review code before submitting"]
       else []))%list.

Module PositivePattern.
Record t : Type := mk {
  type : string;
  count : option nat;
  description : string;
  examples : list string;
  percentage : option Js.num;
  improvement : option Js.num
}.
End PositivePattern.

(** A case-insensitive search for one of several literal words. *)
Definition mentions (words : list string) (text : string) : bool :=
  existsb (fun w => Js.includes (ScoringEngine.lowercase text) w) words.

(** The class [\w]. *)
Definition isWordChar (c : ascii) : bool :=
  let n := nat_of_ascii c in
  ((48 <=? n) && (n <=? 57) || (65 <=? n) && (n <=? 90)
   || (97 <=? n) && (n <=? 122) || (n =? 95))%nat.

(** [/\w+\.\w+/.test(s)]: a dot between two word characters. *)
Fixpoint hasDotted (s : string) : bool :=
  match s with
  | String a ((String b (String c _)) as rest) =>
      (isWordChar a && Ascii.eqb b "." && isWordChar c) || hasDotted rest
  | _ => false
  end.

Definition isTechnical (text : string) : bool :=
  (30 <? String.length text)%nat
  && (mentions ["function"; "component"; "api"; "method"] text
      || hasDotted text).

Definition examplesOf (prompts : list Correlation.t) : list string :=
  map (fun p => String.substring 0 80 (Correlation.prompt_text p))
      (firstn 2 prompts).

Definition sumLengths (prompts : list Correlation.t) : nat :=
  fold_left (fun sum c => (sum + String.length (Correlation.prompt_text c))%nat)
            prompts O.

Definition detectPositivePatterns (correlations : list Correlation.t)
  : list PositivePattern.t :=
  let architecturalPrompts :=
    filter (fun c => mentions ["architecture"; "design pattern"; "structure";
                               "refactor"; "organize"; "scalable";
                               "maintainable"]
                              (Correlation.prompt_text c))
           correlations in
  let testingPrompts :=
    filter (fun c => mentions ["test"; "spec"; "unit test"; "integration";
                               "coverage"; "assertion"]
                              (Correlation.prompt_text c))
           correlations in
  let technicalPrompts :=
    filter (fun c => isTechnical (Correlation.prompt_text c)) correlations in
  let total := List.length correlations in
  let half := Nat.div total 2 in
  let firstHalf := firstn half correlations in
  let secondHalf := skipn half correlations in
  let firstAvgLength :=
    Js.div (Js.ofNat (sumLengths firstHalf)) (Js.ofNat (List.length firstHalf)) in
  let secondAvgLength :=
    Js.div (Js.ofNat (sumLengths secondHalf))
           (Js.ofNat (List.length secondHalf)) in
  ((if (2 <=? List.length architecturalPrompts)%nat
    then [PositivePattern.mk "architectural_thinking"
            (Some (List.length architecturalPrompts))
            "Shows architectural and design thinking"
            (examplesOf architecturalPrompts) None None]
    else [])
   ++ (if (2 <=? List.length testingPrompts)%nat
       then [PositivePattern.mk "testing_awareness"
               (Some (List.length testingPrompts))
               "Considers testing and code quality"
               (examplesOf testingPrompts) None None]
       else [])
   ++ (if Qle_bool (Js.ofNat total * (6 # 10))
                   (Js.ofNat (List.length technicalPrompts))
       then [PositivePattern.mk "technical_specificity"
               (Some (List.length technicalPrompts))
               "Uses specific technical language and references" []
               (Some (Js.round
                        (Js.scale (Js.div (Js.ofNat (List.length technicalPrompts))
                                          (Js.ofNat total))
                                  100)))
               None]
       else [])
   ++ (if (5 <=? total)%nat
       then match firstAvgLength, secondAvgLength with
            | Js.Fin f, Js.Fin s =>
                if Js.Qltb (f * (12 # 10)) s
                then [PositivePattern.mk "improving_specificity" None
                        "Prompt quality improving over time (more detailed)"
                        [] None
                        (Some (Js.round
                                 (Js.scale (Js.div (s - f) f) 100)))]
                else []
            | _, _ => []
            end
       else []))%list.

(** The parts of the results that the scoring engine reads. *)
Definition scoringInput (analysis : Analysis.t) : ScoringEngine.PatternAnalysis.t :=
  ScoringEngine.PatternAnalysis.mk
    (Some (ScoringEngine.EditCoherence.mk
             (EditCoherence.coherence_score (Analysis.edit_coherence analysis))
             (EditCoherence.focused_edits (Analysis.edit_coherence analysis))
             (EditCoherence.scattered_edits (Analysis.edit_coherence analysis))))
    (Some (IterationAnalysis.iteration_score
             (Analysis.iteration_analysis analysis)))
    (Some (ScoringEngine.ReversalAnalysis.mk
             (ReversalAnalysis.reversal_score
                (Analysis.reversal_analysis analysis))
             (ReversalAnalysis.red_flag (Analysis.reversal_analysis analysis))))
    (Some (Productivity.productivity_score
             (Analysis.productivity_metrics analysis))).

Definition antiPatternInput (p : AntiPattern.t) : ScoringEngine.AntiPattern.t :=
  ScoringEngine.AntiPattern.mk (AntiPattern.type p) (AntiPattern.severity p).

Definition positivePatternInput (p : PositivePattern.t)
  : ScoringEngine.PositivePattern.t :=
  ScoringEngine.PositivePattern.mk (PositivePattern.type p).

End CodePatternAnalyzer.
(* ------------------------------------------------------------------ *)
(** ** evaluator/semantic-analyzer.js: combineInsights and basicCompare *)

Module SemanticAnalyzer.

(** The result of [getRuleBasedMetrics]. *)
Module RuleMetrics.
Record t : Type := mk {
  word_count : nat;
  char_count : nat;
  has_question_mark : bool;
  has_code_blocks : bool;
  has_file_refs : bool;
  has_numbers : bool;
  starts_with_action_verb : bool;
  vague_word_count : nat;
  technical_term_count : nat;
  politeness_level : string;
  structure_type : string
}.
End RuleMetrics.

(** What [analyzePromptIntent] returned, as far as [combineInsights] reads
    it: [error], [architectural_thinking] and [shows_context_awareness] by
    their truthiness, the two labels when they are strings. *)
Module Intent.
Record t : Type := mk {
  error : bool;
  architectural_thinking : bool;
  shows_context_awareness : bool;
  understanding_level : option string;
  specificity : option string
}.
End Intent.

Module Insights.
Record t : Type := mk {
  confidence_score : Q;
  understanding_indicators : list string;
  red_flags : list string;
  green_flags : list string
}.
End Insights.

Definition flagIf (b : bool) (flag : string) : list string :=
  if b then [flag] else [].

Definition labelled (label : option string) (value : string) : bool :=
  match label with
  | Some l => (l =? value)%string
  | None => false
  end.

Definition combineInsights (ruleMetrics : RuleMetrics.t)
                           (semanticAnalysis : option Intent.t) : Insights.t :=
  let usable :=
    match semanticAnalysis with
    | Some s => if Intent.error s then None else Some s
    | None => None
    end in
  let red_flags :=
    (flagIf (RuleMetrics.word_count ruleMetrics <? 5)%nat
            "Very short prompt - lacks detail"
     ++ flagIf (3 <=? RuleMetrics.vague_word_count ruleMetrics)%nat
               "High vague word usage - unclear intent"
     ++ flagIf (RuleMetrics.politeness_level ruleMetrics =? "high")%string
               "Overly polite - may indicate uncertainty"
     ++ flagIf (RuleMetrics.has_question_mark ruleMetrics
                && (RuleMetrics.word_count ruleMetrics <? 10)%nat)
               "Vague question without context"
     ++ match usable with
        | Some s =>
            flagIf (labelled (Intent.understanding_level s) "confused")
                   "Shows confusion or lack of understanding"
            ++ flagIf (labelled (Intent.specificity s) "vague")
                      "Vague and non-specific"
        | None => []
        end)%list in
  let green_flags :=
    (flagIf (RuleMetrics.has_file_refs ruleMetrics) "References specific files"
     ++ flagIf (RuleMetrics.starts_with_action_verb ruleMetrics)
               "Clear action-oriented command"
     ++ flagIf (3 <=? RuleMetrics.technical_term_count ruleMetrics)%nat
               "Uses technical terminology"
     ++ flagIf (negb (RuleMetrics.structure_type ruleMetrics
                      =? "single_line")%string)
               "Well-structured prompt"
     ++ flagIf (RuleMetrics.has_code_blocks ruleMetrics)
               "Includes code examples"
     ++ match usable with
        | Some s =>
            flagIf (Intent.architectural_thinking s)
                   "Shows architectural thinking"
            ++ flagIf (Intent.shows_context_awareness s)
                      "Context-aware prompt"
            ++ flagIf (labelled (Intent.understanding_level s) "expert")
                      "Expert-level understanding"
        | None => []
        end)%list in
  let greenScore := (Js.ofNat (List.length green_flags) * 15)%Q in
  let redPenalty := (Js.ofNat (List.length red_flags) * 10)%Q in
  Insights.mk (Js.Qmax 0 (Js.Qmin 100 (50 + greenScore - redPenalty)))
              [] red_flags green_flags.

Module Comparison.
Record t : Type := mk {
  is_repetitive : bool;
  is_refinement : bool;
  similarity_score : Js.num;
  shows_learning : bool
}.
End Comparison.

(** [basicCompare]: the Jaccard index of the lower-cased token sets, as a
    rounded percentage. *)
Definition basicCompare (text1 text2 : string) : Comparison.t :=
  let words1 := Js.setOf (Js.splitWs (ScoringEngine.lowercase text1)) in
  let words2 := Js.setOf (Js.splitWs (ScoringEngine.lowercase text2)) in
  let intersection := Js.setOf (filter (fun w => Js.mem w words2) words1) in
  let union := Js.setOf (words1 ++ words2)%list in
  let similarity :=
    Js.round (Js.scale (Js.div (Js.ofNat (List.length intersection))
                               (Js.ofNat (List.length union)))
                       100) in
  Comparison.mk (Js.gtb similarity 70)
                (Js.gtb similarity 40
                 && match similarity with
                    | Js.Fin q => Js.Qltb q 70
                    | Js.NegInf => true
                    | _ => false
                    end)
                similarity false.

End SemanticAnalyzer.

(* ------------------------------------------------------------------ *)
(** ** evaluator/scoring-engine.js: red flags and the assessment level *)

Module Flags.

Module Flag.
Record t : Type := mk {
  category : string;
  severity : string;
  type : string;
  description : string;
  count : option nat;
  suggestion : string
}.
End Flag.

Definition showNat (n : nat) : string :=
  NilZero.string_of_uint (N.to_uint (N.of_nat n)).

(** [severityOrder[s]]; a severity outside the table has no rank. *)
Definition severityOrder (s : string) : option Z :=
  if (s =? "high")%string then Some 0
  else if (s =? "medium")%string then Some 1
  else if (s =? "low")%string then Some 2
  else None.

(** The sort key of a flag.  For a severity without rank the comparator
    returns [NaN] and the order is left to the engine; such a flag is
    ranked last here. *)
Definition rank (f : Flag.t) : Z :=
  match severityOrder (Flag.severity f) with
  | Some r => r
  | None => 3
  end.

(** [generateRedFlags].  [understandingLevels] holds
    [a.semantic_analysis?.understanding_level] for every semantic
    analysis, and is [None] when [semanticAnalyses] is missing. *)
Definition generateRedFlags
    (antiPatterns : option (list CodePatternAnalyzer.AntiPattern.t))
    (patternAnalysis : option CodePatternAnalyzer.Analysis.t)
    (understandingLevels : option (list (option string))) : list Flag.t :=
  let fromAntiPatterns :=
    match antiPatterns with
    | Some l =>
        map (fun p => Flag.mk "anti_pattern"
                              (CodePatternAnalyzer.AntiPattern.severity p)
                              (CodePatternAnalyzer.AntiPattern.type p)
                              (CodePatternAnalyzer.AntiPattern.description p)
                              (Some (CodePatternAnalyzer.AntiPattern.count p))
                              (CodePatternAnalyzer.AntiPattern.suggestion p))
            l
    | None => []
    end in
  let fromReversals :=
    match patternAnalysis with
    | Some pa =>
        let ra := CodePatternAnalyzer.Analysis.reversal_analysis pa in
        if CodePatternAnalyzer.ReversalAnalysis.red_flag ra
        then [Flag.mk "code_pattern" "high" "frequent_reversals"
                (showNat (CodePatternAnalyzer.ReversalAnalysis.files_with_reversals ra)
                 ++ " files with code reversals")
                None
                "Indicates confusion or trial-and-error approach. Plan changes before implementing."]
        else []
    | None => []
    end in
  let fromIterations :=
    match patternAnalysis with
    | Some pa =>
        let ia := CodePatternAnalyzer.Analysis.iteration_analysis pa in
        if CodePatternAnalyzer.IterationAnalysis.red_flag ia
        then [Flag.mk "code_pattern" "medium" "excessive_iteration"
                (showNat (CodePatternAnalyzer.IterationAnalysis.high_iteration_files ia)
                 ++ " files edited 4+ times")
                None
                "Multiple iterations suggest unclear requirements or approach. Review before coding."]
        else []
    | None => []
    end in
  let fromSemantics :=
    match understandingLevels with
    | Some levels =>
        let confusedPrompts :=
          filter (fun l => SemanticAnalyzer.labelled l "confused") levels in
        if (3 <=? List.length confusedPrompts)%nat
        then [Flag.mk "prompt_quality" "medium" "confusion_indicators"
                (showNat (List.length confusedPrompts)
                 ++ " prompts show confusion or uncertainty")
                None
                "Take time to understand requirements before asking AI for help."]
        else []
    | None => []
    end in
  Db.orderBy rank
    (fromAntiPatterns ++ fromReversals ++ fromIterations ++ fromSemantics)%list.

Module Assessment.
Record t : Type := mk {
  level : string;
  stars : nat;
  description : string;
  recommendation : string
}.
End Assessment.

(** [getAssessmentLevel]; [stars] is the number of stars in [emoji]. *)
Definition getAssessmentLevel (overallScore : Q) : Assessment.t :=
  if Qle_bool 85 overallScore
  then Assessment.mk "Expert" 5
         "Demonstrates strong understanding and effective AI collaboration"
         "Strong hire - shows mastery of AI-assisted development"
  else if Qle_bool 70 overallScore
  then Assessment.mk "Proficient" 4
         "Good understanding with minor areas for improvement"
         "Good candidate - shows competence with room to grow"
  else if Qle_bool 55 overallScore
  then Assessment.mk "Developing" 3
         "Moderate understanding, needs improvement in some areas"
         "Consider for junior roles - needs mentorship"
  else if Qle_bool 40 overallScore
  then Assessment.mk "Novice" 2
         "Limited understanding, relies heavily on AI without comprehension"
         "Weak candidate - significant gaps in understanding"
  else Assessment.mk "Concerning" 1
         "Shows confusion and trial-and-error without learning"
         "Not recommended - does not understand the code being written".

End Flags.

(* ------------------------------------------------------------------ *)
(** ** dev-evaluator.js: runAnalysis, steps 2 to 9 *)

Module DevEvaluator.

Module Report.
Record t : Type := mk {
  scores : ScoringEngine.Scores.t;
  assessment : Flags.Assessment.t;
  redFlags : list Flags.Flag.t;
  correlations : list CorrelationEngine.Correlation.t;
  semanticAnalyses : list ScoringEngine.SemanticAnalysis.t;
  patternAnalysis : CodePatternAnalyzer.Analysis.t;
  antiPatterns : list CodePatternAnalyzer.AntiPattern.t;
  positivePatterns : list CodePatternAnalyzer.PositivePattern.t;
  effectiveness : CorrelationEngine.Effectiveness.t;
  iterationPatterns : list Iteration.Pattern.t
}.
End Report.

Section RunAnalysis.

(** [semanticAnalyzer.analyzePrompt(text, id)], which depends on the
    language model, with the understanding level it reports. *)
Variable analyzePrompt :
  string -> Z -> ScoringEngine.SemanticAnalysis.t * option string.

Definition runAnalysis (db : Db.t) : Report.t :=
  let correlations := CorrelationEngine.correlatePromptsToEdits db in
  let effectiveness := CorrelationEngine.analyzeEffectiveness correlations in
  let analyses :=
    map (fun corr => analyzePrompt
                       (CorrelationEngine.Correlation.prompt_text corr)
                       (CorrelationEngine.Correlation.prompt_id corr))
        correlations in
  let semanticAnalyses := map fst analyses in
  let iterationPatterns := Iteration.detectIterationPatterns correlations in
  let patternAnalysis :=
    CodePatternAnalyzer.analyzePatterns correlations iterationPatterns in
  let antiPatterns :=
    CodePatternAnalyzer.detectAntiPatterns correlations iterationPatterns in
  let positivePatterns :=
    CodePatternAnalyzer.detectPositivePatterns correlations in
  let scores :=
    ScoringEngine.calculateDeveloperScore
      (ScoringEngine.Data.mk
         (Some semanticAnalyses) (Some correlations)
         (Some (CodePatternAnalyzer.scoringInput patternAnalysis))
         (Some (map CodePatternAnalyzer.antiPatternInput antiPatterns))
         (Some (map CodePatternAnalyzer.positivePatternInput
                    positivePatterns))) in
  Report.mk scores
            (Flags.getAssessmentLevel (ScoringEngine.Scores.overall scores))
            (Flags.generateRedFlags (Some antiPatterns) (Some patternAnalysis)
                                    (Some (map snd analyses)))
            correlations semanticAnalyses patternAnalysis antiPatterns
            positivePatterns effectiveness iterationPatterns.

End RunAnalysis.

End DevEvaluator.
(* ------------------------------------------------------------------ *)
(** ** background-analyzer.js: polling and analysing conversations *)

Module BackgroundService.

Import BackgroundAnalyzer.

Definition MIN_PROMPTS_THRESHOLD : nat := 3.

(** A row of the [GROUP BY conversation_id] query. *)
Module Candidate.
Record t : Type := mk {
  conversation_id : string;
  prompt_count : nat;
  last_activity : Z
}.
End Candidate.

(** The service: the results table and the set [analyzedConversations]. *)
Module State.
Record t : Type := mk {
  table : Table.t;
  analyzedConversations : list string
}.
End State.

(** [loadAnalyzedConversations]: every conversation that has a result. *)
Definition loadAnalyzedConversations (table : Table.t) : list string :=
  Js.setOf (map Row.conversation_id (Table.rows table)).

Definition initialize (table : Table.t) : State.t :=
  State.mk table (loadAnalyzedConversations table).

Definition promptsOf (db : Db.t) (conversationId : string) : list Prompt.t :=
  filter (fun p => (Prompt.conversation_id p =? conversationId)%string)
         (Db.prompts db).

(** [MAX(timestamp)] over a group, timestamps being compared as the times
    they denote. *)
Definition lastActivity (prompts : list Prompt.t) : Z :=
  match prompts with
  | [] => 0
  | p :: rest =>
      fold_left (fun m q => Z.max m (Prompt.timestamp q)) rest
                (Prompt.timestamp p)
  end.

(** [getUnanalyzedConversations]: the groups of at least
    [MIN_PROMPTS_THRESHOLD] prompts, without the conversations already in
    the set.  The groups are listed in the order in which their first
    prompt appears. *)
Definition getUnanalyzedConversations (db : Db.t) (analyzed : list string)
  : list Candidate.t :=
  let rows :=
    filter (fun row => (MIN_PROMPTS_THRESHOLD <=? Candidate.prompt_count row)%nat)
           (map (fun cid => Candidate.mk cid
                              (List.length (promptsOf db cid))
                              (lastActivity (promptsOf db cid)))
                (Js.setOf (map Prompt.conversation_id (Db.prompts db)))) in
  filter (fun row => negb (Js.mem (Candidate.conversation_id row) analyzed))
         rows.

Definition nameOf (a : Understanding.Analyzer) : string :=
  match a with
  | Understanding.CriticalThinking => "CriticalThinking"
  | Understanding.DebuggingReasoning => "DebuggingReasoning"
  | Understanding.MistakeCatcher => "MistakeCatcher"
  end.

Section Service.

Variable regexTest : string -> string -> bool.
Variable judge : nat -> string -> Understanding.Outcome.
Variable stringify : Understanding.Result.t -> string.

(** [new Date().toISOString()] at the store that receives this row id. *)
Variable clock : Z -> string.

(** [runAnalyzer]: analyse, then store the result.  An analyzer that
    throws is outside the model. *)
Definition runAnalyzer (a : Understanding.Analyzer) (db : Db.t)
                       (conversationId : string) (table : Table.t)
  : Understanding.M Table.t :=
  Understanding.bind
    (Understanding.analyze regexTest judge a db conversationId)
    (fun result =>
       Understanding.ret
         (storeResult stringify table conversationId (nameOf a) result
                      (clock (Table.sequence table + 1)))).

(** [analyzeConversation]: the three analyzers in turn, then the
    conversation joins the set. *)
Definition analyzeConversation (db : Db.t) (state : State.t)
                               (conv : Candidate.t)
  : Understanding.M State.t :=
  let conversationId := Candidate.conversation_id conv in
  Understanding.bind
    (runAnalyzer Understanding.CriticalThinking db conversationId
                 (State.table state))
    (fun t1 =>
       Understanding.bind
         (runAnalyzer Understanding.DebuggingReasoning db conversationId t1)
         (fun t2 =>
            Understanding.bind
              (runAnalyzer Understanding.MistakeCatcher db conversationId t2)
              (fun t3 =>
                 Understanding.ret
                   (State.mk t3
                             (Js.add (State.analyzedConversations state)
                                     conversationId))))).

Fixpoint analyzeEach (db : Db.t) (state : State.t)
                     (conversations : list Candidate.t)
  : Understanding.M State.t :=
  match conversations with
  | [] => Understanding.ret state
  | conv :: rest =>
      Understanding.bind (analyzeConversation db state conv)
                         (fun state' => analyzeEach db state' rest)
  end.

(** One round of [poll]. *)
Definition poll (db : Db.t) (state : State.t) : Understanding.M State.t :=
  analyzeEach db state
    (getUnanalyzedConversations db (State.analyzedConversations state)).

End Service.

End BackgroundService.
(* ------------------------------------------------------------------ *)
(** ** Views of the analyzer loop used in the statements below *)

Module Judged.

Import Understanding.

Section Judgments.

Variable regexTest : string -> string -> bool.
Variable judge : nat -> string -> Outcome.

(** The prompts that are submitted, each with the verdict it receives;
    [log] holds the texts submitted before. *)
Fixpoint judgments (a : Analyzer) (prompts : list Prompt.t) (log : list string)
  : list (Prompt.t * Verdict.t) :=
  match prompts with
  | [] => []
  | p :: rest =>
      if (String.length (Prompt.prompt_text p) <? 10)%nat
      then judgments a rest log
      else (p, fst (analyzePromptWithAI regexTest judge a
                                        (Prompt.prompt_text p) log))
           :: judgments a rest (log ++ [Prompt.prompt_text p])%list
  end.

End Judgments.

(** The analysis kept for a prompt judged relevant. *)
Definition findingOf (j : Prompt.t * Verdict.t) : Finding.t :=
  Finding.mk (Prompt.prompt_text (fst j)) (Verdict.type (snd j))
             (Verdict.severity (snd j)) (Verdict.qualityScore (snd j))
             (Verdict.evidence (snd j)) (Verdict.reasoning (snd j))
             (Prompt.prompt_sequence_number (fst j)).

Definition unparsed (j : Prompt.t * Verdict.t) : bool :=
  Verdict.parseError (snd j).

Definition relevant (j : Prompt.t * Verdict.t) : bool :=
  Verdict.relevant (snd j).

(** The lowest verdict of an analyzer. *)
Definition bottomVerdict (a : Analyzer) : string :=
  match a with
  | CriticalThinking => "copy-paste"
  | DebuggingReasoning => "helpless"
  | MistakeCatcher => "not_critical"
  end.

(** A response from which no verdict can be read. *)
Definition unparseable (o : Outcome) : Prop :=
  o = Responded NoMatch \/ exists message, o = Responded (ParseThrows message).

End Judged.
(* ------------------------------------------------------------------ *)
(** ** Ranges and sample data used by the statements below *)

Definition qualityInRange (q : Q) : Prop := (0 <= q <= 10)%Q.

Definition percent (q : Q) : Prop := (0 <= q <= 100)%Q.

(** One conversation: two prompts, an edit before the first prompt, one at
    the first prompt's very timestamp, one between the prompts and one at
    the second prompt's timestamp. *)
Definition sampleDb : Db.t :=
  Db.mk [Prompt.mk 1 "c1" "add a login form" None 1000 1 false;
         Prompt.mk 2 "c1" "why does it fail?" None 5000 2 false]
        [Edit.mk 1 "c1" "login.js" None (Some "form") None 500;
         Edit.mk 2 "c1" "login.js" (Some "form") (Some "form2") None 1000;
         Edit.mk 3 "c1" "app.js" (Some "a") (Some "b") None 3000;
         Edit.mk 4 "c1" "login.js" (Some "form2") (Some "form") None 5000]
        [].


Definition editAtFirstPrompt : Edit.t :=
  Edit.mk 2 "c1" "login.js" (Some "form") (Some "form2") None 1000.

(** A change that is taken back by the next edit. *)
Definition revertingHistory : list CorrelationEngine.HistoryEntry.t :=
  [CorrelationEngine.HistoryEntry.mk
     1 "add retry loop" 1000 (Some "return fetch(url);")
     (Some "return retry(() => fetch(url));");
   CorrelationEngine.HistoryEntry.mk
     2 "undo that" 2000 (Some "return retry(() => fetch(url));")
     (Some "return fetch(url);")].

(** The history of a file that was created empty and emptied again. *)
Definition emptiedHistory : list CorrelationEngine.HistoryEntry.t :=
  [CorrelationEngine.HistoryEntry.mk
     1 "create the file" 1000 (Some "") (Some "let x = 1;");
   CorrelationEngine.HistoryEntry.mk
     2 "start over" 2000 (Some "let x = 1;") (Some "")].

(** Three stores, the third for the key of the first. *)
Definition sampleCalls : list BackgroundAnalyzer.Call.t :=
  [BackgroundAnalyzer.Call.mk "c1" "CriticalThinking"
     (Understanding.noPrompts Understanding.CriticalThinking)
     "2025-12-16T10:00:00.000Z";
   BackgroundAnalyzer.Call.mk "c1" "MistakeCatcher"
     (Understanding.noPrompts Understanding.MistakeCatcher)
     "2025-12-16T10:00:01.000Z";
   BackgroundAnalyzer.Call.mk "c1" "CriticalThinking"
     (Understanding.noPrompts Understanding.DebuggingReasoning)
     "2025-12-16T11:00:00.000Z"].

(** The judgment capability when the model server cannot be reached. *)
Definition capabilityDown : nat -> string -> Understanding.Outcome :=
  fun _ _ => Understanding.CallFailed.

Definition failingPrompt : Prompt.t :=
  Prompt.mk 7 "c2" "Please fix the login page" None 1000 1 false.

Definition shortPrompt : Prompt.t :=
  Prompt.mk 8 "c3" "fix it" None 1000 1 false.

Definition longPrompt : Prompt.t :=
  Prompt.mk 9 "c3" "what if the token has expired?" None 2000 2 false.

(** A capability that answers every prompt with a well-formed verdict. *)
Definition alwaysRelevant : nat -> string -> Understanding.Outcome :=
  fun _ _ =>
    Understanding.Responded
      (Understanding.Parsed
         (Understanding.Raw.mk (Some true) (Some "edge_case") (Some "medium")
                               (Some 7%Q) (Some "what if") (Some "asks")
                               false)).

(** No rule of the fallback matches. *)
Definition noRuleMatches : string -> string -> bool := fun _ _ => false.


(** A capability whose answers never contain JSON. *)
Definition chatty : nat -> string -> Understanding.Outcome :=
  fun _ _ => Understanding.Responded Understanding.NoMatch.



(** A store whose only conversation holds one short prompt. *)
Definition shortDb : Db.t := Db.mk [shortPrompt] [] [].

(** A store that holds an edit and no prompt. *)
Definition emptyStore : Db.t := Db.mk [] [editAtFirstPrompt] [].

(** A semantic analyzer that adds nothing to the prompt text. *)
Definition noSemantics (text : string) (id : Z)
  : ScoringEngine.SemanticAnalysis.t * option string :=
  (ScoringEngine.SemanticAnalysis.mk text None None, None).
(* ------------------------------------------------------------------ *)
(** ** Arithmetic on the rationals that stand for JavaScript numbers *)

Lemma Qltb_true (a b : Q) : Js.Qltb a b = true <-> (a < b)%Q.
Proof.
  unfold Js.Qltb. rewrite negb_true_iff. split.
  - intros H. apply Qnot_le_lt. intros Hle.
    apply Qle_bool_iff in Hle. congruence.
  - intros H. destruct (Qle_bool b a) eqn:E; [| reflexivity].
    apply Qle_bool_iff in E. exfalso. apply (Qlt_not_le _ _ H E).
Qed.

Lemma Qltb_false (a b : Q) : Js.Qltb a b = false <-> (b <= a)%Q.
Proof.
  unfold Js.Qltb. rewrite negb_false_iff. apply Qle_bool_iff.
Qed.

Lemma Qle_bool_false (a b : Q) : Qle_bool a b = false <-> (b < a)%Q.
Proof.
  split.
  - intros H. apply Qnot_le_lt. intros Hle.
    apply Qle_bool_iff in Hle. congruence.
  - intros H. destruct (Qle_bool a b) eqn:E; [| reflexivity].
    apply Qle_bool_iff in E. exfalso. apply (Qlt_not_le _ _ H E).
Qed.

Lemma Qmin_cases (a b : Q) :
  ((a <= b)%Q /\ Js.Qmin a b = a) \/ ((b < a)%Q /\ Js.Qmin a b = b).
Proof.
  unfold Js.Qmin. destruct (Qle_bool a b) eqn:E.
  - left. split; [now apply Qle_bool_iff | reflexivity].
  - right. split; [now apply Qle_bool_false | reflexivity].
Qed.

Lemma Qmax_cases (a b : Q) :
  ((a <= b)%Q /\ Js.Qmax a b = b) \/ ((b < a)%Q /\ Js.Qmax a b = a).
Proof.
  unfold Js.Qmax. destruct (Qle_bool a b) eqn:E.
  - left. split; [now apply Qle_bool_iff | reflexivity].
  - right. split; [now apply Qle_bool_false | reflexivity].
Qed.

(** Rounding keeps a number between two integers that bound it. *)
Lemma roundQ_bounds (lo hi : Z) (q : Q) :
  (inject_Z lo <= q)%Q -> (q <= inject_Z hi)%Q ->
  lo <= Js.roundQ q <= hi.
Proof.
  intros Hlo Hhi. unfold Js.roundQ. split.
  - rewrite <- (Qfloor_Z lo). apply Qfloor_resp_le. lra.
  - pose proof (Qfloor_le (q + (1 # 2))) as Hf.
    assert (Hz : (inject_Z (Qfloor (q + (1 # 2))) <= inject_Z hi + (1 # 2))%Q)
      by lra.
    revert Hz. generalize (Qfloor (q + (1 # 2))). intros z Hz.
    unfold Qle, inject_Z, Qplus in Hz. simpl in Hz. lia.
Qed.

Lemma ofNat_nonneg (n : nat) : (0 <= Js.ofNat n)%Q.
Proof.
  unfold Js.ofNat. change 0%Q with (inject_Z 0). rewrite <- Zle_Qle. lia.
Qed.

Lemma ofNat_pos (n : nat) : (0 < n)%nat -> (0 < Js.ofNat n)%Q.
Proof.
  intros H. unfold Js.ofNat. change 0%Q with (inject_Z 0).
  rewrite <- Zlt_Qlt. lia.
Qed.

Lemma ofNat_le (n m : nat) : (n <= m)%nat -> (Js.ofNat n <= Js.ofNat m)%Q.
Proof. intros H. unfold Js.ofNat. rewrite <- Zle_Qle. lia. Qed.

(** A guarded division of counts is a number between 0 and 1. *)
Lemma div_counts (n m : nat) :
  (0 < m)%nat -> (n <= m)%nat ->
  Js.div (Js.ofNat n) (Js.ofNat m) = Js.Fin (Js.ofNat n / Js.ofNat m)
  /\ (0 <= Js.ofNat n / Js.ofNat m <= 1)%Q.
Proof.
  intros Hm Hnm. pose proof (ofNat_pos Hm) as Hpos.
  pose proof (ofNat_nonneg n) as Hn. pose proof (ofNat_le Hnm) as Hle.
  split.
  - unfold Js.div. destruct (Qeq_bool (Js.ofNat m) 0) eqn:E; [| reflexivity].
    apply Qeq_bool_eq in E. lra.
  - split.
    + apply Qle_shift_div_l; [exact Hpos | lra].
    + apply Qle_shift_div_r; [exact Hpos | lra].
Qed.

(* ------------------------------------------------------------------ *)
(** ** Properties of the correlation engine *)

Section OrderBy.

Variable A : Type.
Variable key : A -> Z.

Lemma insertBy_sorted (x : A) (l : list A) :
  StronglySorted Z.le (map key l) ->
  StronglySorted Z.le (map key (Db.insertBy key x l)).
Proof.
  induction l as [|y l IH]; simpl; intros Hs.
  - constructor; [constructor | constructor].
  - destruct (Z.leb_spec (key x) (key y)) as [Hle | Hgt]; simpl.
    + constructor; [exact Hs |].
      inversion Hs as [| ? ? _ Hall]; subst.
      constructor; [exact Hle |].
      rewrite Forall_forall in *. intros z Hz. specialize (Hall z Hz). lia.
    + inversion Hs as [| ? ? Hs' Hall]; subst.
      constructor; [apply IH; exact Hs' |].
      rewrite Forall_forall in *. intros z Hz.
      apply in_map_iff in Hz. destruct Hz as [w [<- Hw]].
      assert (Hin : w = x \/ In w l).
      { clear - Hw. induction l as [|v l IHl]; simpl in Hw.
        - destruct Hw as [-> | []]; now left.
        - destruct (key x <=? key v); simpl in Hw.
          + destruct Hw as [-> | Hw]; [now left | now right].
          + destruct Hw as [-> | Hw]; [right; now left |].
            destruct (IHl Hw) as [-> | Hl]; [now left | right; now right]. }
      destruct Hin as [-> | Hin]; [lia |].
      apply Hall, in_map, Hin.
Qed.

Lemma orderBy_sorted (l : list A) :
  StronglySorted Z.le (map key (Db.orderBy key l)).
Proof.
  induction l as [|x l IH]; simpl.
  - constructor.
  - apply insertBy_sorted, IH.
Qed.

Lemma insertBy_length (x : A) (l : list A) :
  List.length (Db.insertBy key x l) = S (List.length l).
Proof.
  induction l as [|y l IH]; simpl; [reflexivity |].
  destruct (key x <=? key y); simpl; [reflexivity | now rewrite IH].
Qed.

Lemma orderBy_length (l : list A) :
  List.length (Db.orderBy key l) = List.length l.
Proof.
  induction l as [|x l IH]; simpl; [reflexivity |].
  now rewrite insertBy_length, IH.
Qed.

End OrderBy.



Import CorrelationEngine.

Lemma nth_error_indexed {A B : Type} (f : nat -> A -> B) (l : list A)
      (s j : nat) :
  nth_error (map (fun ix => f (fst ix) (snd ix))
                 (combine (seq s (List.length l)) l)) j
  = option_map (f (s + j)%nat) (nth_error l j).
Proof.
  revert s j. induction l as [|x l IH]; intros s j; simpl.
  - now destruct j.
  - destruct j as [|j]; simpl.
    + now rewrite Nat.add_0_r.
    + rewrite IH. now rewrite Nat.add_succ_r.
Qed.

Lemma nth_error_forEachIndexed {A B : Type} (f : nat -> A -> B) (l : list A)
      (j : nat) :
  nth_error (forEachIndexed f l) j = option_map (f j) (nth_error l j).
Proof. unfold forEachIndexed. now rewrite nth_error_indexed. Qed.

Lemma In_forEachIndexed {A B : Type} (f : nat -> A -> B) (l : list A) (y : B) :
  In y (forEachIndexed f l) ->
  exists i x, nth_error l i = Some x /\ y = f i x.
Proof.
  intros Hin. apply In_nth_error in Hin. destruct Hin as [i Hi].
  rewrite nth_error_forEachIndexed in Hi.
  destruct (nth_error l i) as [x|] eqn:Hx; [| discriminate].
  exists i, x. split; [exact Hx |]. simpl in Hi. congruence.
Qed.






Lemma getConversationData_prompts_sorted (db : Db.t) (cid : string) :
  StronglySorted Z.le (promptTimes (getConversationData db cid)).
Proof. apply orderBy_sorted. Qed.



(** *** The windows of a sorted list of prompt times partition the
    half-line that starts at the first prompt *)







(** *** Reversal detection *)

Lemma detectReversalsFrom_index_ge (rest : list HistoryEntry.t) :
  forall i prev,
    Forall (fun r => (i <= Reversal.index r)%nat)
           (detectReversalsFrom i prev rest).
Proof.
  induction rest as [|curr rest IH]; intros i prev; simpl; [constructor |].
  apply Forall_app. split.
  - destruct (isSimilarCode _ _); repeat constructor.
  - eapply Forall_impl; [| apply IH]. simpl. intros r Hr. lia.
Qed.

(** Index [k] is reported exactly when [edit[k]]'s new content is similar
    to [edit[k-1]]'s old content. *)
Lemma detectReversalsFrom_spec (rest : list HistoryEntry.t) :
  forall i prev k,
    In k (map Reversal.index (detectReversalsFrom i prev rest)) <->
    exists before curr,
      (i <= k)%nat /\
      nth_error (prev :: rest) (k - i) = Some before /\
      nth_error rest (k - i) = Some curr /\
      isSimilarCode (HistoryEntry.new_string curr)
                    (HistoryEntry.old_string before) = true.
Proof.
  induction rest as [|curr rest IH]; intros i prev k; simpl.
  - split; [intros [] |]. intros [b [c [_ [_ [Hc _]]]]].
    now destruct (k - i)%nat.
  - rewrite map_app, in_app_iff, IH. split.
    + intros [Hhere | [b [c [Hle [Hb [Hc Hsim]]]]]].
      * destruct (isSimilarCode (HistoryEntry.new_string curr)
                                (HistoryEntry.old_string prev)) eqn:Hsim;
          simpl in Hhere; [| contradiction].
        destruct Hhere as [<- | []].
        exists prev, curr. rewrite Nat.sub_diag. simpl. auto.
      * exists b, c. split; [lia |].
        replace (k - i)%nat with (S (k - S i)) by lia. simpl. auto.
    + intros [b [c [Hle [Hb [Hc Hsim]]]]].
      destruct (k - i)%nat as [|d] eqn:Hd.
      * left. simpl in Hb, Hc. inversion Hb; inversion Hc; subst b c.
        rewrite Hsim. simpl. left. lia.
      * right. exists b, c. split; [lia |].
        replace (k - S i)%nat with d by lia. simpl in Hb, Hc. auto.
Qed.

Lemma isSimilarCode_same (s : string) :
  s <> "" -> isSimilarCode (Some s) (Some s) = true.
Proof.
  intros Hs. unfold isSimilarCode.
  destruct s as [|c s]; [now elim Hs |]. simpl.
  now rewrite String.eqb_refl.
Qed.

Lemma isSimilarCode_empty_l (x : option string) :
  isSimilarCode (Some "") x = false.
Proof. unfold isSimilarCode. now destruct x. Qed.

Lemma isSimilarCode_empty_r (x : option string) :
  isSimilarCode x (Some "") = false.
Proof.
  unfold isSimilarCode. destruct x as [s|]; [| reflexivity].
  simpl. now rewrite orb_true_r.
Qed.

(** C7, as the code has it.  When [edit[1].new_string] equals
    [edit[0].old_string] and that string is not empty, [detectReversals]
    reports index 1 first, and nothing else when the history has just these
    two edits; in general index [k] is reported exactly when
    [isSimilarCode(edit[k].new_string, edit[k-1].old_string)] holds. *)
Theorem detectReversals_exact_match
        (e0 e1 : HistoryEntry.t) (rest : list HistoryEntry.t) (s : string) :
  HistoryEntry.old_string e0 = Some s ->
  HistoryEntry.new_string e1 = Some s ->
  s <> "" ->
  (exists r later,
     detectReversals (e0 :: e1 :: rest) = r :: later /\
     Reversal.index r = 1%nat /\
     Forall (fun r' => (2 <= Reversal.index r')%nat) later /\
     (rest = [] -> later = []))
  /\ (forall k,
        In k (map Reversal.index (detectReversals (e0 :: e1 :: rest))) <->
        exists before curr,
          (1 <= k)%nat /\
          nth_error (e0 :: e1 :: rest) (k - 1) = Some before /\
          nth_error (e0 :: e1 :: rest) k = Some curr /\
          isSimilarCode (HistoryEntry.new_string curr)
                        (HistoryEntry.old_string before) = true).
Proof.
  intros Hold Hnew Hs. split.
  - simpl. rewrite Hold, Hnew, (isSimilarCode_same Hs). simpl.
    eexists. eexists. split; [reflexivity |]. split; [reflexivity |].
    split; [apply detectReversalsFrom_index_ge |].
    intros ->. reflexivity.
  - intros k. unfold detectReversals. rewrite detectReversalsFrom_spec.
    split; intros [b [c [Hle [Hb [Hc Hsim]]]]]; exists b, c;
      (split; [exact Hle |]); (split; [exact Hb |]); (split; [| exact Hsim]).
    + destruct k as [|k]; [lia |]. simpl.
      replace (S k - 1)%nat with k in Hc by lia. exact Hc.
    + destruct k as [|k]; [lia |]. simpl in Hc.
      replace (S k - 1)%nat with k by lia. exact Hc.
Qed.

Lemma detectReversals_exact_match_witness :
  exists r,
    detectReversals revertingHistory = [r] /\ Reversal.index r = 1%nat.
Proof.
  destruct (@detectReversals_exact_match
              (HistoryEntry.mk 1 "add retry loop" 1000
                               (Some "return fetch(url);")
                               (Some "return retry(() => fetch(url));"))
              (HistoryEntry.mk 2 "undo that" 2000
                               (Some "return retry(() => fetch(url));")
                               (Some "return fetch(url);"))
              [] "return fetch(url);" eq_refl eq_refl)
    as [[r [later [Heq [Hidx [_ Hnil]]]]] _].
  - discriminate.
  - exists r. rewrite (Hnil eq_refl) in Heq. split; [exact Heq | exact Hidx].
Defined.

(** C7 fails as stated: here [edit[1].new_string] equals
    [edit[0].old_string] exactly, both being empty, and no reversal is
    returned. *)
Lemma detectReversals_empty_match_counterexample :
  (exists e0 e1,
     emptiedHistory = [e0; e1] /\
     HistoryEntry.new_string e1 = HistoryEntry.old_string e0)
  /\ ~ (exists r,
          detectReversals emptiedHistory = [r] /\ Reversal.index r = 1%nat).
Proof.
  split.
  - eexists. eexists. split; reflexivity.
  - intros [r [Hr _]]. discriminate Hr.
Qed.

(** *** Token sets and the similarity ratio *)

Lemma mem_In (x : string) (l : list string) :
  Js.mem x l = true <-> In x l.
Proof.
  unfold Js.mem. rewrite existsb_exists. split.
  - intros [y [Hy Heq]]. apply String.eqb_eq in Heq. now subst.
  - intros Hin. exists x. split; [exact Hin | apply String.eqb_refl].
Qed.

Lemma setOf_fold_In (l acc : list string) (x : string) :
  In x (fold_left Js.add l acc) <-> In x acc \/ In x l.
Proof.
  revert acc. induction l as [|y l IH]; intros acc; simpl.
  - tauto.
  - rewrite IH. unfold Js.add.
    destruct (Js.mem y acc) eqn:Hm.
    + apply mem_In in Hm. split; [tauto |].
      intros [H | [<- | H]]; tauto.
    + rewrite in_app_iff. simpl. tauto.
Qed.

Lemma setOf_fold_NoDup (l acc : list string) :
  NoDup acc -> NoDup (fold_left Js.add l acc).
Proof.
  revert acc. induction l as [|y l IH]; intros acc Hnd; simpl; [exact Hnd |].
  apply IH. unfold Js.add. destruct (Js.mem y acc) eqn:Hm; [exact Hnd |].
  apply NoDup_app; [exact Hnd | |].
  - repeat constructor. intros [].
  - intros z Hz [<- | []].
    apply mem_In in Hz. congruence.
Qed.

Lemma In_length_pos {A : Type} (x : A) (l : list A) :
  In x l -> (0 < List.length l)%nat.
Proof. destruct l; simpl; [intros [] | lia]. Qed.

Lemma setOf_In (l : list string) (x : string) : In x (Js.setOf l) <-> In x l.
Proof. unfold Js.setOf. rewrite setOf_fold_In. simpl. tauto. Qed.

Lemma setOf_NoDup (l : list string) : NoDup (Js.setOf l).
Proof. unfold Js.setOf. apply setOf_fold_NoDup. constructor. Qed.

Lemma splitFrom_nonempty (s cur : string) (inSep : bool) :
  Js.splitFrom cur inSep s <> [].
Proof.
  revert cur inSep. induction s as [|c s IH]; intros cur inSep; simpl.
  - discriminate.
  - destruct (Js.isSpace c); [destruct inSep |]; try apply IH. discriminate.
Qed.

Lemma tokens_nonempty (s : string) : Js.setOf (Js.splitWs s) <> [].
Proof.
  pose proof (@splitFrom_nonempty s "" false) as Hne.
  unfold Js.splitWs. destruct (Js.splitFrom "" false s) as [|t ts] eqn:E;
    [now elim Hne |].
  intros Hnil. assert (Hin : In t (Js.setOf (t :: ts)))
    by (apply setOf_In; now left).
  rewrite Hnil in Hin. exact Hin.
Qed.

(** C4, as the code has it.  [calculateSimilarity] never divides by zero:
    the token set of any string has a member (the empty string splits into
    one empty token), so the result is always a number between 0 and 1; for
    two empty strings it is 1; and [isSimilarCode] answers [false] for an
    empty argument on either side. *)
Theorem calculateSimilarity_defined :
  (forall str1 str2,
     exists q, calculateSimilarity str1 str2 = Js.Fin q /\ (0 <= q <= 1)%Q)
  /\ (exists q, calculateSimilarity "" "" = Js.Fin q /\ (q == 1)%Q)
  /\ (forall x, isSimilarCode (Some "") x = false
                /\ isSimilarCode x (Some "") = false).
Proof.
  split; [| split].
  - intros str1 str2. unfold calculateSimilarity.
    generalize (tokens_nonempty str1).
    generalize (Js.setOf (Js.splitWs str1)) (Js.setOf (Js.splitWs str2)).
    intros set1 set2 Hne.
    assert (Hpos : (0 < List.length (Js.setOf (set1 ++ set2)%list))%nat).
    { destruct set1 as [|t ts]; [now elim Hne |].
      apply (@In_length_pos _ t), (proj2 (setOf_In _ _)), in_or_app.
      left. now left. }
    assert (Hle : (List.length
                     (Js.setOf (filter (fun x => Js.mem x set2) set1))
                   <= List.length (Js.setOf (set1 ++ set2)%list))%nat).
    { apply NoDup_incl_length; [apply setOf_NoDup |].
      intros x Hx. apply (proj1 (setOf_In _ _)) in Hx.
      apply filter_In in Hx.
      apply (proj2 (setOf_In _ _)), in_or_app. left. apply Hx. }
    destruct (div_counts Hpos Hle) as [Hdiv Hbounds].
    eexists. split; [exact Hdiv | exact Hbounds].
  - eexists. split; reflexivity.
  - intros x. split; [apply isSimilarCode_empty_l | apply isSimilarCode_empty_r].
Qed.

(** C4 fails as stated: for two empty strings the result is not 0. *)
Lemma calculateSimilarity_empty_counterexample :
  ~ (exists q, calculateSimilarity "" "" = Js.Fin q /\ (q == 0)%Q).
Proof.
  intros [q [Hq Hz]]. vm_compute in Hq. inversion Hq; subst q.
  discriminate Hz.
Qed.

(** C5.  On the empty list [analyzeEffectiveness] divides 0 by 0:
    [effectiveness_score] is [NaN], not 0; the other fields are 0. *)
Theorem analyzeEffectiveness_empty :
  analyzeEffectiveness []
  = Effectiveness.mk 0 0 0 (Js.Num (Js.Fin 0)) (Js.Num (Js.Fin 0))
                     (Js.Fin 0) Js.NaN.
Proof. reflexivity. Qed.

(* ------------------------------------------------------------------ *)
(** ** The results table *)

Section Upsert.

Import BackgroundAnalyzer.

Variable stringify : Understanding.Result.t -> string.

Lemma sameKey_rowOf (cid name : string) (id : Z) (c : Call.t) :
  sameKey cid name (rowOf stringify id c) = callKey cid name c.
Proof. reflexivity. Qed.

Lemma callKey_true (cid name : string) (c : Call.t) :
  callKey cid name c = true ->
  Call.conversationId c = cid /\ Call.analyzerName c = name.
Proof.
  unfold callKey. intros H. apply andb_true_iff in H.
  destruct H as [H1 H2]. split; now apply String.eqb_eq.
Qed.

(** The rows of one key after one store: the new row alone if the key is
    the stored one, the old rows otherwise. *)
Lemma rowsFor_store (t : Table.t) (c : Call.t) (cid name : string) :
  rowsFor (store stringify t c) cid name
  = if callKey cid name c
    then [rowOf stringify (Table.sequence t + 1) c]
    else rowsFor t cid name.
Proof.
  unfold rowsFor, store, storeResult. cbn [Table.rows].
  rewrite filter_app. cbn [filter].
  fold (rowOf stringify (Table.sequence t + 1) c).
  rewrite sameKey_rowOf.
  destruct (callKey cid name c) eqn:Hk.
  - apply callKey_true in Hk. destruct Hk as [<- <-].
    replace (filter (sameKey (Call.conversationId c) (Call.analyzerName c))
                    (filter (fun r => negb (sameKey (Call.conversationId c)
                                                    (Call.analyzerName c) r))
                            (Table.rows t)))
      with (@nil Row.t); [reflexivity |].
    induction (Table.rows t) as [|r rows IH]; [reflexivity |].
    simpl. destruct (sameKey _ _ r) eqn:Hr; simpl; [exact IH |].
    now rewrite Hr.
  - rewrite app_nil_r.
    induction (Table.rows t) as [|r rows IH]; [reflexivity |].
    simpl.
    destruct (sameKey (Call.conversationId c) (Call.analyzerName c) r) eqn:Hr;
      simpl.
    + destruct (sameKey cid name r) eqn:Hr'; [| exact IH].
      exfalso. unfold sameKey in Hr, Hr'. unfold callKey in Hk.
      apply andb_true_iff in Hr, Hr'. destruct Hr as [A1 A2], Hr' as [B1 B2].
      apply String.eqb_eq in A1, A2, B1, B2.
      rewrite <- A1, <- A2, B1, B2, !String.eqb_refl in Hk. discriminate.
    + destruct (sameKey cid name r); [now rewrite IH | exact IH].
Qed.

Lemma storeAll_snoc (t : Table.t) (calls : list Call.t) (c : Call.t) :
  storeAll stringify t (calls ++ [c])
  = store stringify (storeAll stringify t calls) c.
Proof. unfold storeAll. now rewrite fold_left_app. Qed.

Lemma lastCall_snoc (calls : list Call.t) (c : Call.t) (cid name : string) :
  lastCall (calls ++ [c]) cid name
  = if callKey cid name c then Some c else lastCall calls cid name.
Proof. unfold lastCall. rewrite rev_app_distr. reflexivity. Qed.

(** C8.  [storeResult] is an upsert keyed by (conversation id, analyzer
    name): after any sequence of stores on a table that respects the
    uniqueness constraint, every key has at most one row; the row of a key
    that was stored holds the contents of the most recent store for that
    key, and the rows of a key that was not stored are untouched. *)
Theorem storeResult_upsert (t0 : Table.t) (calls : list Call.t) :
  uniqueKeys t0 ->
  uniqueKeys (storeAll stringify t0 calls)
  /\ forall cid name,
       match lastCall calls cid name with
       | Some c =>
           exists id,
             rowsFor (storeAll stringify t0 calls) cid name
             = [rowOf stringify id c]
       | None =>
           rowsFor (storeAll stringify t0 calls) cid name
           = rowsFor t0 cid name
       end.
Proof.
  intros Hu.
  assert (Hlast : forall cid name,
            match lastCall calls cid name with
            | Some c =>
                exists id,
                  rowsFor (storeAll stringify t0 calls) cid name
                  = [rowOf stringify id c]
            | None =>
                rowsFor (storeAll stringify t0 calls) cid name
                = rowsFor t0 cid name
            end).
  { induction calls as [|c calls IH] using rev_ind; intros cid name.
    - reflexivity.
    - rewrite lastCall_snoc, storeAll_snoc, rowsFor_store.
      destruct (callKey cid name c); [| apply IH].
      eexists. reflexivity. }
  split; [| exact Hlast].
  intros cid name. specialize (Hlast cid name).
  destruct (lastCall calls cid name) as [c|].
  - destruct Hlast as [id ->]. simpl. lia.
  - rewrite Hlast. apply Hu.
Qed.

End Upsert.

Lemma storeResult_upsert_witness :
  BackgroundAnalyzer.uniqueKeys
    (BackgroundAnalyzer.storeAll Understanding.Result.verdict
       BackgroundAnalyzer.initializeDatabase sampleCalls).
Proof.
  refine (proj1 (@storeResult_upsert Understanding.Result.verdict
                   BackgroundAnalyzer.initializeDatabase sampleCalls _)).
  intros cid name. simpl. lia.
Defined.

(* ------------------------------------------------------------------ *)
(** ** Properties of the understanding analyzers *)

Section AnalyzerFacts.

Import Understanding.

Variable regexTest : string -> string -> bool.
Variable judge : nat -> string -> Outcome.

Lemma bonusIf_range (b : bool) (q : Q) :
  (0 <= q)%Q -> (0 <= bonusIf b q <= q)%Q.
Proof. intros Hq. unfold bonusIf. destruct b; lra. Qed.

(** The rule-based fallback never raises the [parseError] flag. *)
Lemma ruleBased_parseError (a : Analyzer) (text : string) :
  Verdict.parseError (ruleBasedAnalysis regexTest a text) = false.
Proof.
  unfold ruleBasedAnalysis. destruct a.
  - now destruct (firstMatch _ _ _).
  - destruct (firstMatch _ _ _); [reflexivity |]. now destruct (existsb _ _).
  - now destruct (firstMatch _ _ _).
Qed.

Lemma ruleBased_quality (a : Analyzer) (text : string) :
  qualityInRange (Verdict.qualityScore (ruleBasedAnalysis regexTest a text)).
Proof.
  unfold qualityInRange, ruleBasedAnalysis. destruct a.
  - destruct (firstMatch _ _ _) as [t|]; cbn [Verdict.qualityScore]; [| lra].
    match goal with |- context [Js.Qmin 10 ?q] =>
      assert (Hq : (5 <= q)%Q);
      [| destruct (Qmin_cases 10 q) as [[? ->] | [? ->]]; lra] end.
    repeat match goal with |- context [bonusIf ?b ?q] =>
      let H := fresh in
      assert (H : (0 <= bonusIf b q <= q)%Q) by (apply bonusIf_range; lra);
      revert H; generalize (bonusIf b q); intros ? ? end.
    lra.
  - destruct (firstMatch _ _ _) as [t|]; cbn [Verdict.qualityScore].
    + match goal with |- context [Js.Qmin 10 ?q] =>
        assert (Hq : (6 <= q)%Q);
        [| destruct (Qmin_cases 10 q) as [[? ->] | [? ->]]; lra] end.
      repeat match goal with |- context [bonusIf ?b ?q] =>
        let H := fresh in
        assert (H : (0 <= bonusIf b q <= q)%Q) by (apply bonusIf_range; lra);
        revert H; generalize (bonusIf b q); intros ? ? end.
      lra.
    + destruct (existsb _ _); cbn [Verdict.qualityScore]; lra.
  - destruct (firstMatch _ _ _) as [t|]; cbn [Verdict.qualityScore]; [| lra].
    destruct (t =? "security")%string; [simpl; lra |].
    destruct ((t =? "bug")%string || (t =? "logic")%string); [simpl; lra |].
    destruct ((t =? "edge_case")%string || (t =? "prevention")%string);
      simpl; lra.
Qed.

Lemma parseResponse_quality (a : Analyzer) (response : Response) :
  qualityInRange (Verdict.qualityScore (parseResponse a response)).
Proof.
  unfold qualityInRange.
  destruct response as [| message | raw]; simpl; try lra.
  destruct (Raw.quality raw) as [q|]; [| lra].
  destruct (Js.Qltb q 0) eqn:E1; simpl; [lra |].
  destruct (Js.Qltb 10 q) eqn:E2; [lra |].
  apply Qltb_false in E1, E2. lra.
Qed.

(** One step of the monad, unfolded. *)
Lemma analyzePromptWithAI_run (a : Analyzer) (text : string) (log : list string) :
  analyzePromptWithAI regexTest judge a text log
  = (match judge (List.length log) text with
     | Responded response => parseResponse a response
     | CallFailed => ruleBasedAnalysis regexTest a text
     end, (log ++ [text])%list).
Proof. reflexivity. Qed.

Lemma analysis_quality (a : Analyzer) (text : string) (log : list string) :
  qualityInRange
    (Verdict.qualityScore
       (fst (analyzePromptWithAI regexTest judge a text log))).
Proof.
  rewrite analyzePromptWithAI_run. cbn [fst].
  destruct (judge _ _); [apply ruleBased_quality | apply parseResponse_quality].
Qed.

Lemma judgeAll_cons (a : Analyzer) (p : Prompt.t) (rest : list Prompt.t)
      (acc : Loop.t) (log : list string) :
  judgeAll regexTest judge a (p :: rest) acc log
  = if (String.length (Prompt.prompt_text p) <? 10)%nat
    then judgeAll regexTest judge a rest acc log
    else judgeAll regexTest judge a rest
           (record p (fst (analyzePromptWithAI regexTest judge a
                                               (Prompt.prompt_text p) log))
                   acc)
           (log ++ [Prompt.prompt_text p])%list.
Proof.
  cbn [judgeAll]. destruct (String.length (Prompt.prompt_text p) <? 10)%nat;
    reflexivity.
Qed.

(** The loop treats a list and its prompts of ten characters or more
    alike. *)
Lemma judgeAll_longEnough (a : Analyzer) (prompts : list Prompt.t) :
  forall acc log,
    judgeAll regexTest judge a prompts acc log
    = judgeAll regexTest judge a (longEnough prompts) acc log.
Proof.
  induction prompts as [|p rest IH]; intros acc log; [reflexivity |].
  rewrite judgeAll_cons. unfold longEnough. cbn [filter]. fold (longEnough rest).
  destruct (String.length (Prompt.prompt_text p) <? 10)%nat eqn:E;
    cbn [negb].
  - apply IH.
  - rewrite judgeAll_cons, E. apply IH.
Qed.

(** The capability is consulted for the long prompts only, in order. *)
Lemma judgeAll_log (a : Analyzer) (prompts : list Prompt.t) :
  forall acc log,
    snd (judgeAll regexTest judge a prompts acc log)
    = (log ++ map Prompt.prompt_text (longEnough prompts))%list.
Proof.
  induction prompts as [|p rest IH]; intros acc log.
  - simpl. now rewrite app_nil_r.
  - rewrite judgeAll_cons. unfold longEnough. cbn [filter].
    fold (longEnough rest).
    destruct (String.length (Prompt.prompt_text p) <? 10)%nat; cbn [negb].
    + apply IH.
    + rewrite IH. cbn [map]. now rewrite <- app_assoc.
Qed.

Lemma record_quality (p : Prompt.t) (v : Verdict.t) (acc : Loop.t) :
  qualityInRange (Verdict.qualityScore v) ->
  Forall (fun f => qualityInRange (Finding.qualityScore f)) (Loop.analyses acc) ->
  Forall (fun f => qualityInRange (Finding.qualityScore f))
         (Loop.analyses (record p v acc)).
Proof.
  intros Hv Hacc. unfold record.
  destruct (Verdict.relevant v), (Verdict.parseError v);
    cbn [Loop.analyses]; try exact Hacc;
    apply Forall_app; (split; [exact Hacc |]);
    (constructor; [exact Hv | constructor]).
Qed.

Lemma judgeAll_quality (a : Analyzer) (prompts : list Prompt.t) :
  forall acc log,
    Forall (fun f => qualityInRange (Finding.qualityScore f)) (Loop.analyses acc) ->
    Forall (fun f => qualityInRange (Finding.qualityScore f))
           (Loop.analyses (fst (judgeAll regexTest judge a prompts acc log))).
Proof.
  induction prompts as [|p rest IH]; intros acc log Hacc; [exact Hacc |].
  rewrite judgeAll_cons.
  destruct (String.length (Prompt.prompt_text p) <? 10)%nat.
  - now apply IH.
  - apply IH, record_quality; [apply analysis_quality | exact Hacc].
Qed.

End AnalyzerFacts.

Section AnalyzerBounds.

Import Understanding.

(** [z / d] for an integer [z] between two bounds. *)
Lemma rounded_div_range (z lo hi : Z) (d a b : Q) :
  lo <= z <= hi -> (0 < d)%Q ->
  (a * d <= inject_Z lo)%Q -> (inject_Z hi <= b * d)%Q ->
  (a <= inject_Z z / d <= b)%Q.
Proof.
  intros [Hlo Hhi] Hd Ha Hb. rewrite Zle_Qle in Hlo, Hhi.
  split; [apply Qle_shift_div_l | apply Qle_shift_div_r]; lra.
Qed.

Lemma countScore_range (n : nat) : (0 <= countScore n <= 4)%Q.
Proof.
  unfold countScore.
  destruct (5 <=? n)%nat; [lra |].
  destruct (3 <=? n)%nat; [lra |].
  destruct (1 <=? n)%nat; lra.
Qed.

Lemma bonusScore_range (a : Analyzer) (f : Findings.t) :
  (0 <= bonusScore a f <= 2)%Q.
Proof.
  unfold bonusScore.
  destruct a;
    match goal with |- context [Js.Qmin 2 (Js.ofNat ?n * _)] =>
      pose proof (ofNat_nonneg n);
      destruct (Qmin_cases 2 (Js.ofNat n * (1 # 2))) as [[? ->] | [? ->]]
    end; lra.
Qed.

Lemma quality_term_nonneg (q : Q) : (0 <= q)%Q -> (0 <= q / 10 * 4)%Q.
Proof.
  intros Hq. apply Qmult_le_0_compat; [| lra].
  apply Qle_shift_div_l; lra.
Qed.

(** The analyzer score lies in [0, 10] as soon as the mean quality is
    not negative. *)
Lemma calculateScoreFromAI_range (a : Analyzer) (ai : AiAnalysis.t) :
  (0 <= Findings.quality (AiAnalysis.findings ai))%Q ->
  (0 <= calculateScoreFromAI a ai <= 10)%Q.
Proof.
  intros Hq. unfold calculateScoreFromAI.
  destruct (AiAnalysis.allAnalyses ai) as [|f fs]; [lra |].
  cbv zeta.
  pose proof (countScore_range (Findings.count (AiAnalysis.findings ai))).
  pose proof (bonusScore_range a (AiAnalysis.findings ai)).
  match goal with |- context [Js.roundQ (?t * 10)] =>
    assert (Ht : (0 <= t <= 10)%Q)
  end.
  { pose proof (quality_term_nonneg Hq).
    match goal with |- context [Js.Qmin 10 ?q] =>
      destruct (Qmin_cases 10 q) as [[? ->] | [? ->]]
    end; lra. }
  match goal with |- context [Js.roundQ ?x] =>
    assert (Hr : 0 <= Js.roundQ x <= 100)
      by (apply roundQ_bounds;
          [change (inject_Z 0) with 0%Q | change (inject_Z 100) with 100%Q];
          lra)
  end.
  apply (rounded_div_range Hr);
    [| change (inject_Z 0) with 0%Q | change (inject_Z 100) with 100%Q]; lra.
Qed.

Lemma countConfidence_range (n : nat) : (0 <= countConfidence n <= 3 # 10)%Q.
Proof.
  unfold countConfidence.
  destruct (5 <=? n)%nat; [lra |].
  destruct (3 <=? n)%nat; [lra |].
  destruct (1 <=? n)%nat; lra.
Qed.

Lemma bonusConfidence_range (a : Analyzer) (f : Findings.t) :
  (0 <= bonusConfidence a f <= 2 # 10)%Q.
Proof.
  unfold bonusConfidence.
  destruct a;
    repeat match goal with
           | |- context [if ?b then _ else _] => destruct b
           end; lra.
Qed.

Lemma successConfidence_range (r : Q) :
  (0 <= successConfidence r <= 15 # 100)%Q.
Proof.
  unfold successConfidence.
  destruct (Js.Qltb (8 # 10) r); [lra |].
  destruct (Js.Qltb (5 # 10) r); lra.
Qed.

(** The confidence lies in [0.3, 0.95] whatever the analysis holds. *)
Lemma calculateConfidenceFromAI_range (a : Analyzer) (ai : AiAnalysis.t) :
  (3 # 10 <= calculateConfidenceFromAI a ai <= 95 # 100)%Q.
Proof.
  unfold calculateConfidenceFromAI. cbv zeta.
  pose proof (countConfidence_range (Findings.count (AiAnalysis.findings ai))).
  pose proof (bonusConfidence_range a (AiAnalysis.findings ai)).
  pose proof (successConfidence_range (AiAnalysis.successRate ai)).
  match goal with |- context [Js.roundQ ?x] =>
    assert (Hr : 30 <= Js.roundQ x <= 95)
      by (apply roundQ_bounds;
          [change (inject_Z 30) with 30%Q | change (inject_Z 95) with 95%Q];
          lra);
    assert (Hd : (3 # 10 <= inject_Z (Js.roundQ x) / 100 <= 95 # 100)%Q)
      by (apply (rounded_div_range Hr);
          [| change (inject_Z 30) with 30%Q | change (inject_Z 95) with 95%Q];
          lra)
  end.
  match goal with |- context [Js.Qmin ?x ?y] =>
    destruct (Qmin_cases x y) as [[? ->] | [? ->]]
  end; lra.
Qed.

Lemma sumQuality_nonneg (l : list Finding.t) :
  Forall (fun f => qualityInRange (Finding.qualityScore f)) l ->
  (0 <= sumQuality l)%Q.
Proof.
  unfold sumQuality. intros Hl.
  assert (Hgen : forall acc, (0 <= acc)%Q ->
            (0 <= fold_left (fun sum f => sum + Finding.qualityScore f) l acc)%Q).
  { induction Hl as [|f l [Hf _] _ IH]; intros acc Hacc; simpl;
      [exact Hacc | apply IH; lra]. }
  apply Hgen. lra.
Qed.

Lemma summarize_quality (a : Analyzer) (n : nat) (l : Loop.t) :
  Forall (fun f => qualityInRange (Finding.qualityScore f)) (Loop.analyses l) ->
  (0 <= Findings.quality (AiAnalysis.findings (summarize a n l)))%Q.
Proof.
  intros Hl. unfold summarize. cbn [AiAnalysis.findings Findings.quality].
  destruct (0 <? List.length (Loop.analyses l))%nat eqn:E; [| lra].
  apply Nat.ltb_lt in E.
  apply Qle_shift_div_l; [now apply ofNat_pos |].
  pose proof (sumQuality_nonneg Hl). lra.
Qed.

End AnalyzerBounds.

(* ------------------------------------------------------------------ *)
(** ** Properties of the scoring engine *)

Section ScoreBounds.

Import ScoringEngine.

Lemma clamp_range (score : Q) : percent (clamp score).
Proof.
  unfold percent, clamp.
  assert (Hc : (0 <= Js.Qmax 0 (Js.Qmin 100 score) <= 100)%Q).
  { destruct (Qmin_cases 100 score) as [[? ->] | [? ->]];
      match goal with |- context [Js.Qmax 0 ?x] =>
        destruct (Qmax_cases 0 x) as [[? ->] | [? ->]]
      end; lra. }
  assert (Hr : 0 <= Js.roundQ (Js.Qmax 0 (Js.Qmin 100 score)) <= 100)
    by (apply roundQ_bounds;
        [change (inject_Z 0) with 0%Q | change (inject_Z 100) with 100%Q];
        lra).
  destruct Hr as [Hlo Hhi]. rewrite Zle_Qle in Hlo, Hhi.
  change (inject_Z 0) with 0%Q in Hlo.
  change (inject_Z 100) with 100%Q in Hhi. lra.
Qed.

Lemma fifty_percent : percent 50.
Proof. unfold percent. lra. Qed.

Lemma scorePromptQuality_range l : percent (scorePromptQuality l).
Proof.
  unfold scorePromptQuality.
  destruct l as [[|x l]|]; try apply fifty_percent. apply clamp_range.
Qed.

Lemma scoreSelfSufficiency_range l sa : percent (scoreSelfSufficiency l sa).
Proof.
  unfold scoreSelfSufficiency.
  destruct l as [[|x l]|]; try apply fifty_percent. apply clamp_range.
Qed.

Lemma scoreTechnicalDepth_range l ps : percent (scoreTechnicalDepth l ps).
Proof. apply clamp_range. Qed.

Lemma scoreCodeCoherence_range pa : percent (scoreCodeCoherence pa).
Proof.
  unfold scoreCodeCoherence.
  destruct pa; [apply clamp_range | apply fifty_percent].
Qed.

Lemma scoreUnderstanding_range aps pps pa :
  percent (scoreUnderstanding aps pps pa).
Proof. apply clamp_range. Qed.

(** The five sub-scores and their rounded mean lie in [0, 100]. *)
Lemma calculateDeveloperScore_range (data : Data.t) :
  let s := calculateDeveloperScore data in
  percent (Scores.prompt_quality s) /\ percent (Scores.self_sufficiency s)
  /\ percent (Scores.technical_depth s) /\ percent (Scores.code_coherence s)
  /\ percent (Scores.understanding s) /\ percent (Scores.overall s).
Proof.
  unfold calculateDeveloperScore. cbv zeta.
  cbn [Scores.prompt_quality Scores.self_sufficiency Scores.technical_depth
       Scores.code_coherence Scores.understanding Scores.overall].
  pose proof (scorePromptQuality_range (Data.semanticAnalyses data)) as H1.
  pose proof (scoreSelfSufficiency_range (Data.correlations data)
                                         (Data.semanticAnalyses data)) as H2.
  pose proof (scoreTechnicalDepth_range (Data.semanticAnalyses data)
                                        (Data.positivePatterns data)) as H3.
  pose proof (scoreCodeCoherence_range (Data.patternAnalysis data)) as H4.
  pose proof (scoreUnderstanding_range (Data.antiPatterns data)
                (Data.positivePatterns data) (Data.patternAnalysis data)) as H5.
  repeat (split; [assumption |]).
  unfold percent in *.
  match goal with |- context [Js.roundQ ?x] =>
    assert (Hr : 0 <= Js.roundQ x <= 100)
      by (apply roundQ_bounds;
          [change (inject_Z 0) with 0%Q | change (inject_Z 100) with 100%Q];
          lra)
  end.
  destruct Hr as [Hlo Hhi]. rewrite Zle_Qle in Hlo, Hhi.
  change (inject_Z 0) with 0%Q in Hlo.
  change (inject_Z 100) with 100%Q in Hhi. lra.
Qed.

End ScoreBounds.

(* ------------------------------------------------------------------ *)
(** ** The claims about the analyzers and the scores *)

Section AnalyzerClaims.

Import Understanding.

Variable regexTest : string -> string -> bool.
Variable judge : nat -> string -> Outcome.

Lemma analyzeAll_run (a : Analyzer) (prompts : list Prompt.t) :
  run (analyzeAllPromptsWithAI regexTest judge a prompts)
  = (summarize a (List.length prompts)
               (fst (judgeAll regexTest judge a prompts (Loop.mk [] 0 0) [])),
     snd (judgeAll regexTest judge a prompts (Loop.mk [] 0 0) [])).
Proof.
  unfold run, analyzeAllPromptsWithAI, bind, ret.
  now destruct (judgeAll regexTest judge a prompts (Loop.mk [] 0 0) []).
Qed.

Lemma analyze_run (a : Analyzer) (db : Db.t) (cid : string) :
  getConversationPrompts db cid <> [] ->
  let ai := fst (run (analyzeAllPromptsWithAI regexTest judge a
                        (promptsToAnalyze a (getConversationPrompts db cid)))) in
  Result.score (fst (run (analyze regexTest judge a db cid)))
  = calculateScoreFromAI a ai
  /\ Result.confidence (fst (run (analyze regexTest judge a db cid)))
     = Some (calculateConfidenceFromAI a ai).
Proof.
  intros Hne. unfold analyze.
  destruct (getConversationPrompts db cid) as [|p ps]; [now elim Hne |].
  unfold run, bind, ret.
  destruct (analyzeAllPromptsWithAI regexTest judge a
              (promptsToAnalyze a (p :: ps)) []) as [ai log].
  split; reflexivity.
Qed.

Lemma analyzeAll_quality (a : Analyzer) (prompts : list Prompt.t) :
  (0 <= Findings.quality
          (AiAnalysis.findings
             (fst (run (analyzeAllPromptsWithAI regexTest judge a prompts)))))%Q.
Proof.
  rewrite analyzeAll_run. cbn [fst].
  apply summarize_quality, judgeAll_quality. constructor.
Qed.

(** C6.  The five sub-scores and the overall score returned by
    [calculateDeveloperScore] lie in [0, 100]; the score every
    understanding analyzer returns lies in [0, 10]; and the confidence it
    returns, when the result has one, lies in [0, 0.95]. *)
Theorem scores_within_bounds :
  (forall data,
     let s := ScoringEngine.calculateDeveloperScore data in
     (0 <= ScoringEngine.Scores.prompt_quality s <= 100)%Q
     /\ (0 <= ScoringEngine.Scores.self_sufficiency s <= 100)%Q
     /\ (0 <= ScoringEngine.Scores.technical_depth s <= 100)%Q
     /\ (0 <= ScoringEngine.Scores.code_coherence s <= 100)%Q
     /\ (0 <= ScoringEngine.Scores.understanding s <= 100)%Q
     /\ (0 <= ScoringEngine.Scores.overall s <= 100)%Q)
  /\ (forall a db conversationId,
        let r := fst (run (analyze regexTest judge a db conversationId)) in
        (0 <= Result.score r <= 10)%Q
        /\ match Result.confidence r with
           | Some c => (0 <= c <= 95 # 100)%Q
           | None => True
           end).
Proof.
  split; [exact calculateDeveloperScore_range |].
  intros a db cid r. subst r.
  destruct (getConversationPrompts db cid) as [|p ps] eqn:Hp.
  - unfold analyze. rewrite Hp. unfold run, ret. cbn [fst].
    destruct a; cbn; split; trivial; lra.
  - assert (Hne : getConversationPrompts db cid <> [])
      by (rewrite Hp; discriminate).
    destruct (@analyze_run a db cid Hne) as [-> ->].
    split.
    + apply calculateScoreFromAI_range, analyzeAll_quality.
    + pose proof (calculateConfidenceFromAI_range a
        (fst (run (analyzeAllPromptsWithAI regexTest judge a
                     (promptsToAnalyze a (getConversationPrompts db cid)))))).
      lra.
Qed.

(** C9.  For a conversation with at least one prompt every understanding
    analyzer returns a confidence, and it is at least 0.3. *)
Theorem confidence_at_least_baseline
        (a : Analyzer) (db : Db.t) (conversationId : string) (p : Prompt.t) :
  In p (Db.prompts db) ->
  Prompt.conversation_id p = conversationId ->
  exists c,
    Result.confidence (fst (run (analyze regexTest judge a db conversationId)))
    = Some c /\ (3 # 10 <= c)%Q.
Proof.
  intros Hin Hcid.
  assert (Hne : getConversationPrompts db conversationId <> []).
  { unfold getConversationPrompts. intros Hnil.
    apply (f_equal (@List.length Prompt.t)) in Hnil.
    rewrite orderBy_length in Hnil. simpl in Hnil.
    apply length_zero_iff_nil in Hnil.
    assert (Hp : In p (filter
                         (fun q => (Prompt.conversation_id q =? conversationId)%string)
                         (Db.prompts db))).
    { apply filter_In. split; [exact Hin |]. rewrite Hcid.
      apply String.eqb_refl. }
    rewrite Hnil in Hp. exact Hp. }
  destruct (@analyze_run a db conversationId Hne) as [_ ->].
  eexists. split; [reflexivity |].
  apply calculateConfidenceFromAI_range.
Qed.

(** C3, as the code has it.  A prompt shorter than 10 characters is never
    submitted to the judgment capability, and it changes neither the
    findings (count, examples, mean quality, histograms) nor the list of
    analyses nor the method: they are those of the list without the short
    prompts, computed from the same counters.  The success rate, however,
    divides the same success counter by the number of all prompts, short
    ones included. *)
Theorem short_prompts_skipped (a : Analyzer) (prompts : list Prompt.t) :
  let r := run (analyzeAllPromptsWithAI regexTest judge a prompts) in
  let r' := run (analyzeAllPromptsWithAI regexTest judge a
                   (longEnough prompts)) in
  snd r = map Prompt.prompt_text (longEnough prompts)
  /\ AiAnalysis.findings (fst r) = AiAnalysis.findings (fst r')
  /\ AiAnalysis.allAnalyses (fst r) = AiAnalysis.allAnalyses (fst r')
  /\ AiAnalysis.method (fst r) = AiAnalysis.method (fst r')
  /\ exists aiSuccessCount,
       AiAnalysis.successRate (fst r)
       = (if (0 <? List.length prompts)%nat
          then Js.ofNat aiSuccessCount / Js.ofNat (List.length prompts)
          else 0)%Q
       /\ AiAnalysis.successRate (fst r')
          = (if (0 <? List.length (longEnough prompts))%nat
             then Js.ofNat aiSuccessCount
                  / Js.ofNat (List.length (longEnough prompts))
             else 0)%Q.
Proof.
  intros r r'. subst r r'. rewrite !analyzeAll_run. cbn [fst snd].
  rewrite judgeAll_log. cbn [app].
  rewrite (judgeAll_longEnough regexTest judge a prompts).
  split; [reflexivity |].
  repeat (split; [reflexivity |]).
  eexists. split; reflexivity.
Qed.

End AnalyzerClaims.

Section CapabilityDown.

Import Understanding.

Variable regexTest : string -> string -> bool.

(** With the capability down every long prompt is judged by the rules and
    lands in the success counter; the fallback counter never moves. *)
Lemma judgeAll_capabilityDown (a : Analyzer) (prompts : list Prompt.t) :
  forall acc log,
    let l := fst (judgeAll regexTest capabilityDown a prompts acc log) in
    Loop.fallbackCount l = Loop.fallbackCount acc
    /\ Loop.aiSuccessCount l
       = (Loop.aiSuccessCount acc + List.length (longEnough prompts))%nat.
Proof.
  induction prompts as [|p rest IH]; intros acc log; cbv zeta.
  - simpl. split; [reflexivity | lia].
  - rewrite judgeAll_cons. unfold longEnough. cbn [filter].
    fold (longEnough rest).
    destruct (String.length (Prompt.prompt_text p) <? 10)%nat; cbn [negb].
    + apply IH.
    + destruct (IH (record p (fst (analyzePromptWithAI regexTest capabilityDown
                                     a (Prompt.prompt_text p) log)) acc)
                   (log ++ [Prompt.prompt_text p])%list) as [-> ->].
      rewrite analyzePromptWithAI_run. cbn [fst capabilityDown].
      unfold record. rewrite ruleBased_parseError.
      destruct (Verdict.relevant _); cbn; split; try reflexivity; lia.
Qed.

(** C2, where the code departs from it.  When every call to the
    capability fails, the analyzer still reports the method ["ai"]; for
    one prompt whose call fails the success rate is 1. *)
Theorem call_failures_counted_as_ai (a : Analyzer) :
  (forall prompts,
     AiAnalysis.method
       (fst (run (analyzeAllPromptsWithAI regexTest capabilityDown a prompts)))
     = "ai")
  /\ (AiAnalysis.successRate
        (fst (run (analyzeAllPromptsWithAI regexTest capabilityDown a
                     [failingPrompt]))) == 1)%Q.
Proof.
  split.
  - intros prompts. rewrite analyzeAll_run. cbn [fst].
    destruct (judgeAll_capabilityDown a prompts (Loop.mk [] 0 0) [])
      as [Hf _].
    unfold summarize. cbn [AiAnalysis.method]. rewrite Hf.
    cbn [Loop.fallbackCount].
    match goal with |- context [(?n <? 0)%nat] =>
      destruct (Nat.ltb_spec n 0); [lia | reflexivity]
    end.
  - rewrite analyzeAll_run. cbn [fst].
    destruct (judgeAll_capabilityDown a [failingPrompt] (Loop.mk [] 0 0) [])
      as [_ Hs].
    unfold summarize. cbn [AiAnalysis.successRate]. rewrite Hs. reflexivity.
Qed.

End CapabilityDown.

(** C3 fails as stated: with one short and one long prompt, both judged
    successfully where judged, the success rate is 1/2, whereas the list
    without the short prompt has success rate 1. *)
Lemma short_prompt_in_denominator_counterexample :
  let rate prompts :=
    Understanding.AiAnalysis.successRate
      (fst (Understanding.run
              (Understanding.analyzeAllPromptsWithAI
                 noRuleMatches alwaysRelevant
                 Understanding.CriticalThinking prompts))) in
  (rate [shortPrompt; longPrompt] == 1 # 2)%Q
  /\ (rate [longPrompt] == 1)%Q
  /\ ~ (rate [shortPrompt; longPrompt] == rate [longPrompt])%Q.
Proof.
  cbv zeta. split; [reflexivity |]. split; [reflexivity |].
  intros H. vm_compute in H. discriminate H.
Qed.

Lemma confidence_at_least_baseline_witness :
  exists c,
    Understanding.Result.confidence
      (fst (Understanding.run
              (Understanding.analyze noRuleMatches alwaysRelevant
                 Understanding.MistakeCatcher sampleDb "c1")))
    = Some c /\ (3 # 10 <= c)%Q.
Proof.
  apply (@confidence_at_least_baseline noRuleMatches alwaysRelevant
           Understanding.MistakeCatcher sampleDb "c1"
           (Prompt.mk 1 "c1" "add a login form" None 1000 1 false)).
  - simpl. left. reflexivity.
  - reflexivity.
Defined.
(* ------------------------------------------------------------------ *)
(** ** Further properties of the understanding analyzers *)

Section Histogram.

Import Understanding.

Lemma lookup_increment (key k : string) (m : list (string * nat)) :
  lookup k (increment key m)
  = if (k =? key)%string then S (lookup k m) else lookup k m.
Proof.
  induction m as [|[k' n] m IH]; simpl.
  - destruct (k =? key)%string; reflexivity.
  - destruct (key =? k')%string eqn:E1; simpl.
    + apply String.eqb_eq in E1. subst k'.
      destruct (k =? key)%string; reflexivity.
    + destruct (k =? k')%string eqn:E2; [| exact IH].
      apply String.eqb_eq in E2. subst k'.
      rewrite String.eqb_sym in E1. now rewrite E1.
Qed.

Lemma keys_increment (key : string) (m : list (string * nat)) :
  map fst (increment key m) = Js.add (map fst m) key.
Proof.
  unfold Js.add. induction m as [|[k' n] m IH]; simpl; [reflexivity |].
  destruct (key =? k')%string eqn:E; simpl; [reflexivity |].
  rewrite IH. now destruct (Js.mem key (map fst m)).
Qed.

Lemma sum_increment (key : string) (m : list (string * nat)) :
  list_sum (map snd (increment key m)) = S (list_sum (map snd m)).
Proof.
  induction m as [|[k' n] m IH]; simpl; [reflexivity |].
  destruct (key =? k')%string; simpl; [reflexivity |].
  rewrite IH. lia.
Qed.

Variable A : Type.
Variable keyOfItem : A -> string.

(** A histogram built with [increment]: its keys are the distinct keys of
    the items in order of first appearance, and each holds the number of
    items with that key. *)
Lemma histogram_spec (items : list A) :
  let h := fold_left (fun m x => increment (keyOfItem x) m) items [] in
  map fst h = Js.setOf (map keyOfItem items)
  /\ (forall k, lookup k h
                = List.length (filter (fun x => (keyOfItem x =? k)%string) items))
  /\ list_sum (map snd h) = List.length items.
Proof.
  assert (Hgen : forall m,
            let h := fold_left (fun m x => increment (keyOfItem x) m) items m in
            map fst h = fold_left Js.add (map keyOfItem items) (map fst m)
            /\ (forall k, lookup k h
                          = (lookup k m
                             + List.length
                                 (filter (fun x => (keyOfItem x =? k)%string)
                                         items))%nat)
            /\ list_sum (map snd h)
               = (list_sum (map snd m) + List.length items)%nat).
  { induction items as [|x items IH]; intros m; cbv zeta; simpl.
    - repeat split; intros; lia.
    - destruct (IH (increment (keyOfItem x) m)) as [H1 [H2 H3]]. cbv zeta in H1, H2, H3.
      split; [| split].
      + rewrite H1. now rewrite keys_increment.
      + intros k. rewrite H2. rewrite lookup_increment.
        rewrite (String.eqb_sym k).
        destruct (keyOfItem x =? k)%string; simpl; lia.
      + rewrite H3. rewrite sum_increment. lia. }
  exact (Hgen []).
Qed.

End Histogram.

Section LoopFacts.

Import Understanding.
Import Judged.

Variable regexTest : string -> string -> bool.
Variable judge : nat -> string -> Outcome.

Lemma judgeAll_judgments (a : Analyzer) (prompts : list Prompt.t) :
  forall acc log,
    fst (judgeAll regexTest judge a prompts acc log)
    = fold_left (fun l j => record (fst j) (snd j) l)
                (judgments regexTest judge a prompts log) acc.
Proof.
  induction prompts as [|p rest IH]; intros acc log; [reflexivity |].
  rewrite judgeAll_cons. cbn [judgments].
  destruct (String.length (Prompt.prompt_text p) <? 10)%nat; [apply IH |].
  rewrite IH. reflexivity.
Qed.

Lemma judgments_prompts (a : Analyzer) (prompts : list Prompt.t) :
  forall log,
    map fst (judgments regexTest judge a prompts log) = longEnough prompts.
Proof.
  induction prompts as [|p rest IH]; intros log; [reflexivity |].
  cbn [judgments]. unfold longEnough. cbn [filter]. fold (longEnough rest).
  destruct (String.length (Prompt.prompt_text p) <? 10)%nat; cbn [negb].
  - apply IH.
  - cbn [map fst]. now rewrite IH.
Qed.

Lemma record_fold (js : list (Prompt.t * Verdict.t)) :
  forall acc,
    let l := fold_left (fun l j => record (fst j) (snd j) l) js acc in
    Loop.analyses l
    = (Loop.analyses acc ++ map findingOf (filter relevant js))%list
    /\ Loop.aiSuccessCount l
       = (Loop.aiSuccessCount acc
          + List.length (filter (fun j => negb (unparsed j)) js))%nat
    /\ Loop.fallbackCount l
       = (Loop.fallbackCount acc + List.length (filter unparsed js))%nat.
Proof.
  induction js as [|[p v] js IH]; intros acc; cbv zeta.
  - simpl. rewrite app_nil_r. repeat split; lia.
  - cbn [fold_left fst snd].
    destruct (IH (record p v acc)) as [H1 [H2 H3]]. cbv zeta in H1, H2, H3.
    rewrite H1, H2, H3. cbn [filter]. unfold relevant, unparsed, record.
    cbn [fst snd].
    destruct (Verdict.relevant v), (Verdict.parseError v);
      cbn [Loop.analyses Loop.aiSuccessCount Loop.fallbackCount negb map
           List.length];
      (split; [try rewrite <- app_assoc; reflexivity |]); split; lia.
Qed.

(** The result of [analyzeAllPromptsWithAI] in terms of the judgments. *)
Lemma analyzeAll_judgments (a : Analyzer) (prompts : list Prompt.t) :
  let js := judgments regexTest judge a prompts [] in
  fst (run (analyzeAllPromptsWithAI regexTest judge a prompts))
  = summarize a (List.length prompts)
      (Loop.mk (map findingOf (filter relevant js))
               (List.length (filter (fun j => negb (unparsed j)) js))
               (List.length (filter unparsed js))).
Proof.
  cbv zeta. rewrite analyzeAll_run. cbn [fst]. f_equal.
  rewrite judgeAll_judgments.
  destruct (record_fold (judgments regexTest judge a prompts [])
                        (Loop.mk [] 0 0)) as [H1 [H2 H3]].
  cbv zeta in H1, H2, H3.
  destruct (fold_left _ _ _) as [an ai fb].
  cbn [Loop.analyses Loop.aiSuccessCount Loop.fallbackCount] in H1, H2, H3.
  rewrite H1, H2, H3. reflexivity.
Qed.

Lemma filter_split_length {A : Type} (f : A -> bool) (l : list A) :
  (List.length (filter f l) + List.length (filter (fun x => negb (f x)) l)
   = List.length l)%nat.
Proof.
  induction l as [|x l IH]; [reflexivity |].
  simpl. destruct (f x); simpl; lia.
Qed.

Lemma firstn_map_comm {A B : Type} (f : A -> B) (n : nat) (l : list A) :
  firstn n (map f l) = map f (firstn n l).
Proof.
  revert l. induction n as [|n IH]; intros [|x l]; simpl; try reflexivity.
  now rewrite IH.
Qed.

Lemma filter_length_le {A : Type} (f : A -> bool) (l : list A) :
  (List.length (filter f l) <= List.length l)%nat.
Proof.
  induction l as [|x l IH]; [simpl; lia |].
  simpl. destruct (f x); simpl; lia.
Qed.

(** X1.  Every prompt of ten characters or more is counted exactly once,
    as a success or as a fallback; the method is ["fallback"] exactly when
    the unparsed answers outnumber the others; the findings are at most as
    many as the prompts submitted; and the success rate lies in [0, 1]. *)
Theorem attempts_accounted (a : Analyzer) (prompts : list Prompt.t) :
  let js := judgments regexTest judge a prompts [] in
  let failed := List.length (filter unparsed js) in
  let succeeded := List.length (filter (fun j => negb (unparsed j)) js) in
  let r := fst (run (analyzeAllPromptsWithAI regexTest judge a prompts)) in
  (failed + succeeded)%nat = List.length (longEnough prompts)
  /\ (AiAnalysis.method r = "fallback" <-> (succeeded < failed)%nat)
  /\ (AiAnalysis.method r = "ai" <-> (failed <= succeeded)%nat)
  /\ (Findings.count (AiAnalysis.findings r)
      <= List.length (longEnough prompts))%nat
  /\ (0 <= AiAnalysis.successRate r <= 1)%Q.
Proof.
  cbv zeta. rewrite analyzeAll_judgments.
  pose proof (judgments_prompts a prompts []) as Hp.
  set (js := judgments regexTest judge a prompts []) in *.
  assert (Hlen : List.length js = List.length (longEnough prompts))
    by (rewrite <- Hp; now rewrite length_map).
  pose proof (filter_split_length unparsed js) as Hsplit.
  unfold summarize.
  cbn [AiAnalysis.method AiAnalysis.findings AiAnalysis.successRate
       Findings.count Loop.analyses Loop.aiSuccessCount Loop.fallbackCount].
  split; [lia |]. split; [| split; [| split]].
  - destruct (Nat.ltb_spec (List.length (filter (fun j => negb (unparsed j)) js))
                           (List.length (filter unparsed js)));
      split; intros H'; try reflexivity; try discriminate; lia.
  - destruct (Nat.ltb_spec (List.length (filter (fun j => negb (unparsed j)) js))
                           (List.length (filter unparsed js)));
      split; intros H'; try reflexivity; try discriminate; lia.
  - rewrite length_map. pose proof (filter_length_le relevant js). lia.
  - destruct (Nat.ltb_spec 0 (List.length prompts)) as [Hpos | Hz]; [| lra].
    assert (Hle : (List.length (filter (fun j => negb (unparsed j)) js)
                   <= List.length prompts)%nat).
    { pose proof (filter_length_le
                    (fun p => negb (String.length (Prompt.prompt_text p) <? 10)%nat)
                    prompts) as Hl.
      fold (longEnough prompts) in Hl. lia. }
    exact (proj2 (div_counts Hpos Hle)).
Qed.

(** X2.  [allAnalyses] lists, in prompt order, exactly the prompts of ten
    characters or more whose verdict is relevant, each with the type,
    severity, quality, evidence and reasoning of its verdict and the
    sequence number of its prompt; [count] is their number and [examples]
    the texts of the first five. *)
Theorem findings_are_relevant_prompts (a : Analyzer) (prompts : list Prompt.t) :
  let js := judgments regexTest judge a prompts [] in
  let r := fst (run (analyzeAllPromptsWithAI regexTest judge a prompts)) in
  map fst js = longEnough prompts
  /\ AiAnalysis.allAnalyses r = map findingOf (filter relevant js)
  /\ Findings.count (AiAnalysis.findings r)
     = List.length (filter relevant js)
  /\ Findings.examples (AiAnalysis.findings r)
     = map (fun j => Prompt.prompt_text (fst j)) (firstn 5 (filter relevant js)).
Proof.
  cbv zeta. rewrite analyzeAll_judgments. split; [apply judgments_prompts |].
  unfold summarize.
  cbn [AiAnalysis.allAnalyses AiAnalysis.findings Findings.count
       Findings.examples Loop.analyses].
  split; [reflexivity |]. split; [now rewrite length_map |].
  rewrite firstn_map_comm, map_map. reflexivity.
Qed.

(** X3.  The type histogram has one entry per distinct type among the
    findings, in order of first appearance; each entry holds the number
    of findings of that type, so the entries add up to [count]; for the
    mistake catcher the severity histogram does the same by severity. *)
Theorem breakdown_is_histogram (a : Analyzer) (prompts : list Prompt.t) :
  let r := fst (run (analyzeAllPromptsWithAI regexTest judge a prompts)) in
  let f := AiAnalysis.findings r in
  map fst (Findings.breakdown f)
  = Js.setOf (map Finding.type (AiAnalysis.allAnalyses r))
  /\ (forall k,
        lookup k (Findings.breakdown f)
        = List.length (filter (fun x => (Finding.type x =? k)%string)
                              (AiAnalysis.allAnalyses r)))
  /\ list_sum (map snd (Findings.breakdown f)) = Findings.count f
  /\ (typeCount f <= Findings.count f)%nat
  /\ (a = MistakeCatcher ->
      (forall k,
         lookup k (Findings.bySeverity f)
         = List.length
             (filter (fun x => (keyOf (Finding.severity x) =? k)%string)
                     (AiAnalysis.allAnalyses r)))
      /\ list_sum (map snd (Findings.bySeverity f)) = Findings.count f).
Proof.
  cbv zeta. rewrite analyzeAll_judgments.
  set (js := judgments regexTest judge a prompts []).
  unfold summarize.
  cbn [AiAnalysis.allAnalyses AiAnalysis.findings Findings.count
       Findings.breakdown Findings.bySeverity Loop.analyses].
  destruct (histogram_spec Finding.type (map findingOf (filter relevant js)))
    as [Hk [Hl Hs]]. cbv zeta in Hk, Hl, Hs.
  split; [exact Hk |]. split; [exact Hl |]. split; [exact Hs |]. split.
  - unfold typeCount. cbn [Findings.breakdown Findings.count].
    rewrite <- (length_map fst), Hk.
    rewrite <- (length_map Finding.type (map findingOf (filter relevant js))).
    apply NoDup_incl_length; [apply setOf_NoDup |].
    intros x Hx. now apply (proj1 (setOf_In _ _)) in Hx.
  - intros ->.
    destruct (histogram_spec (fun x => keyOf (Finding.severity x))
                             (map findingOf (filter relevant js)))
      as [_ [Hl' Hs']]. cbv zeta in Hl', Hs'.
    split; [exact Hl' | exact Hs'].
Qed.

End LoopFacts.

Section VerdictFacts.

Import Understanding.
Import Judged.

Variable regexTest : string -> string -> bool.
Variable judge : nat -> string -> Outcome.







End VerdictFacts.

Section AnalyzeFacts.

Import Understanding.
Import Judged.

Variable regexTest : string -> string -> bool.
Variable judge : nat -> string -> Outcome.

(** Every field of the result of [analyze] on a conversation with
    prompts, and the calls it makes. *)
Lemma analyze_result (a : Analyzer) (db : Db.t) (cid : string) :
  getConversationPrompts db cid <> [] ->
  let out := run (analyzeAllPromptsWithAI regexTest judge a
                    (promptsToAnalyze a (getConversationPrompts db cid))) in
  let ai := fst out in
  let r := fst (run (analyze regexTest judge a db cid)) in
  Result.score r = calculateScoreFromAI a ai
  /\ Result.confidence r = Some (calculateConfidenceFromAI a ai)
  /\ Result.verdict r = determineVerdict a (calculateScoreFromAI a ai)
  /\ Result.findings r = AiAnalysis.findings ai
  /\ Result.analysisMethod r = AiAnalysis.method ai
  /\ Result.aiSuccessRate r = Some (AiAnalysis.successRate ai)
  /\ Result.error r = None
  /\ snd (run (analyze regexTest judge a db cid)) = snd out.
Proof.
  intros Hne. cbv zeta. unfold analyze.
  destruct (getConversationPrompts db cid) as [|p ps]; [now elim Hne |].
  unfold run, bind, ret.
  destruct (analyzeAllPromptsWithAI regexTest judge a
              (promptsToAnalyze a (p :: ps)) []) as [ai log].
  repeat split.
Qed.

Lemma promptsToAnalyze_incl (a : Analyzer) (prompts : list Prompt.t) :
  incl (promptsToAnalyze a prompts) prompts.
Proof.
  destruct a; cbn [promptsToAnalyze]; try apply incl_refl.
  destruct (filter Prompt.is_debugging prompts) as [|q qs] eqn:E;
    [apply incl_refl |].
  rewrite <- E. intros x Hx. apply filter_In in Hx. tauto.
Qed.

Lemma promptsToAnalyze_nonempty (a : Analyzer) (prompts : list Prompt.t) :
  prompts <> [] -> promptsToAnalyze a prompts <> [].
Proof.
  intros Hne. destruct a; cbn [promptsToAnalyze]; try exact Hne.
  destruct (filter Prompt.is_debugging prompts); [exact Hne | discriminate].
Qed.

Lemma bottom_at_zero (a : Analyzer) : determineVerdict a 0 = bottomVerdict a.
Proof. destruct a; reflexivity. Qed.

Lemma summarize_nothing (a : Analyzer) (n succeeded failed : nat) :
  AiAnalysis.findings (summarize a n (Loop.mk [] succeeded failed)) = noFindings
  /\ AiAnalysis.allAnalyses (summarize a n (Loop.mk [] succeeded failed)) = [].
Proof. destruct a; split; reflexivity. Qed.

Lemma countScore_found (n : nat) : (0 < n)%nat -> (2 <= countScore n)%Q.
Proof.
  intros H. unfold countScore.
  destruct (5 <=? n)%nat; [lra |].
  destruct (3 <=? n)%nat; [lra |].
  destruct (Nat.leb_spec 1 n); [lra | lia].
Qed.

Lemma score_with_findings (a : Analyzer) (ai : AiAnalysis.t) :
  AiAnalysis.allAnalyses ai <> [] ->
  (0 < Findings.count (AiAnalysis.findings ai))%nat ->
  (0 <= Findings.quality (AiAnalysis.findings ai))%Q ->
  (2 <= calculateScoreFromAI a ai <= 10)%Q.
Proof.
  intros Hne Hc Hq. unfold calculateScoreFromAI.
  destruct (AiAnalysis.allAnalyses ai) as [|f fs]; [now elim Hne |].
  cbv zeta.
  pose proof (countScore_found Hc).
  pose proof (countScore_range (Findings.count (AiAnalysis.findings ai))).
  pose proof (bonusScore_range a (AiAnalysis.findings ai)).
  pose proof (quality_term_nonneg Hq).
  match goal with |- context [Js.roundQ (?t * 10)] =>
    assert (Ht : (2 <= t <= 10)%Q)
  end.
  { match goal with |- context [Js.Qmin 10 ?s] =>
      destruct (Qmin_cases 10 s) as [[? ->] | [? ->]]
    end; lra. }
  match goal with |- context [Js.roundQ ?x] =>
    assert (Hr : 20 <= Js.roundQ x <= 100)
      by (apply roundQ_bounds;
          [change (inject_Z 20) with 20%Q | change (inject_Z 100) with 100%Q];
          lra)
  end.
  apply (rounded_div_range Hr);
    [| change (inject_Z 20) with 20%Q | change (inject_Z 100) with 100%Q]; lra.
Qed.

(** X5.  For a conversation with prompts the score of an understanding
    analyzer is never strictly between 0 and 2: without findings the
    score is 0, the findings are the empty summary and the verdict is the
    analyzer's lowest; with at least one finding the score lies in
    [2, 10]. *)
Theorem score_zero_or_at_least_two (a : Analyzer) (db : Db.t) (cid : string) :
  getConversationPrompts db cid <> [] ->
  let r := fst (run (analyze regexTest judge a db cid)) in
  (Findings.count (Result.findings r) = 0%nat ->
   Result.findings r = noFindings
   /\ Result.score r = 0%Q
   /\ Result.verdict r = bottomVerdict a)
  /\ ((0 < Findings.count (Result.findings r))%nat ->
      (2 <= Result.score r <= 10)%Q).
Proof.
  intros Hne. cbv zeta.
  destruct (analyze_result a db cid Hne) as [Hs [_ [Hv [Hf _]]]].
  cbv zeta in Hs, Hv, Hf. rewrite Hs, Hv, Hf. clear Hs Hv Hf.
  pose proof (analyzeAll_quality regexTest judge a
                (promptsToAnalyze a (getConversationPrompts db cid))) as Hq.
  revert Hq. rewrite analyzeAll_judgments.
  set (js := judgments regexTest judge a _ []).
  set (n := List.length _).
  set (s := List.length (filter (fun j => negb (unparsed j)) js)).
  set (f := List.length (filter unparsed js)).
  intros Hq. split.
  - intros Hc.
    assert (Hnil : map findingOf (filter relevant js) = []).
    { apply length_zero_iff_nil. exact Hc. }
    rewrite Hnil.
    destruct (summarize_nothing a n s f) as [-> _].
    split; [reflexivity |].
    unfold calculateScoreFromAI. cbn [summarize AiAnalysis.allAnalyses Loop.analyses].
    split; [reflexivity | apply bottom_at_zero].
  - intros Hc. apply score_with_findings; [| exact Hc | exact Hq].
    cbn [summarize AiAnalysis.allAnalyses Loop.analyses].
    intros Hnil. unfold summarize in Hc.
    cbn [AiAnalysis.findings Findings.count Loop.analyses] in Hc.
    rewrite Hnil in Hc. simpl in Hc. lia.
Qed.

Lemma judgments_unparseable (a : Analyzer) (prompts : list Prompt.t) :
  (forall n text, unparseable (judge n text)) ->
  forall log,
    let js := judgments regexTest judge a prompts log in
    filter relevant js = [] /\ filter unparsed js = js
    /\ filter (fun j => negb (unparsed j)) js = [].
Proof.
  intros Hj. induction prompts as [|p rest IH]; intros log; cbv zeta.
  - repeat split.
  - cbn [judgments].
    destruct (String.length (Prompt.prompt_text p) <? 10)%nat; [apply IH |].
    destruct (IH (log ++ [Prompt.prompt_text p])%list) as [H1 [H2 H3]].
    cbv zeta in H1, H2, H3.
    cbn [filter]. unfold relevant at 1, unparsed at 1 3. cbn [fst snd].
    rewrite analyzePromptWithAI_run. cbn [fst].
    destruct (Hj (List.length log) (Prompt.prompt_text p))
      as [-> | [message ->]];
      cbn [parseResponse getDefaultResponse Verdict.relevant
           Verdict.parseError negb];
      rewrite H1, H3; (split; [reflexivity |]); (split; [| reflexivity]);
      f_equal; exact H2.
Qed.

Lemma zero_rate_confidence (a : Analyzer) (n succeeded failed : nat) (rate : Q) :
  (rate == 0)%Q ->
  (calculateConfidenceFromAI a
     (AiAnalysis.mk noFindings [] (if (succeeded <? failed)%nat
                                   then "fallback" else "ai") rate)
   == 3 # 10)%Q.
Proof.
  intros Hr. unfold calculateConfidenceFromAI. cbv zeta.
  cbn [AiAnalysis.findings AiAnalysis.successRate].
  assert (Hs : successConfidence rate = 0%Q).
  { unfold successConfidence.
    assert (H1 : Js.Qltb (8 # 10) rate = false) by (apply Qltb_false; lra).
    assert (H2 : Js.Qltb (5 # 10) rate = false) by (apply Qltb_false; lra).
    now rewrite H1, H2. }
  rewrite Hs. destruct a; reflexivity.
Qed.

(** X6.  When no answer of the capability contains a readable verdict,
    every understanding analyzer, on a conversation with prompts, reports
    no findings, score 0, its lowest verdict, a success rate of 0 and a
    confidence of 0.3; the method is ["fallback"] as soon as one prompt
    was long enough to be submitted. *)
Theorem unparseable_answers_give_nothing
        (a : Analyzer) (db : Db.t) (cid : string) :
  (forall n text, unparseable (judge n text)) ->
  getConversationPrompts db cid <> [] ->
  let r := fst (run (analyze regexTest judge a db cid)) in
  Result.findings r = noFindings
  /\ Result.score r = 0%Q
  /\ Result.verdict r = bottomVerdict a
  /\ (exists rate, Result.aiSuccessRate r = Some rate /\ (rate == 0)%Q)
  /\ (exists c, Result.confidence r = Some c /\ (c == 3 # 10)%Q)
  /\ (longEnough (promptsToAnalyze a (getConversationPrompts db cid)) <> [] ->
      Result.analysisMethod r = "fallback").
Proof.
  intros Hj Hne. cbv zeta.
  destruct (analyze_result a db cid Hne) as [Hs [Hc [Hv [Hf [Hm [Hr _]]]]]].
  cbv zeta in Hs, Hc, Hv, Hf, Hm, Hr. rewrite Hs, Hc, Hv, Hf, Hm, Hr.
  clear Hs Hc Hv Hf Hm Hr.
  rewrite analyzeAll_judgments.
  pose proof (judgments_prompts regexTest judge a
                (promptsToAnalyze a (getConversationPrompts db cid)) [])
    as Hp.
  destruct (judgments_unparseable a
              (promptsToAnalyze a (getConversationPrompts db cid)) Hj [])
    as [H1 [H2 H3]]. cbv zeta in H1, H2, H3.
  set (js := judgments regexTest judge a _ []) in *.
  rewrite H1, H2, H3. cbn [map List.length].
  pose proof (promptsToAnalyze_nonempty a Hne) as Hsel.
  set (sel := promptsToAnalyze a (getConversationPrompts db cid)) in *.
  assert (Hn : (0 < List.length sel)%nat).
  { destruct sel; [now elim Hsel | simpl; lia]. }
  destruct (summarize_nothing a (List.length sel) 0 (List.length js))
    as [Hfind Hall].
  assert (Hrate : (AiAnalysis.successRate
                     (summarize a (List.length sel)
                                (Loop.mk [] 0 (List.length js))) == 0)%Q).
  { unfold summarize. cbn [AiAnalysis.successRate Loop.aiSuccessCount].
    destruct (0 <? List.length sel)%nat; [| reflexivity].
    unfold Qdiv. change (Js.ofNat 0) with 0%Q. lra. }
  split; [exact Hfind |].
  split; [unfold calculateScoreFromAI; now rewrite Hall |].
  split; [unfold calculateScoreFromAI; rewrite Hall; apply bottom_at_zero |].
  split; [eexists; split; [reflexivity | exact Hrate] |].
  split.
  - eexists; split; [reflexivity |].
    revert Hrate. unfold summarize.
    cbn [AiAnalysis.successRate Loop.aiSuccessCount Loop.fallbackCount
         Loop.analyses List.length firstn map fold_left].
    intros Hrate.
    replace (match a with
             | MistakeCatcher => []
             | _ => []
             end) with (@nil (string * nat)) by now destruct a.
    change (Findings.mk 0 [] 0 [] [] []) with noFindings.
    apply (zero_rate_confidence a (List.length sel) 0 (List.length js) Hrate).
  - intros Hlong. unfold summarize.
    cbn [AiAnalysis.method Loop.aiSuccessCount Loop.fallbackCount].
    assert (Hjs : (0 < List.length js)%nat).
    { rewrite <- (length_map fst), Hp.
      destruct (longEnough sel); [now elim Hlong | simpl; lia]. }
    destruct (Nat.ltb_spec 0 (List.length js)); [reflexivity | lia].
Qed.

Lemma judgments_short (a : Analyzer) (prompts : list Prompt.t) :
  Forall (fun p => (String.length (Prompt.prompt_text p) < 10)%nat) prompts ->
  forall log, judgments regexTest judge a prompts log = [].
Proof.
  induction 1 as [|p rest Hp _ IH]; intros log; [reflexivity |].
  cbn [judgments].
  destruct (Nat.ltb_spec (String.length (Prompt.prompt_text p)) 10);
    [apply IH | lia].
Qed.

(** X7.  A conversation all of whose prompts are shorter than ten
    characters is analysed without a single call to the capability: the
    result has no findings, score 0, the lowest verdict, method ["ai"],
    a success rate of 0 and a confidence of 0.3. *)
Theorem short_prompts_only (a : Analyzer) (db : Db.t) (cid : string) :
  getConversationPrompts db cid <> [] ->
  Forall (fun p => (String.length (Prompt.prompt_text p) < 10)%nat)
         (getConversationPrompts db cid) ->
  let out := run (analyze regexTest judge a db cid) in
  let r := fst out in
  snd out = []
  /\ Result.findings r = noFindings
  /\ Result.score r = 0%Q
  /\ Result.verdict r = bottomVerdict a
  /\ Result.analysisMethod r = "ai"
  /\ (exists rate, Result.aiSuccessRate r = Some rate /\ (rate == 0)%Q)
  /\ (exists c, Result.confidence r = Some c /\ (c == 3 # 10)%Q).
Proof.
  intros Hne Hshort. cbv zeta.
  destruct (analyze_result a db cid Hne)
    as [Hs [Hc [Hv [Hf [Hm [Hr [_ Hl]]]]]]].
  cbv zeta in Hs, Hc, Hv, Hf, Hm, Hr, Hl. rewrite Hs, Hc, Hv, Hf, Hm, Hr, Hl.
  clear Hs Hc Hv Hf Hm Hr Hl.
  assert (Hsel : Forall (fun p => (String.length (Prompt.prompt_text p) < 10)%nat)
                        (promptsToAnalyze a (getConversationPrompts db cid))).
  { rewrite Forall_forall in *. intros p Hp.
    apply Hshort. exact (@promptsToAnalyze_incl a _ p Hp). }
  split.
  - rewrite analyzeAll_run. cbn [snd]. rewrite judgeAll_log. cbn [app].
    rewrite <- (judgments_prompts regexTest judge a _ []).
    now rewrite (judgments_short a Hsel).
  - rewrite analyzeAll_judgments. rewrite (judgments_short a Hsel).
    cbn [filter map List.length].
    set (n := List.length _).
    destruct (summarize_nothing a n 0 0) as [Hfind Hall].
    assert (Hrate : (AiAnalysis.successRate
                       (summarize a n (Loop.mk [] 0 0)) == 0)%Q).
    { unfold summarize. cbn [AiAnalysis.successRate Loop.aiSuccessCount].
      destruct (0 <? n)%nat; [| reflexivity].
      unfold Qdiv. change (Js.ofNat 0) with 0%Q. lra. }
    split; [exact Hfind |].
    split; [unfold calculateScoreFromAI; now rewrite Hall |].
    split; [unfold calculateScoreFromAI; rewrite Hall; apply bottom_at_zero |].
    split; [reflexivity |].
    split; [eexists; split; [reflexivity | exact Hrate] |].
    eexists; split; [reflexivity |].
    revert Hrate. unfold summarize.
    cbn [AiAnalysis.successRate Loop.aiSuccessCount Loop.fallbackCount
         Loop.analyses List.length firstn map fold_left].
    intros Hrate.
    replace (match a with
             | MistakeCatcher => []
             | _ => []
             end) with (@nil (string * nat)) by now destruct a.
    change (Findings.mk 0 [] 0 [] [] []) with noFindings.
    apply (zero_rate_confidence a n 0 0 Hrate).
Qed.

End AnalyzeFacts.

(* ------------------------------------------------------------------ *)
(** ** The correlation engine beyond the window rule *)

Section Ordering.

Variable A : Type.
Variable key : A -> Z.

Lemma insertBy_In (x y : A) (l : list A) :
  In y (Db.insertBy key x l) <-> y = x \/ In y l.
Proof.
  induction l as [|z l IH]; simpl.
  - intuition congruence.
  - destruct (key x <=? key z); simpl; [intuition congruence |].
    rewrite IH. intuition congruence.
Qed.

Lemma orderBy_In (y : A) (l : list A) : In y (Db.orderBy key l) <-> In y l.
Proof.
  induction l as [|x l IH]; simpl; [tauto |].
  rewrite insertBy_In, IH. intuition congruence.
Qed.

End Ordering.

Lemma length_flat_map_sum {A B : Type} (f : A -> list B) (l : list A) :
  List.length (flat_map f l) = list_sum (map (fun x => List.length (f x)) l).
Proof.
  induction l as [|x l IH]; [reflexivity |].
  simpl. now rewrite length_app, IH.
Qed.

Lemma indicator_sum (k : string) (ks : list string) :
  NoDup ks -> In k ks ->
  list_sum (map (fun k' => if (k =? k')%string then 1%nat else 0%nat) ks)
  = 1%nat.
Proof.
  induction 1 as [|k0 ks Hnotin Hnd IH]; intros Hin; [destruct Hin |].
  simpl. destruct (String.eqb_spec k k0) as [-> | Hne].
  - assert (Hz : list_sum
                   (map (fun k' => if (k0 =? k')%string then 1%nat else 0%nat)
                        ks) = 0%nat).
    { clear IH Hnd Hin. induction ks as [|k1 ks IH]; [reflexivity |].
      simpl. destruct (String.eqb_spec k0 k1) as [-> | _].
      - exfalso. apply Hnotin. now left.
      - apply IH. intros H. apply Hnotin. now right. }
    now rewrite Hz.
  - destruct Hin as [-> | Hin]; [now elim Hne |]. now rewrite IH.
Qed.

(** Grouping the rows of a table by a key loses and repeats none. *)
Lemma group_sizes {A : Type} (key : A -> string) (l : list A) (ks : list string) :
  NoDup ks -> (forall x, In x l -> In (key x) ks) ->
  list_sum (map (fun k => List.length (filter (fun x => (key x =? k)%string) l))
                ks)
  = List.length l.
Proof.
  intros Hnd. induction l as [|x l IH]; intros Hin.
  - clear Hnd Hin. induction ks as [|k ks IHk]; [reflexivity |].
    simpl. exact IHk.
  - assert (Hstep :
      list_sum (map (fun k => List.length
                                (filter (fun y => (key y =? k)%string) (x :: l)))
                    ks)
      = (list_sum (map (fun k' => if (key x =? k')%string then 1%nat else 0%nat)
                       ks)
         + list_sum (map (fun k => List.length
                                     (filter (fun y => (key y =? k)%string) l))
                         ks))%nat).
    { clear IH Hin Hnd. unfold list_sum.
      induction ks as [|k ks IHk]; [reflexivity |].
      cbn [map fold_right]. rewrite IHk. cbn [filter].
      destruct (key x =? k)%string; cbn [List.length]; lia. }
    rewrite Hstep, (IH (fun y Hy => Hin y (or_intror Hy))).
    rewrite (@indicator_sum (key x) ks Hnd (Hin x (or_introl eq_refl))).
    reflexivity.
Qed.

Section Correlations.

Import CorrelationEngine.

Lemma forEachIndexed_length {A B : Type} (f : nat -> A -> B) (l : list A) :
  List.length (forEachIndexed f l) = List.length l.
Proof.
  unfold forEachIndexed.
  rewrite length_map, length_combine, length_seq. lia.
Qed.

Lemma conversation_prompts (db : Db.t) (cid : string) (p : Prompt.t) :
  In p (Conversation.prompts (getConversationData db cid))
  <-> In p (Db.prompts db) /\ Prompt.conversation_id p = cid.
Proof.
  unfold getConversationData. cbn [Conversation.prompts].
  rewrite orderBy_In, filter_In. now rewrite String.eqb_eq.
Qed.

Lemma conversation_edits (db : Db.t) (cid : string) (e : Edit.t) :
  In e (Conversation.edits (getConversationData db cid))
  <-> In e (Db.edits db) /\ Edit.conversation_id e = cid.
Proof.
  unfold getConversationData. cbn [Conversation.edits].
  rewrite orderBy_In, filter_In. now rewrite String.eqb_eq.
Qed.

Lemma groups_ids (db : Db.t) (k : string) :
  In k (Js.setOf (map Prompt.conversation_id
                      (Db.orderBy Prompt.timestamp (Db.prompts db))))
  <-> exists p, In p (Db.prompts db) /\ Prompt.conversation_id p = k.
Proof.
  rewrite setOf_In, in_map_iff. split.
  - intros [p [Hk Hp]]. exists p. now rewrite orderBy_In in Hp.
  - intros [p [Hp Hk]]. exists p. now rewrite orderBy_In.
Qed.

(** The correlations, conversation by conversation. *)
Lemma In_correlations (db : Db.t) (c : Correlation.t) :
  In c (correlatePromptsToEdits db) <->
  exists cid i p,
    (exists q, In q (Db.prompts db) /\ Prompt.conversation_id q = cid)
    /\ nth_error (Conversation.prompts (getConversationData db cid)) i = Some p
    /\ c = correlatePrompt (getConversationData db cid) i p.
Proof.
  unfold correlatePromptsToEdits, getConversationGroups.
  rewrite in_flat_map. split.
  - intros [conv [Hconv Hc]]. apply in_map_iff in Hconv.
    destruct Hconv as [cid [<- Hcid]]. apply groups_ids in Hcid.
    apply In_forEachIndexed in Hc. destruct Hc as [i [p [Hp ->]]].
    exists cid, i, p. auto.
  - intros [cid [i [p [Hq [Hp ->]]]]].
    exists (getConversationData db cid). split.
    + apply in_map, groups_ids, Hq.
    + unfold correlateConversation.
      apply (@nth_error_In _ _ i). rewrite nth_error_forEachIndexed, Hp.
      reflexivity.
Qed.

(** X8.  [correlatePromptsToEdits] returns one correlation per row of the
    prompts table: as many correlations as prompts, every prompt described
    by one of them, and every correlation describing a stored prompt. *)
Theorem one_correlation_per_prompt (db : Db.t) :
  List.length (correlatePromptsToEdits db) = List.length (Db.prompts db)
  /\ (forall p, In p (Db.prompts db) ->
        exists c, In c (correlatePromptsToEdits db)
                  /\ Correlation.prompt_id c = Prompt.id p
                  /\ Correlation.prompt_text c = Prompt.prompt_text p
                  /\ Correlation.prompt_timestamp c = Prompt.timestamp p
                  /\ Correlation.conversation_id c = Prompt.conversation_id p)
  /\ (forall c, In c (correlatePromptsToEdits db) ->
        exists p, In p (Db.prompts db)
                  /\ Correlation.prompt_id c = Prompt.id p
                  /\ Correlation.prompt_text c = Prompt.prompt_text p
                  /\ Correlation.prompt_timestamp c = Prompt.timestamp p
                  /\ Correlation.conversation_id c = Prompt.conversation_id p).
Proof.
  split; [| split].
  - unfold correlatePromptsToEdits, getConversationGroups.
    rewrite length_flat_map_sum, map_map.
    rewrite <- (@group_sizes _ Prompt.conversation_id (Db.prompts db)
                  (Js.setOf (map Prompt.conversation_id
                               (Db.orderBy Prompt.timestamp (Db.prompts db))))).
    + f_equal. apply map_ext. intros k.
      unfold correlateConversation. rewrite forEachIndexed_length.
      unfold getConversationData. cbn [Conversation.prompts].
      apply orderBy_length.
    + apply setOf_NoDup.
    + intros p Hp. apply groups_ids. now exists p.
  - intros p Hp.
    assert (Hin : In p (Conversation.prompts
                          (getConversationData db (Prompt.conversation_id p))))
      by now apply conversation_prompts.
    apply In_nth_error in Hin. destruct Hin as [i Hi].
    exists (correlatePrompt (getConversationData db (Prompt.conversation_id p))
                            i p).
    split; [| repeat split].
    apply In_correlations. exists (Prompt.conversation_id p), i, p.
    split; [now exists p |]. split; [exact Hi | reflexivity].
  - intros c Hc. apply In_correlations in Hc.
    destruct Hc as [cid [i [p [_ [Hp ->]]]]].
    apply nth_error_In, conversation_prompts in Hp. destruct Hp as [Hp Hcid].
    exists p. split; [exact Hp |]. repeat split. now rewrite Hcid.
Qed.

Lemma statsOf_counts (related : list RelatedEdit.t) :
  Stats.total_edits (statsOf related) = List.length related
  /\ (Stats.files_changed (statsOf related)
      <= Stats.total_edits (statsOf related))%nat
  /\ (related <> [] -> (1 <= Stats.files_changed (statsOf related))%nat)
  /\ (Stats.time_to_first_edit (statsOf related) = None <-> related = []).
Proof.
  destruct related as [|r rs].
  { simpl. split; [reflexivity |]. split; [lia |].
    split; [intros H; now elim H |]. split; intros _; reflexivity. }
  unfold statsOf. cbn [Stats.total_edits Stats.files_changed
                       Stats.time_to_first_edit].
  split; [reflexivity |]. split; [| split].
  - rewrite <- (length_map RelatedEdit.file_path (r :: rs)).
    apply NoDup_incl_length; [apply setOf_NoDup |].
    intros x Hx. exact (proj1 (setOf_In _ _) Hx).
  - intros _. apply (@In_length_pos _ (RelatedEdit.file_path r)).
    apply (proj2 (setOf_In _ _)). now left.
  - split; discriminate.
Qed.

(** X9.  In every correlation returned by [correlatePromptsToEdits],
    [total_edits] is the number of related edits, [files_changed] is at
    most that number and at least 1 when there is a related edit,
    [time_to_first_edit] is missing exactly when there is none, and every
    related edit is a stored edit of the correlation's own conversation,
    made at or after the prompt. *)
Theorem correlation_contents (db : Db.t) (c : Correlation.t) :
  In c (correlatePromptsToEdits db) ->
  let st := Correlation.stats c in
  Stats.total_edits st = List.length (Correlation.related_edits c)
  /\ (Stats.files_changed st <= Stats.total_edits st)%nat
  /\ (Correlation.related_edits c <> [] -> (1 <= Stats.files_changed st)%nat)
  /\ (Stats.time_to_first_edit st = None <-> Correlation.related_edits c = [])
  /\ (forall r, In r (Correlation.related_edits c) ->
        exists e, In e (Db.edits db)
                  /\ Edit.conversation_id e = Correlation.conversation_id c
                  /\ r = relatedOf (Correlation.prompt_timestamp c) e
                  /\ 0 <= RelatedEdit.time_after_prompt r).
Proof.
  intros Hc. apply In_correlations in Hc.
  destruct Hc as [cid [i [p [_ [_ ->]]]]]. cbv zeta.
  unfold correlatePrompt.
  cbn [Correlation.stats Correlation.related_edits
       Correlation.conversation_id Correlation.prompt_timestamp].
  match goal with |- context [statsOf ?l] =>
    destruct (statsOf_counts l) as [H1 [H2 [H3 H4]]]
  end.
  split; [exact H1 |]. split; [exact H2 |]. split; [exact H3 |].
  split; [exact H4 |].
  intros r Hr. apply in_map_iff in Hr. destruct Hr as [e [<- He]].
  apply filter_In in He. destruct He as [He Hw].
  apply conversation_edits in He. destruct He as [He Hcid].
  exists e. split; [exact He |]. split; [exact Hcid |].
  split; [reflexivity |].
  unfold inWindow in Hw. apply andb_prop in Hw. destruct Hw as [Hw _].
  apply Z.leb_le in Hw. cbn [relatedOf RelatedEdit.time_after_prompt]. lia.
Qed.

Lemma tally_counts (correlations : list Correlation.t) :
  forall acc,
    let t := fold_left tally correlations acc in
    (Tally.withEdits t + Tally.withoutEdits t
     = Tally.withEdits acc + Tally.withoutEdits acc
       + List.length correlations)%nat
    /\ Tally.withEdits t
       = (Tally.withEdits acc
          + List.length
              (filter (fun c => match Correlation.related_edits c with
                                | [] => false
                                | _ :: _ => true
                                end) correlations))%nat.
Proof.
  induction correlations as [|c cs IH]; intros acc; cbv zeta.
  - simpl. lia.
  - cbn [fold_left]. destruct (IH (tally acc c)) as [H1 H2].
    cbv zeta in H1, H2. rewrite H1, H2. cbn [filter]. unfold tally.
    destruct (Correlation.related_edits c);
      cbn [Tally.withEdits Tally.withoutEdits List.length]; lia.
Qed.

(** X10.  [analyzeEffectiveness] counts every correlation once, as a prompt
    with or without edits; [prompts_with_edits] is the number of
    correlations that have a related edit; and on a non-empty list the
    effectiveness score is a whole number between 0 and 100. *)
Theorem effectiveness_counts (correlations : list Correlation.t) :
  correlations <> [] ->
  let r := analyzeEffectiveness correlations in
  Effectiveness.total_prompts r = List.length correlations
  /\ (Effectiveness.prompts_with_edits r
      + Effectiveness.prompts_without_edits r)%nat
     = Effectiveness.total_prompts r
  /\ Effectiveness.prompts_with_edits r
     = List.length
         (filter (fun c => match Correlation.related_edits c with
                           | [] => false
                           | _ :: _ => true
                           end) correlations)
  /\ exists z, Effectiveness.effectiveness_score r = Js.Fin (inject_Z z)
               /\ 0 <= z <= 100.
Proof.
  intros Hne. cbv zeta. unfold analyzeEffectiveness. cbv zeta.
  cbn [Effectiveness.total_prompts Effectiveness.prompts_with_edits
       Effectiveness.prompts_without_edits Effectiveness.effectiveness_score].
  destruct (tally_counts correlations (Tally.mk 0 0 0 0 0 0)) as [H1 H2].
  cbv zeta in H1, H2. cbn [Tally.withEdits Tally.withoutEdits] in H1, H2.
  split; [reflexivity |]. split; [lia |]. split; [lia |].
  assert (Hpos : (0 < List.length correlations)%nat).
  { destruct correlations; [now elim Hne | simpl; lia]. }
  assert (Hle : (Tally.withEdits
                   (fold_left tally correlations (Tally.mk 0 0 0 0 0 0))
                 <= List.length correlations)%nat) by lia.
  destruct (div_counts Hpos Hle) as [Hdiv [Hlo Hhi]].
  rewrite Hdiv. cbn [Js.scale Js.round].
  eexists. split; [reflexivity |].
  apply roundQ_bounds;
    [change (inject_Z 0) with 0%Q | change (inject_Z 100) with 100%Q]; lra.
Qed.

Lemma same_members_length (l1 l2 : list string) :
  NoDup l1 -> NoDup l2 -> (forall x, In x l1 <-> In x l2) ->
  List.length l1 = List.length l2.
Proof.
  intros H1 H2 H. apply Nat.le_antisymm; apply NoDup_incl_length; trivial;
    intros x Hx; now apply H.
Qed.

(** The size of a set depends on the members of the list only. *)
Lemma setOf_length_ext (l1 l2 : list string) :
  (forall x, In x l1 <-> In x l2) ->
  List.length (Js.setOf l1) = List.length (Js.setOf l2).
Proof.
  intros H. apply same_members_length; try apply setOf_NoDup.
  intros x. now rewrite !setOf_In.
Qed.

Lemma similarity_ext (s1 s1' s2 s2' : list string) :
  (forall x, In x s1 <-> In x s1') -> (forall x, In x s2 <-> In x s2') ->
  Js.div (Js.ofNat (List.length
                      (Js.setOf (filter (fun x => Js.mem x (Js.setOf s2))
                                        (Js.setOf s1)))))
         (Js.ofNat (List.length (Js.setOf (Js.setOf s1 ++ Js.setOf s2)%list)))
  = Js.div (Js.ofNat (List.length
                        (Js.setOf (filter (fun x => Js.mem x (Js.setOf s2'))
                                          (Js.setOf s1')))))
           (Js.ofNat (List.length
                        (Js.setOf (Js.setOf s1' ++ Js.setOf s2')%list))).
Proof.
  intros H1 H2. f_equal; f_equal; apply setOf_length_ext; intros x.
  - rewrite !filter_In, !mem_In, !setOf_In, H1, H2. tauto.
  - rewrite !in_app_iff, !setOf_In, H1, H2. tauto.
Qed.

(** X11.  [calculateSimilarity] and [isSimilarCode] are symmetric in their
    two arguments.  [calculateSimilarity] depends only on which tokens
    occur in each argument, not on their order or repetition, and is 1
    whenever the two arguments have the same tokens, in particular on
    identical arguments. *)
Theorem similarity_symmetric :
  (forall str1 str2,
     calculateSimilarity str1 str2 = calculateSimilarity str2 str1)
  /\ (forall str1 str2, isSimilarCode str1 str2 = isSimilarCode str2 str1)
  /\ (forall str1 str1' str2,
        (forall x, In x (Js.splitWs str1) <-> In x (Js.splitWs str1')) ->
        calculateSimilarity str1 str2 = calculateSimilarity str1' str2)
  /\ (forall str1 str2,
        (forall x, In x (Js.splitWs str1) <-> In x (Js.splitWs str2)) ->
        exists q, calculateSimilarity str1 str2 = Js.Fin q /\ (q == 1)%Q).
Proof.
  assert (Hsym : forall str1 str2,
            calculateSimilarity str1 str2 = calculateSimilarity str2 str1).
  { intros str1 str2. unfold calculateSimilarity.
    f_equal; f_equal; apply setOf_length_ext; intros x.
    - rewrite !filter_In, !mem_In. tauto.
    - rewrite !in_app_iff. tauto. }
  split; [exact Hsym |]. split; [| split].
  - intros [s1|] [s2|]; try reflexivity.
    unfold isSimilarCode. rewrite (orb_comm (negb (Js.truthy (Some s2)))).
    destruct (negb (Js.truthy (Some s1)) || negb (Js.truthy (Some s2)));
      [reflexivity |].
    rewrite (String.eqb_sym (normalize s2)).
    destruct (normalize s1 =? normalize s2)%string; [reflexivity |].
    now rewrite Hsym.
  - intros str1 str1' str2 H. unfold calculateSimilarity.
    apply similarity_ext; [exact H | tauto].
  - intros str1 str2 H. unfold calculateSimilarity.
    rewrite (@similarity_ext (Js.splitWs str1) (Js.splitWs str1)
               (Js.splitWs str2) (Js.splitWs str1));
      [| tauto | intros x; now rewrite H].
    set (s := Js.setOf (Js.splitWs str1)).
    assert (Hi : List.length (Js.setOf (filter (fun x => Js.mem x s) s))
                 = List.length s).
    { apply same_members_length;
        [apply setOf_NoDup | apply setOf_NoDup |].
      intros x. rewrite setOf_In, filter_In, mem_In. tauto. }
    assert (Hu : List.length (Js.setOf (s ++ s)%list) = List.length s).
    { apply same_members_length;
        [apply setOf_NoDup | apply setOf_NoDup |].
      intros x. rewrite setOf_In, in_app_iff. tauto. }
    rewrite Hi, Hu.
    assert (Hpos : (0 < List.length s)%nat).
    { pose proof (tokens_nonempty str1) as Hne. fold s in Hne.
      destruct s; [now elim Hne | simpl; lia]. }
    destruct (div_counts Hpos (Nat.le_refl _)) as [-> _].
    eexists. split; [reflexivity |].
    pose proof (ofNat_pos Hpos). field. lra.
Qed.

End Correlations.

Section Reversals.

Import CorrelationEngine.

Lemma detectReversalsFrom_increasing (rest : list HistoryEntry.t) :
  forall i prev,
    StronglySorted lt (map Reversal.index (detectReversalsFrom i prev rest)).
Proof.
  induction rest as [|curr rest IH]; intros i prev; simpl; [constructor |].
  pose proof (detectReversalsFrom_index_ge rest (S i) curr) as Hge.
  destruct (isSimilarCode _ _); simpl; [| apply IH].
  constructor; [apply IH |].
  rewrite Forall_map. eapply Forall_impl; [| exact Hge].
  simpl. intros r Hr. lia.
Qed.

Lemma detectReversalsFrom_entries (rest : list HistoryEntry.t) :
  forall i prev r,
    In r (detectReversalsFrom i prev rest) ->
    exists before curr,
      (i <= Reversal.index r)%nat
      /\ nth_error (prev :: rest) (Reversal.index r - i) = Some before
      /\ nth_error rest (Reversal.index r - i) = Some curr
      /\ Reversal.prompt_reverted_from r = HistoryEntry.prompt_text before
      /\ Reversal.prompt_reverted_to r = HistoryEntry.prompt_text curr
      /\ isSimilarCode (HistoryEntry.new_string curr)
                       (HistoryEntry.old_string before) = true.
Proof.
  induction rest as [|curr rest IH]; intros i prev r Hr; [destruct Hr |].
  cbn [detectReversalsFrom] in Hr. apply in_app_or in Hr.
  destruct Hr as [Hr | Hr].
  - destruct (isSimilarCode _ _) eqn:E; [| destruct Hr].
    destruct Hr as [<- | []]. cbn [Reversal.index Reversal.prompt_reverted_from
                                    Reversal.prompt_reverted_to].
    exists prev, curr. rewrite Nat.sub_diag. repeat split; auto.
  - destruct (IH (S i) curr r Hr) as [before [c [Hi [Hb [Hc [Hf [Ht Hs]]]]]]].
    exists before, c.
    replace (Reversal.index r - i)%nat with (S (Reversal.index r - S i))
      by lia.
    repeat split; auto. lia.
Qed.

Lemma detectReversalsFrom_length (rest : list HistoryEntry.t) :
  forall i prev,
    (List.length (detectReversalsFrom i prev rest) <= List.length rest)%nat.
Proof.
  induction rest as [|curr rest IH]; intros i prev; simpl; [lia |].
  rewrite length_app. specialize (IH (S i) curr).
  destruct (isSimilarCode _ _); simpl; lia.
Qed.

(** X12.  [detectReversals] reports the indices in strictly increasing order,
    each between 1 and the last index of the history, so fewer reversals
    than edits; index [i] is reported exactly when the new text of edit
    [i] is similar to the old text of edit [i - 1], and the reversal then
    names the prompts of these two edits. *)
Theorem detectReversals_indices (editHistory : list HistoryEntry.t) :
  let reversals := detectReversals editHistory in
  StronglySorted lt (map Reversal.index reversals)
  /\ (List.length reversals <= List.length editHistory - 1)%nat
  /\ (forall r, In r reversals ->
        (1 <= Reversal.index r < List.length editHistory)%nat
        /\ exists before curr,
             nth_error editHistory (Reversal.index r - 1) = Some before
             /\ nth_error editHistory (Reversal.index r) = Some curr
             /\ Reversal.prompt_reverted_from r
                = HistoryEntry.prompt_text before
             /\ Reversal.prompt_reverted_to r = HistoryEntry.prompt_text curr
             /\ Reversal.explanation r = "Code reverted to earlier state")
  /\ (forall i before curr,
        nth_error editHistory i = Some before ->
        nth_error editHistory (S i) = Some curr ->
        (In (S i) (map Reversal.index reversals)
         <-> isSimilarCode (HistoryEntry.new_string curr)
                           (HistoryEntry.old_string before) = true)).
Proof.
  cbv zeta. destruct editHistory as [|first rest].
  - simpl. split; [constructor |]. split; [lia |].
    split; [intros r [] |]. intros i before curr H. now destruct i.
  - cbn [detectReversals]. split; [apply detectReversalsFrom_increasing |].
    split.
    { pose proof (detectReversalsFrom_length rest 1 first). simpl. lia. }
    split.
    + intros r Hr.
      assert (He : Reversal.explanation r = "Code reverted to earlier state").
      { clear - Hr. revert Hr. generalize 1%nat first.
        induction rest as [|c rest IH]; intros i prev Hr; [destruct Hr |].
        cbn [detectReversalsFrom] in Hr. apply in_app_or in Hr.
        destruct Hr as [Hr | Hr]; [| exact (IH _ _ Hr)].
        destruct (isSimilarCode _ _); [| destruct Hr].
        destruct Hr as [<- | []]. reflexivity. }
      destruct (detectReversalsFrom_entries rest 1 first r Hr)
        as [before [curr [Hi [Hb [Hc [Hf [Ht _]]]]]]].
      split.
      * split; [exact Hi |].
        assert (Hlt : (Reversal.index r - 1 < List.length rest)%nat)
          by (apply nth_error_Some; congruence).
        simpl. lia.
      * exists before, curr. split; [exact Hb |].
        split; [| auto].
        replace (Reversal.index r) with (S (Reversal.index r - 1)) at 1 by lia.
        exact Hc.
    + intros i before curr Hb Hc.
      rewrite (detectReversalsFrom_spec rest 1 first (S i)).
      replace (S i - 1)%nat with i by lia. cbn [nth_error] in Hc.
      split.
      * intros [b [c [_ [Hb' [Hc' Hs]]]]]. congruence.
      * intros Hs. exists before, curr. repeat split; auto. lia.
Qed.

End Reversals.

Section IterationPatterns.

Import CorrelationEngine.
Import Iteration.

Lemma insertBy_Permutation {A : Type} (key : A -> Z) (x : A) (l : list A) :
  Permutation (Db.insertBy key x l) (x :: l).
Proof.
  induction l as [|y l IH]; simpl; [apply Permutation_refl |].
  destruct (key x <=? key y); [apply Permutation_refl |].
  eapply Permutation_trans; [apply perm_skip, IH | apply perm_swap].
Qed.

Lemma orderBy_Permutation {A : Type} (key : A -> Z) (l : list A) :
  Permutation (Db.orderBy key l) l.
Proof.
  induction l as [|x l IH]; simpl; [apply Permutation_refl |].
  eapply Permutation_trans; [apply insertBy_Permutation |].
  now apply perm_skip.
Qed.

Lemma historyOf_pushEntry (path k : string) (entry : HistoryEntry.t)
      (m : list (string * list HistoryEntry.t)) :
  historyOf k (pushEntry path entry m)
  = if (path =? k)%string then (historyOf k m ++ [entry])%list
    else historyOf k m.
Proof.
  unfold historyOf. induction m as [|[k0 h0] m IH]; cbn [pushEntry find fst snd].
  - destruct (path =? k)%string; reflexivity.
  - destruct (String.eqb_spec path k0) as [-> | Hne]; cbn [find fst snd].
    + destruct (k0 =? k)%string; reflexivity.
    + destruct (String.eqb_spec k0 k) as [-> | Hne'].
      * destruct (String.eqb_spec path k) as [-> | _]; [now elim Hne |].
        reflexivity.
      * exact IH.
Qed.

Lemma keys_pushEntry (path : string) (entry : HistoryEntry.t)
      (m : list (string * list HistoryEntry.t)) :
  map fst (pushEntry path entry m) = Js.add (map fst m) path.
Proof.
  unfold Js.add, Js.mem.
  induction m as [|[k0 h0] m IH]; cbn [pushEntry map fst existsb];
    [reflexivity |].
  destruct (String.eqb_spec path k0) as [-> | Hne]; cbn [orb map fst];
    [reflexivity |].
  rewrite IH. destruct (existsb (String.eqb path) (map fst m)); reflexivity.
Qed.

Lemma pushEntry_NoDup (path : string) (entry : HistoryEntry.t)
      (m : list (string * list HistoryEntry.t)) :
  NoDup (map fst m) -> NoDup (map fst (pushEntry path entry m)).
Proof.
  intros Hnd. rewrite keys_pushEntry.
  exact (@setOf_fold_NoDup [path] (map fst m) Hnd).
Qed.

(** The table after the two loops: distinct keys, and under each path the
    edits that touch it. *)
Lemma fileEditHistory_spec (correlations : list Correlation.t) :
  NoDup (map fst (fileEditHistory correlations))
  /\ forall k, historyOf k (fileEditHistory correlations)
               = entriesFor k correlations.
Proof.
  unfold fileEditHistory.
  assert (Hinner : forall corr edits m,
            NoDup (map fst m) ->
            let m' := fold_left
                        (fun m' edit => pushEntry (RelatedEdit.file_path edit)
                                                  (entryOf corr edit) m')
                        edits m in
            NoDup (map fst m')
            /\ forall k, historyOf k m'
                         = (historyOf k m
                            ++ map (entryOf corr)
                                 (filter (fun edit =>
                                            (RelatedEdit.file_path edit =? k)%string)
                                         edits))%list).
  { intros corr edits. induction edits as [|e edits IH]; intros m Hnd; cbv zeta.
    - simpl. split; [exact Hnd |]. intros k. now rewrite app_nil_r.
    - cbn [fold_left].
      destruct (IH _ (@pushEntry_NoDup (RelatedEdit.file_path e)
                                       (entryOf corr e) m Hnd)) as [H1 H2].
      cbv zeta in H1, H2. split; [exact H1 |]. intros k.
      rewrite H2, historyOf_pushEntry. cbn [filter].
      destruct (RelatedEdit.file_path e =? k)%string; [| reflexivity].
      cbn [map]. now rewrite <- app_assoc. }
  assert (Houter : forall cs m,
            NoDup (map fst m) ->
            let m' := fold_left
                        (fun m corr =>
                           fold_left
                             (fun m' edit =>
                                pushEntry (RelatedEdit.file_path edit)
                                          (entryOf corr edit) m')
                             (Correlation.related_edits corr) m)
                        cs m in
            NoDup (map fst m')
            /\ forall k, historyOf k m'
                         = (historyOf k m ++ entriesFor k cs)%list).
  { induction cs as [|c cs IH]; intros m Hnd; cbv zeta.
    - simpl. split; [exact Hnd |]. intros k. now rewrite app_nil_r.
    - cbn [fold_left].
      destruct (Hinner c (Correlation.related_edits c) m Hnd) as [H1 H2].
      cbv zeta in H1, H2.
      destruct (IH _ H1) as [H3 H4]. cbv zeta in H3, H4.
      split; [exact H3 |]. intros k. rewrite H4, H2.
      unfold entriesFor. cbn [flat_map]. now rewrite <- app_assoc. }
  destruct (Houter correlations [] (NoDup_nil _)) as [H1 H2].
  cbv zeta in H1, H2. split; [exact H1 |]. intros k. now rewrite H2.
Qed.

Lemma historyOf_In (m : list (string * list HistoryEntry.t)) (k : string)
      (h : list HistoryEntry.t) :
  NoDup (map fst m) -> In (k, h) m -> historyOf k m = h.
Proof.
  unfold historyOf. induction m as [|[k0 h0] m IH]; intros Hnd Hin;
    [destruct Hin |].
  cbn [find fst snd]. inversion Hnd as [| ? ? Hnotin Hnd']; subst.
  destruct Hin as [Heq | Hin].
  - inversion Heq; subst. now rewrite String.eqb_refl.
  - destruct (String.eqb_spec k0 k) as [-> | _]; [| now apply IH].
    exfalso. apply Hnotin. apply in_map_iff. now exists (k, h).
Qed.

Lemma In_historyOf (m : list (string * list HistoryEntry.t)) (k : string) :
  historyOf k m <> [] -> In (k, historyOf k m) m.
Proof.
  unfold historyOf. intros Hne.
  destruct (find _ m) as [[k0 h0]|] eqn:E; [| now elim Hne].
  apply find_some in E. destruct E as [Hin Hk]. cbn [fst] in Hk.
  apply String.eqb_eq in Hk. now subst.
Qed.

Lemma patternOf_path (k : string) (h : list HistoryEntry.t) (pat : Pattern.t) :
  In pat (patternOf k h) -> Pattern.file_path pat = k.
Proof.
  unfold patternOf. destruct (2 <=? List.length h)%nat; [| intros []].
  destruct (_ || _); [| intros []]. intros [<- | []]. reflexivity.
Qed.

Lemma paths_NoDup (m : list (string * list HistoryEntry.t)) :
  NoDup (map fst m) ->
  NoDup (map Pattern.file_path
             (flat_map (fun kv => patternOf (fst kv) (snd kv)) m)).
Proof.
  induction m as [|[k h] m IH]; intros Hnd; [constructor |].
  inversion Hnd as [| ? ? Hnotin Hnd']; subst.
  cbn [flat_map fst snd]. rewrite map_app.
  apply NoDup_app; [| now apply IH |].
  - unfold patternOf. destruct (2 <=? List.length h)%nat; [| constructor].
    destruct (_ || _); [| constructor].
    cbn [map]. constructor; [intros [] | constructor].
  - intros x Hx Hx'. apply in_map_iff in Hx. destruct Hx as [p [<- Hp]].
    apply patternOf_path in Hp. rewrite Hp in Hx'.
    apply in_map_iff in Hx'. destruct Hx' as [q [Hq Hin]].
    apply in_flat_map in Hin. destruct Hin as [[k' h'] [Hin Hq']].
    apply patternOf_path in Hq'. cbn [fst] in Hq'.
    apply Hnotin. apply in_map_iff. exists (k', h'). split; [| exact Hin].
    cbn [fst]. congruence.
Qed.

Lemma In_patterns (correlations : list Correlation.t) (pat : Pattern.t) :
  In pat (detectIterationPatterns correlations)
  <-> In pat (patternOf (Pattern.file_path pat)
                        (entriesFor (Pattern.file_path pat) correlations)).
Proof.
  unfold detectIterationPatterns, sortByEditCount.
  rewrite orderBy_In, in_flat_map.
  destruct (fileEditHistory_spec correlations) as [Hnd Hh].
  split.
  - intros [[k h] [Hin Hp]]. cbn [fst snd] in Hp.
    rewrite (@patternOf_path _ _ _ Hp), <- Hh.
    now rewrite (@historyOf_In _ _ _ Hnd Hin).
  - intros Hp. exists (Pattern.file_path pat,
                       entriesFor (Pattern.file_path pat) correlations).
    split; [| exact Hp]. rewrite <- Hh. apply In_historyOf. rewrite Hh.
    intros Hnil. rewrite Hnil in Hp. destruct Hp.
Qed.

(** What every reported pattern satisfies. *)
Lemma patterns_wellformed (correlations : list Correlation.t) :
  let patterns := detectIterationPatterns correlations in
  Forall (fun p => (2 <= Pattern.edit_count p)%nat) patterns
  /\ Forall (fun p => Pattern.has_reversals p = true ->
                      Pattern.reversals p <> []) patterns
  /\ NoDup (map Pattern.file_path patterns)
     /\ incl (map Pattern.file_path patterns)
             (Js.setOf (map RelatedEdit.file_path
                            (flat_map Correlation.related_edits correlations))).
Proof.
  cbv zeta.
  assert (Hpat : forall pat,
            In pat (detectIterationPatterns correlations) ->
            (2 <= Pattern.edit_count pat)%nat
            /\ (Pattern.has_reversals pat = true -> Pattern.reversals pat <> [])
            /\ entriesFor (Pattern.file_path pat) correlations <> []).
  { intros pat Hp. apply In_patterns in Hp.
    set (h := entriesFor (Pattern.file_path pat) correlations) in *.
    unfold patternOf in Hp.
    destruct (Nat.leb_spec 2 (List.length h)) as [H2 |]; [| destruct Hp].
    destruct (_ || _); [| destruct Hp]. destruct Hp as [<- | []].
    cbn [Pattern.edit_count Pattern.has_reversals Pattern.reversals].
    split; [exact H2 |]. split.
    - intros Hr. apply Nat.ltb_lt in Hr. intros Hnil. rewrite Hnil in Hr.
      simpl in Hr. lia.
    - intros Hnil. rewrite Hnil in H2. simpl in H2. lia. }
  split; [| split; [| split]].
  - apply Forall_forall. intros p Hp. apply (Hpat p Hp).
  - apply Forall_forall. intros p Hp. apply (Hpat p Hp).
  - unfold detectIterationPatterns, sortByEditCount.
    eapply Permutation_NoDup.
    + apply Permutation_sym, Permutation_map, orderBy_Permutation.
    + apply paths_NoDup, fileEditHistory_spec.
  - intros k Hk. apply in_map_iff in Hk. destruct Hk as [pat [<- Hp]].
    destruct (Hpat pat Hp) as [_ [_ Hne]].
    apply (proj2 (setOf_In _ _)).
    unfold entriesFor in Hne.
    destruct (flat_map _ correlations) as [|e es] eqn:E in Hne;
      [now elim Hne |].
    assert (Hin : In e (e :: es)) by now left.
    rewrite <- E in Hin. apply in_flat_map in Hin.
    destruct Hin as [corr [Hcorr He]]. apply in_map_iff in He.
    destruct He as [edit [_ Hedit]]. apply filter_In in Hedit.
    destruct Hedit as [Hedit Hpath]. apply String.eqb_eq in Hpath.
    apply in_map_iff. exists edit. split; [exact Hpath |].
    apply in_flat_map. now exists corr.
Qed.

Lemma nodup_length_bounds (ids : list Z) :
  ids <> [] -> (1 <= distinctCount ids <= List.length ids)%nat.
Proof.
  intros Hne. unfold distinctCount. split.
  - destruct ids as [|z ids]; [now elim Hne |].
    apply (@In_length_pos _ z), nodup_In. now left.
  - apply NoDup_incl_length; [apply NoDup_nodup |].
    intros x Hx. now apply nodup_In in Hx.
Qed.

(** X13.  The patterns returned by [detectIterationPatterns] come most
    edited file first and name each file at most once.  For each of them
    [edit_count] is the number of related edits, over all correlations,
    that touch the file; it is at least 2, and at least 3 unless a
    reversal was found; the reversals are those of the file's edits taken
    in order; [has_reversals] says whether there is one; the number of
    distinct prompts is between 1 and [edit_count]; and the timeline has
    one entry per edit. *)
Theorem iteration_patterns_shape (correlations : list Correlation.t) :
  let patterns := detectIterationPatterns correlations in
  StronglySorted (fun n m => (m <= n)%nat) (map Pattern.edit_count patterns)
  /\ NoDup (map Pattern.file_path patterns)
  /\ forall pat, In pat patterns ->
       let history := entriesFor (Pattern.file_path pat) correlations in
       Pattern.edit_count pat = List.length history
       /\ (2 <= Pattern.edit_count pat)%nat
       /\ ((3 <= Pattern.edit_count pat)%nat
           \/ Pattern.has_reversals pat = true)
       /\ Pattern.reversals pat = detectReversals history
       /\ (Pattern.has_reversals pat = true <-> Pattern.reversals pat <> [])
       /\ (1 <= Pattern.unique_prompts pat <= Pattern.edit_count pat)%nat
       /\ List.length (Pattern.timeline pat) = Pattern.edit_count pat.
Proof.
  cbv zeta. split; [| split].
  - unfold detectIterationPatterns, sortByEditCount.
    pose proof (orderBy_sorted
                  (fun p => - Z.of_nat (Pattern.edit_count p))
                  (flat_map (fun kv => patternOf (fst kv) (snd kv))
                            (fileEditHistory correlations))) as Hs.
    revert Hs. generalize (Db.orderBy
                  (fun p => - Z.of_nat (Pattern.edit_count p))
                  (flat_map (fun kv => patternOf (fst kv) (snd kv))
                            (fileEditHistory correlations))).
    intros l. induction l as [|p l IH]; intros Hs; [constructor |].
    cbn [map] in *. inversion Hs as [| ? ? Hs' Hall]; subst.
    constructor; [now apply IH |].
    rewrite Forall_map in *. eapply Forall_impl; [| exact Hall].
    simpl. intros q Hq. lia.
  - unfold detectIterationPatterns, sortByEditCount.
    eapply Permutation_NoDup.
    + apply Permutation_sym, Permutation_map, orderBy_Permutation.
    + apply paths_NoDup, fileEditHistory_spec.
  - intros pat Hp. apply In_patterns in Hp.
    set (h := entriesFor (Pattern.file_path pat) correlations) in *.
    unfold patternOf in Hp.
    destruct (Nat.leb_spec 2 (List.length h)) as [H2 |]; [| destruct Hp].
    destruct (_ || _) eqn:E; [| destruct Hp].
    destruct Hp as [<- | []].
    cbn [Pattern.edit_count Pattern.has_reversals Pattern.reversals
         Pattern.unique_prompts Pattern.timeline Pattern.file_path].
    split; [reflexivity |]. split; [exact H2 |]. split.
    { apply orb_prop in E. destruct E as [E | E]; [left | right; exact E].
      now apply Nat.leb_le. }
    split; [reflexivity |]. split.
    { rewrite Nat.ltb_lt. destruct (detectReversals h); simpl; split;
        try lia; try discriminate; intros H; now elim H. }
    split; [| now rewrite length_map].
    rewrite <- (length_map HistoryEntry.prompt_id h).
    apply nodup_length_bounds. destruct h; [simpl in H2; lia | discriminate].
Qed.


End IterationPatterns.

(* ------------------------------------------------------------------ *)
(** ** The code pattern analyzer *)

Section CodePatterns.

Import CorrelationEngine.
Import CodePatternAnalyzer.

Lemma coherenceStep_counts (acc : Counts.t) (corr : Correlation.t) :
  let c := coherenceStep acc corr in
  let d := if (Stats.total_edits (Correlation.stats corr) =? 0)%nat
           then 0%nat else 1%nat in
  (Counts.coherent c + Counts.incoherent c
   = Counts.coherent acc + Counts.incoherent acc + d)%nat
  /\ ((Counts.singleFile acc + Counts.multiFile acc = Counts.coherent acc)%nat ->
      (Counts.singleFile c + Counts.multiFile c = Counts.coherent c)%nat)
  /\ ((2 * Counts.incoherent acc <= Counts.scattered acc)%nat ->
      (2 * Counts.incoherent c <= Counts.scattered c)%nat)
  /\ ((Counts.focused acc + Counts.scattered acc
       <= Counts.coherent acc + 2 * Counts.incoherent acc)%nat ->
      (Counts.focused c + Counts.scattered c
       <= Counts.coherent c + 2 * Counts.incoherent c)%nat).
Proof.
  cbv zeta. unfold coherenceStep.
  destruct (Stats.total_edits (Correlation.stats corr) =? 0)%nat;
    [repeat split; intros; lia |].
  destruct (Nat.eqb_spec (Stats.files_changed (Correlation.stats corr)) 1)
    as [H1 | H1];
    [| destruct (Nat.leb_spec (Stats.files_changed (Correlation.stats corr)) 3)
        as [H3 | H3]];
    destruct (Nat.leb_spec (Stats.files_changed (Correlation.stats corr)) 2)
      as [H2 | H2];
    destruct (Stats.total_edits (Correlation.stats corr) <=? 5)%nat;
    destruct (Nat.leb_spec 4 (Stats.files_changed (Correlation.stats corr)))
      as [H4 | H4];
    destruct (10 <? Stats.total_edits (Correlation.stats corr))%nat;
    cbn [andb orb Counts.coherent Counts.incoherent Counts.singleFile
         Counts.multiFile Counts.focused Counts.scattered];
    repeat split; intros; lia.
Qed.

Lemma coherence_fold (correlations : list Correlation.t) :
  forall acc,
    let c := fold_left coherenceStep correlations acc in
    (Counts.coherent c + Counts.incoherent c
     = Counts.coherent acc + Counts.incoherent acc
       + List.length
           (filter (fun corr =>
                      negb (Stats.total_edits (Correlation.stats corr) =? 0)%nat)
                   correlations))%nat
    /\ ((Counts.singleFile acc + Counts.multiFile acc
         = Counts.coherent acc)%nat ->
        (Counts.singleFile c + Counts.multiFile c = Counts.coherent c)%nat)
    /\ ((2 * Counts.incoherent acc <= Counts.scattered acc)%nat ->
        (2 * Counts.incoherent c <= Counts.scattered c)%nat)
    /\ ((Counts.focused acc + Counts.scattered acc
         <= Counts.coherent acc + 2 * Counts.incoherent acc)%nat ->
        (Counts.focused c + Counts.scattered c
         <= Counts.coherent c + 2 * Counts.incoherent c)%nat).
Proof.
  induction correlations as [|corr rest IH]; intros acc; cbv zeta.
  - simpl. repeat split; intros; lia.
  - cbn [fold_left filter].
    destruct (IH (coherenceStep acc corr)) as [H1 [H2 [H3 H4]]].
    destruct (coherenceStep_counts acc corr) as [S1 [S2 [S3 S4]]].
    cbv zeta in H1, H2, H3, H4, S1, S2, S3, S4.
    split; [| split; [| split]]; auto.
    rewrite H1, S1.
    destruct (Stats.total_edits (Correlation.stats corr) =? 0)%nat;
      cbn [negb List.length]; lia.
Qed.

Lemma rounded_percentage (n m : nat) :
  (0 < m)%nat -> (n <= m)%nat ->
  0 <= Js.roundQ (Js.ofNat n / Js.ofNat m * 100)%Q <= 100.
Proof.
  intros Hm Hnm. destruct (div_counts Hm Hnm) as [_ [Hlo Hhi]].
  apply roundQ_bounds;
    [change (inject_Z 0) with 0%Q | change (inject_Z 100) with 100%Q]; lra.
Qed.

(** X15.  [analyzeEditCoherence] counts every correlation that has edits
    once, as coherent or incoherent, and every coherent one once, as a
    single-file or a multi-file edit.  A prompt that changes four files or
    more is counted twice among the scattered edits, so [scattered_edits]
    is at least twice [incoherent_prompts].  The coherence score is a
    whole number between 0 and 100. *)
Theorem edit_coherence_counts (correlations : list Correlation.t) :
  let r := analyzeEditCoherence correlations in
  (EditCoherence.coherent_prompts r + EditCoherence.incoherent_prompts r
   = List.length
       (filter (fun corr =>
                  negb (Stats.total_edits (Correlation.stats corr) =? 0)%nat)
               correlations))%nat
  /\ (EditCoherence.single_file_edits r + EditCoherence.multi_file_edits r
      = EditCoherence.coherent_prompts r)%nat
  /\ (2 * EditCoherence.incoherent_prompts r
      <= EditCoherence.scattered_edits r)%nat
  /\ (EditCoherence.focused_edits r + EditCoherence.scattered_edits r
      <= EditCoherence.coherent_prompts r
         + 2 * EditCoherence.incoherent_prompts r)%nat
  /\ exists z, EditCoherence.coherence_score r = inject_Z z /\ 0 <= z <= 100.
Proof.
  cbv zeta. unfold analyzeEditCoherence. cbv zeta.
  cbn [EditCoherence.coherent_prompts EditCoherence.incoherent_prompts
       EditCoherence.single_file_edits EditCoherence.multi_file_edits
       EditCoherence.focused_edits EditCoherence.scattered_edits
       EditCoherence.coherence_score].
  destruct (coherence_fold correlations (Counts.mk 0 0 0 0 0 0))
    as [H1 [H2 [H3 H4]]].
  cbv zeta in H1, H2, H3, H4.
  cbn [Counts.coherent Counts.incoherent Counts.singleFile Counts.multiFile
       Counts.focused Counts.scattered] in H1, H2, H3, H4.
  set (c := fold_left coherenceStep correlations (Counts.mk 0 0 0 0 0 0)) in *.
  split; [lia |]. split; [lia |]. split; [lia |]. split; [lia |].
  destruct (Nat.ltb_spec 0 (Counts.coherent c + Counts.incoherent c))
    as [Hpos | Hz].
  - eexists. split; [reflexivity |].
    apply rounded_percentage; lia.
  - exists 0. split; [reflexivity | lia].
Qed.

Lemma filter_filter_disjoint {A : Type} (f g : A -> bool) (l : list A) :
  (forall x, f x = true -> g x = true -> False) ->
  (List.length (filter f l) + List.length (filter g l) <= List.length l)%nat.
Proof.
  intros H. induction l as [|x l IH]; [simpl; lia |].
  cbn [filter]. destruct (f x) eqn:Ef, (g x) eqn:Eg; cbn [List.length];
    try lia.
  exfalso. exact (H x Ef Eg).
Qed.

Lemma filter_cover {A : Type} (f g : A -> bool) (l : list A) :
  (forall x, f x = true -> g x = true -> False) ->
  Forall (fun x => f x = true \/ g x = true) l ->
  (List.length (filter f l) + List.length (filter g l) = List.length l)%nat.
Proof.
  intros H Hall. induction Hall as [|x l Hx _ IH]; [reflexivity |].
  cbn [filter]. destruct (f x) eqn:Ef, (g x) eqn:Eg; cbn [List.length];
    try lia; try (exfalso; exact (H x Ef Eg)); destruct Hx; discriminate.
Qed.

(** X16.  In the result of [analyzeIterations] a file is never counted both
    as highly and as moderately iterated, and every file with at least two
    edits is counted as one or the other; the red flag is raised exactly
    when three files or more were edited four times or more, which is
    also when the assessment reads ["excessive_iteration"]; and the
    iteration score is a whole number between 50 and 100, so the lower
    bound 0 in the code is never reached. *)
Theorem iteration_analysis_shape (iterationPatterns : list Iteration.Pattern.t) :
  let r := analyzeIterations iterationPatterns in
  IterationAnalysis.total_iterated_files r = List.length iterationPatterns
  /\ (IterationAnalysis.high_iteration_files r
      + IterationAnalysis.moderate_iteration_files r
      <= IterationAnalysis.total_iterated_files r)%nat
  /\ (Forall (fun p => (2 <= Iteration.Pattern.edit_count p)%nat)
             iterationPatterns ->
      (IterationAnalysis.high_iteration_files r
       + IterationAnalysis.moderate_iteration_files r
       = IterationAnalysis.total_iterated_files r)%nat)
  /\ (IterationAnalysis.red_flag r = true
      <-> (3 <= IterationAnalysis.high_iteration_files r)%nat)
  /\ (IterationAnalysis.assessment r = "excessive_iteration"
      <-> IterationAnalysis.red_flag r = true)
  /\ exists z, IterationAnalysis.iteration_score r = inject_Z z
               /\ 50 <= z <= 100.
Proof.
  cbv zeta. unfold analyzeIterations. cbv zeta.
  cbn [IterationAnalysis.total_iterated_files
       IterationAnalysis.high_iteration_files
       IterationAnalysis.moderate_iteration_files
       IterationAnalysis.red_flag IterationAnalysis.assessment
       IterationAnalysis.iteration_score].
  set (high := fun p => (4 <=? Iteration.Pattern.edit_count p)%nat).
  set (moderate := fun p => (2 <=? Iteration.Pattern.edit_count p)%nat
                            && (Iteration.Pattern.edit_count p <? 4)%nat).
  assert (Hdisj : forall p, high p = true -> moderate p = true -> False).
  { intros p Hh Hm. unfold high, moderate in *.
    apply Nat.leb_le in Hh. apply andb_prop in Hm. destruct Hm as [_ Hm].
    apply Nat.ltb_lt in Hm. lia. }
  pose proof (filter_filter_disjoint high moderate iterationPatterns Hdisj)
    as Hle.
  split; [reflexivity |]. split; [exact Hle |]. split.
  { intros Hall. apply filter_cover; [exact Hdisj |].
    eapply Forall_impl; [| exact Hall]. intros p Hp. unfold high, moderate.
    destruct (Nat.leb_spec 4 (Iteration.Pattern.edit_count p)); [now left |].
    right. apply andb_true_intro. split;
      [now apply Nat.leb_le | now apply Nat.ltb_lt]. }
  split; [apply Nat.leb_le |]. split.
  { destruct (3 <=? List.length (filter high iterationPatterns))%nat;
      [split; reflexivity |].
    destruct (Js.Qltb _ _); split; discriminate. }
  destruct (Nat.ltb_spec 0 (List.length iterationPatterns)) as [Hpos | Hz].
  - eexists. split; [reflexivity |].
    assert (Hh : (List.length (filter high iterationPatterns)
                  <= List.length iterationPatterns)%nat) by lia.
    destruct (div_counts Hpos Hh) as [_ [Hlo Hhi]].
    match goal with |- context [Js.Qmax 0 ?x] =>
      destruct (Qmax_cases 0 x) as [[? ->] | [? ->]]
    end;
      apply roundQ_bounds;
      try change (inject_Z 50) with 50%Q;
      try change (inject_Z 100) with 100%Q; lra.
  - exists 100. split; [reflexivity | lia].
Qed.

Lemma fold_sum_ge {A : Type} (f : A -> nat) (l : list A) :
  forall acc,
    Forall (fun x => (1 <= f x)%nat) l ->
    (acc + List.length l
     <= fold_left (fun sum x => (sum + f x)%nat) l acc)%nat.
Proof.
  induction l as [|x l IH]; intros acc Hall; [simpl; lia |].
  inversion Hall as [| ? ? Hx Hl]; subst.
  cbn [fold_left List.length]. specialize (IH (acc + f x)%nat Hl). lia.
Qed.

(** X17.  In the result of [analyzeReversals] the reversal rate and the
    reversal score are whole numbers between 0 and 100; the score is 0 as
    soon as half of the iterated files have a reversal; the red flag is
    raised exactly when two files or more have one; there is one detail
    per file with reversals; and when every pattern flagged as reverted
    lists a reversal, as the patterns of [detectIterationPatterns] do,
    [total_reversals] is at least [files_with_reversals]. *)
Theorem reversal_analysis_shape (iterationPatterns : list Iteration.Pattern.t) :
  let r := analyzeReversals iterationPatterns in
  (ReversalAnalysis.files_with_reversals r <= List.length iterationPatterns)%nat
  /\ List.length (ReversalAnalysis.details r)
     = ReversalAnalysis.files_with_reversals r
  /\ (ReversalAnalysis.red_flag r = true
      <-> (2 <= ReversalAnalysis.files_with_reversals r)%nat)
  /\ (exists z, ReversalAnalysis.reversal_rate r = inject_Z z /\ 0 <= z <= 100)
  /\ (exists z, ReversalAnalysis.reversal_score r = inject_Z z
                /\ 0 <= z <= 100
                /\ ((List.length iterationPatterns
                     <= 2 * ReversalAnalysis.files_with_reversals r)%nat ->
                    iterationPatterns <> [] -> z = 0))
  /\ (Forall (fun p => Iteration.Pattern.has_reversals p = true ->
                       Iteration.Pattern.reversals p <> [])
             iterationPatterns ->
      (ReversalAnalysis.files_with_reversals r
       <= ReversalAnalysis.total_reversals r)%nat).
Proof.
  cbv zeta. unfold analyzeReversals. cbv zeta.
  cbn [ReversalAnalysis.files_with_reversals ReversalAnalysis.details
       ReversalAnalysis.red_flag ReversalAnalysis.reversal_rate
       ReversalAnalysis.reversal_score ReversalAnalysis.total_reversals].
  pose proof (filter_length_le Iteration.Pattern.has_reversals
                               iterationPatterns) as Hle.
  set (n := List.length iterationPatterns) in *.
  set (w := filter Iteration.Pattern.has_reversals iterationPatterns) in *.
  split; [exact Hle |]. split; [now rewrite length_map |].
  split; [apply Nat.leb_le |].
  assert (Hrate : exists q,
             (if (0 <? n)%nat
              then (Js.ofNat (List.length w) / Js.ofNat n * 100)%Q
              else 0%Q) = q
             /\ (0 <= q <= 100)%Q
             /\ ((n <= 2 * List.length w)%nat -> (0 < n)%nat -> (50 <= q)%Q)).
  { eexists. split; [reflexivity |].
    destruct (Nat.ltb_spec 0 n) as [Hpos | Hz].
    - destruct (div_counts Hpos Hle) as [_ [Hlo Hhi]].
      split; [lra |]. intros Hhalf _.
      assert (Hq : (1 # 2 <= Js.ofNat (List.length w) / Js.ofNat n)%Q).
      { apply Qle_shift_div_l; [now apply ofNat_pos |].
        unfold Js.ofNat.
        assert (Hz : (Z.of_nat n <= 2 * Z.of_nat (List.length w))%Z) by lia.
        rewrite Zle_Qle in Hz. rewrite inject_Z_mult in Hz.
        change (inject_Z 2) with 2%Q in Hz. lra. }
      lra.
    - split; [lra |]. intros _ Hpos. lia. }
  destruct Hrate as [q [-> [[Hq0 Hq1] Hhalf]]].
  split.
  { eexists. split; [reflexivity |].
    apply roundQ_bounds;
      [change (inject_Z 0) with 0%Q | change (inject_Z 100) with 100%Q]; lra. }
  split.
  { eexists. split; [reflexivity |]. split.
    - destruct (Qmax_cases 0 (100 - q * 2)) as [[? ->] | [? ->]];
        apply roundQ_bounds;
        try change (inject_Z 0) with 0%Q;
        try change (inject_Z 100) with 100%Q; lra.
    - intros Hh Hne.
      assert (Hpos : (0 < n)%nat).
      { unfold n. destruct iterationPatterns; [now elim Hne | simpl; lia]. }
      specialize (Hhalf Hh Hpos).
      assert (Hb : 0 <= Js.roundQ (Js.Qmax 0 (100 - q * 2)) <= 0).
      { destruct (Qmax_cases 0 (100 - q * 2)) as [[? ->] | [? ->]];
          apply roundQ_bounds; change (inject_Z 0) with 0%Q; lra. }
      lia. }
  intros Hall.
  assert (Hw : Forall (fun p => (1 <= List.length
                                        (Iteration.Pattern.reversals p))%nat) w).
  { unfold w. rewrite Forall_forall in *. intros p Hp.
    apply filter_In in Hp. destruct Hp as [Hp Hr].
    specialize (Hall p Hp Hr).
    destruct (Iteration.Pattern.reversals p); [now elim Hall | simpl; lia]. }
  pose proof (@fold_sum_ge _ (fun p => List.length (Iteration.Pattern.reversals p))
                           w 0%nat Hw) as Hs.
  simpl in Hs. exact Hs.
Qed.

Lemma iterations_cover (iterationPatterns : list Iteration.Pattern.t) :
  Forall (fun p => (2 <= Iteration.Pattern.edit_count p)%nat)
         iterationPatterns ->
  (IterationAnalysis.high_iteration_files (analyzeIterations iterationPatterns)
   + IterationAnalysis.moderate_iteration_files
       (analyzeIterations iterationPatterns))%nat
  = List.length iterationPatterns.
Proof.
  intros Hall. unfold analyzeIterations. cbv zeta.
  cbn [IterationAnalysis.high_iteration_files
       IterationAnalysis.moderate_iteration_files].
  apply filter_cover.
  - intros p Hh Hm. apply Nat.leb_le in Hh. apply andb_prop in Hm.
    destruct Hm as [_ Hm]. apply Nat.ltb_lt in Hm. lia.
  - eapply Forall_impl; [| exact Hall]. intros p Hp.
    destruct (Nat.leb_spec 4 (Iteration.Pattern.edit_count p)); [now left |].
    right. apply andb_true_intro. split;
      [now apply Nat.leb_le | now apply Nat.ltb_lt].
Qed.

Lemma reversals_total (iterationPatterns : list Iteration.Pattern.t) :
  Forall (fun p => Iteration.Pattern.has_reversals p = true ->
                   Iteration.Pattern.reversals p <> [])
         iterationPatterns ->
  (ReversalAnalysis.files_with_reversals (analyzeReversals iterationPatterns)
   <= ReversalAnalysis.total_reversals (analyzeReversals iterationPatterns))%nat.
Proof.
  intros Hall. unfold analyzeReversals. cbv zeta.
  cbn [ReversalAnalysis.files_with_reversals ReversalAnalysis.total_reversals].
  set (w := filter Iteration.Pattern.has_reversals iterationPatterns).
  assert (Hw : Forall (fun p => (1 <= List.length
                                        (Iteration.Pattern.reversals p))%nat) w).
  { unfold w. rewrite Forall_forall in *. intros p Hp.
    apply filter_In in Hp. destruct Hp as [Hp Hr].
    specialize (Hall p Hp Hr).
    destruct (Iteration.Pattern.reversals p); [now elim Hall | simpl; lia]. }
  pose proof (@fold_sum_ge _ (fun p => List.length (Iteration.Pattern.reversals p))
                           w 0%nat Hw) as Hs.
  simpl in Hs. exact Hs.
Qed.

(** X18.  [calculateProductivityMetrics] on correlations none of which has
    an edit returns zeros and no assessment; as soon as one has an edit
    the productivity score lies between 30 and 100, so it is higher than
    for a session without edits, and an assessment is given. *)
Theorem productivity_shape (correlations : list Correlation.t) :
  let r := calculateProductivityMetrics correlations in
  ((forall c, In c correlations ->
              Stats.total_edits (Correlation.stats c) = 0%nat) ->
   r = Productivity.mk (Js.Num (Js.Fin 0%Q)) (Js.Num (Js.Fin 0%Q)) 0 None)
  /\ ((exists c, In c correlations
                 /\ (0 < Stats.total_edits (Correlation.stats c))%nat) ->
      (30 <= Productivity.productivity_score r <= 100)%Q
      /\ exists a, Productivity.assessment r = Some a
                   /\ In a ["efficient"; "moderate"; "inefficient"]).
Proof.
  cbv zeta. unfold calculateProductivityMetrics. split.
  - intros Hall.
    destruct (filter _ correlations) as [|c cs] eqn:E; [reflexivity |].
    assert (Hc : In c (c :: cs)) by now left.
    rewrite <- E in Hc. apply filter_In in Hc. destruct Hc as [Hc Hpos].
    apply Nat.ltb_lt in Hpos. rewrite (Hall c Hc) in Hpos. lia.
  - intros [c [Hc Hpos]].
    destruct (filter _ correlations) as [|c' cs] eqn:E.
    { assert (Hin : In c (filter
                (fun c => (0 <? Stats.total_edits (Correlation.stats c))%nat)
                correlations))
        by (apply filter_In; split; [exact Hc | now apply Nat.ltb_lt]).
      rewrite E in Hin. destruct Hin. }
    cbv zeta. cbn [Productivity.productivity_score Productivity.assessment].
    split.
    + repeat match goal with
             | |- context [if ?b then _ else _] => destruct b
             end;
        match goal with |- (_ <= Js.Qmax 0 (Js.Qmin 100 ?x) <= _)%Q =>
          destruct (Qmin_cases 100 x) as [[? ->] | [? ->]]
        end;
        match goal with |- (_ <= Js.Qmax 0 ?x <= _)%Q =>
          destruct (Qmax_cases 0 x) as [[? ->] | [? ->]]
        end; lra.
    + eexists. split; [reflexivity |].
      repeat match goal with
             | |- context [if ?b then _ else _] => destruct b
             end; simpl; tauto.
Qed.

End CodePatterns.

Section FileFocusFacts.

Import CorrelationEngine.
Import CodePatternAnalyzer.

Lemma fold_nested {A B C : Type} (g : C -> B -> C) (h : A -> list B)
      (l : list A) :
  forall m, fold_left (fun m x => fold_left g (h x) m) l m
            = fold_left g (flat_map h l) m.
Proof.
  induction l as [|x l IH]; intros m; [reflexivity |].
  cbn [fold_left flat_map]. now rewrite fold_left_app, IH.
Qed.




Lemma fileEditCount_spec (correlations : list Correlation.t) :
  let edits := flat_map Correlation.related_edits correlations in
  map fst (fileEditCount correlations)
  = Js.setOf (map RelatedEdit.file_path edits)
  /\ (forall k, Understanding.lookup k (fileEditCount correlations)
                = List.length
                    (filter (fun e => (RelatedEdit.file_path e =? k)%string)
                            edits))
  /\ list_sum (map snd (fileEditCount correlations)) = List.length edits.
Proof.
  cbv zeta. unfold fileEditCount.
  rewrite (fold_nested
             (fun m' edit =>
                Understanding.increment (RelatedEdit.file_path edit) m')
             Correlation.related_edits correlations []).
  apply (histogram_spec RelatedEdit.file_path).
Qed.


End FileFocusFacts.

Section PatternLists.

Import CorrelationEngine.
Import CodePatternAnalyzer.

(** X20.  [detectAntiPatterns] reports at most four anti-patterns, each type
    at most once, each of severity ["high"] or ["medium"] and with a count
    of at least 2; together they lower the understanding score by at
    most 50 points before it is clamped. *)
Theorem anti_patterns_shape (correlations : list Correlation.t)
        (iterationPatterns : list Iteration.Pattern.t) :
  let found := detectAntiPatterns correlations iterationPatterns in
  (List.length found <= 4)%nat
  /\ NoDup (map AntiPattern.type found)
  /\ Forall (fun p => (AntiPattern.severity p = "high"
                       \/ AntiPattern.severity p = "medium")
                      /\ (2 <= AntiPattern.count p)%nat
                      /\ In (AntiPattern.type p)
                            ["excessive_questions"; "vague_prompts";
                             "frequent_reversals"; "excessive_iteration"])
            found
  /\ forall score,
       (score - 50
        <= fold_left ScoringEngine.antiPatternPenalty
                     (map antiPatternInput found) score
        <= score)%Q.
Proof.
  cbv zeta. unfold detectAntiPatterns. cbv zeta.
  set (questions := filter _ correlations).
  set (vague := filter _ correlations).
  set (reverted := filter _ iterationPatterns).
  set (excessive := filter _ iterationPatterns).
  destruct (Nat.leb_spec 5 (List.length questions)) as [H1 | H1];
    destruct (Nat.leb_spec 5 (List.length vague)) as [H2 | H2];
    destruct (Nat.leb_spec 3 (List.length reverted)) as [H3 | H3];
    destruct (Nat.leb_spec 2 (List.length excessive)) as [H4 | H4];
    cbn [app List.length map AntiPattern.type];
    (split; [lia |]);
    (split;
     [repeat (constructor;
              [cbn [In]; intros Hin;
               repeat (destruct Hin as [Hin | Hin]; [discriminate Hin |]);
               exact Hin |]); constructor |]);
    (split;
     [repeat (constructor;
              [cbn [AntiPattern.severity AntiPattern.count AntiPattern.type];
               split; [tauto | split; [lia | simpl; tauto]] |]);
      constructor |]);
    intros score;
    cbv [fold_left map antiPatternInput ScoringEngine.antiPatternPenalty
         ScoringEngine.AntiPattern.severity AntiPattern.severity
         AntiPattern.type String.eqb Ascii.eqb Bool.eqb];
    lra.
Qed.

Lemma div_nonneg (a b : nat) (f : Q) :
  Js.div (Js.ofNat a) (Js.ofNat b) = Js.Fin f -> (0 <= f)%Q.
Proof.
  unfold Js.div. destruct (Qeq_bool (Js.ofNat b) 0) eqn:E.
  - destruct (Qeq_bool (Js.ofNat a) 0); [discriminate |].
    destruct (Qle_bool 0 (Js.ofNat a)); discriminate.
  - intros Heq. inversion Heq; subst f.
    pose proof (ofNat_nonneg a). pose proof (ofNat_nonneg b).
    assert (Hb : ~ (Js.ofNat b == 0)%Q).
    { intros Hz. apply Qeq_bool_iff in Hz. congruence. }
    apply Qle_shift_div_l; lra.
Qed.

(** X21.  [detectPositivePatterns] reports at most four patterns.  On an
    empty list it reports technical specificity alone, with count 0 and a
    percentage that is not a number; on a non-empty list the percentage
    reported with technical specificity is a whole number between 60 and
    100.  Improving specificity is reported only from five prompts on,
    with an improvement of at least 20 percent, or an infinite one when
    every prompt of the first half is empty. *)
Theorem positive_patterns_shape (correlations : list Correlation.t) :
  let found := detectPositivePatterns correlations in
  (List.length found <= 4)%nat
  /\ (correlations = [] ->
      found = [PositivePattern.mk
                 "technical_specificity" (Some 0%nat)
                 "Uses specific technical language and references" []
                 (Some Js.NaN) None])
  /\ (correlations <> [] ->
      forall p, In p found ->
                PositivePattern.type p = "technical_specificity" ->
                exists z, PositivePattern.percentage p
                          = Some (Js.Fin (inject_Z z))
                          /\ 60 <= z <= 100)
  /\ (forall p, In p found ->
                PositivePattern.type p = "improving_specificity" ->
                (5 <= List.length correlations)%nat
                /\ (PositivePattern.improvement p = Some Js.PosInf
                    \/ exists z, PositivePattern.improvement p
                                 = Some (Js.Fin (inject_Z z))
                                 /\ 20 <= z)).
Proof.
  cbv zeta. split; [| split; [| split]].
  - unfold detectPositivePatterns. cbv zeta. rewrite !length_app.
    repeat match goal with
           | |- context [List.length (if ?b then _ else _)] => destruct b
           end;
      try (match goal with
           | |- context [match ?d with Js.Fin _ => _ | _ => _ end] =>
               destruct d
           end);
      try (match goal with
           | |- context [match ?d with Js.Fin _ => _ | _ => _ end] =>
               destruct d
           end);
      try (match goal with
           | |- context [List.length (if ?b then _ else _)] => destruct b
           end);
      cbn [List.length]; lia.
  - intros ->. reflexivity.
  - intros Hne p Hin Ht. unfold detectPositivePatterns in Hin.
    cbv zeta in Hin.
    repeat (apply in_app_or in Hin; destruct Hin as [Hin | Hin]).
    + destruct (2 <=? _)%nat; [| destruct Hin].
      destruct Hin as [<- | []]. discriminate Ht.
    + destruct (2 <=? _)%nat; [| destruct Hin].
      destruct Hin as [<- | []]. discriminate Ht.
    + destruct (Qle_bool _ _) eqn:E; [| destruct Hin].
      destruct Hin as [<- | []]. cbn [PositivePattern.percentage].
      apply Qle_bool_iff in E.
      set (t := List.length (filter _ correlations)) in *.
      assert (Hpos : (0 < List.length correlations)%nat).
      { destruct correlations; [now elim Hne | simpl; lia]. }
      assert (Hle : (t <= List.length correlations)%nat)
        by apply filter_length_le.
      destruct (div_counts Hpos Hle) as [-> [Hlo Hhi]].
      cbn [Js.scale Js.round]. eexists. split; [reflexivity |].
      assert (Hq : (6 # 10 <= Js.ofNat t / Js.ofNat (List.length correlations))%Q).
      { apply Qle_shift_div_l; [now apply ofNat_pos |]. lra. }
      apply roundQ_bounds;
        [change (inject_Z 60) with 60%Q | change (inject_Z 100) with 100%Q];
        lra.
    + destruct (5 <=? _)%nat; [| destruct Hin].
      destruct (Js.div _ _) as [f | | |]; try destruct Hin.
      destruct (Js.div _ _) as [s | | |]; try destruct Hin.
      destruct (Js.Qltb _ _); [| destruct Hin].
      destruct Hin as [<- | []]. discriminate Ht.
  - intros p Hin Ht. unfold detectPositivePatterns in Hin.
    cbv zeta in Hin.
    repeat (apply in_app_or in Hin; destruct Hin as [Hin | Hin]).
    + destruct (2 <=? _)%nat; [| destruct Hin].
      destruct Hin as [<- | []]. discriminate Ht.
    + destruct (2 <=? _)%nat; [| destruct Hin].
      destruct Hin as [<- | []]. discriminate Ht.
    + destruct (Qle_bool _ _); [| destruct Hin].
      destruct Hin as [<- | []]. discriminate Ht.
    + destruct (Nat.leb_spec 5 (List.length correlations)) as [H5 | H5];
        [| destruct Hin].
      split; [exact H5 |].
      destruct (Js.div _ _) as [f | | |] eqn:Ef; try destruct Hin.
      destruct (Js.div _ _) as [s | | |] eqn:Es in Hin; try destruct Hin.
      destruct (Js.Qltb _ _) eqn:El; [| destruct Hin].
      destruct Hin as [<- | []]. cbn [PositivePattern.improvement].
      apply Qltb_true in El. apply div_nonneg in Ef.
      unfold Js.div. destruct (Qeq_bool f 0) eqn:Ez.
      * left. apply Qeq_bool_iff in Ez.
        assert (Hs : Qeq_bool (s - f) 0 = false).
        { destruct (Qeq_bool (s - f) 0) eqn:E0; [| reflexivity].
          apply Qeq_bool_iff in E0. lra. }
        assert (Hp : Qle_bool 0 (s - f) = true)
          by (apply Qle_bool_iff; lra).
        rewrite Hs, Hp. reflexivity.
      * right. cbn [Js.scale Js.round]. eexists. split; [reflexivity |].
        assert (Hf : (0 < f)%Q).
        { assert (Hnz : ~ (f == 0)%Q)
            by (intros Hz; apply Qeq_bool_iff in Hz; congruence).
          lra. }
        assert (Hq : (2 # 10 <= (s - f) / f)%Q)
          by (apply Qle_shift_div_l; lra).
        unfold Js.roundQ. rewrite <- (Qfloor_Z 20).
        apply Qfloor_resp_le. change (inject_Z 20) with 20%Q. lra.
Qed.

End PatternLists.

(* ------------------------------------------------------------------ *)
(** ** Scores, flags and the evaluation pipeline *)

Section ScoringFacts.

Import ScoringEngine.

Lemma roundQ_monotone (a b : Q) : (a <= b)%Q -> Js.roundQ a <= Js.roundQ b.
Proof. intros H. unfold Js.roundQ. apply Qfloor_resp_le. lra. Qed.

Lemma clamp_monotone (a b : Q) : (a <= b)%Q -> (clamp a <= clamp b)%Q.
Proof.
  intros H. unfold clamp. rewrite <- Zle_Qle. apply roundQ_monotone.
  unfold Js.Qmax, Js.Qmin.
  destruct (Qle_bool 100 a) eqn:Ea;
    [apply Qle_bool_iff in Ea | apply Qle_bool_false in Ea];
    (destruct (Qle_bool 100 b) eqn:Eb;
     [apply Qle_bool_iff in Eb | apply Qle_bool_false in Eb]);
    repeat match goal with
           | |- context [Qle_bool ?x ?y] =>
               let E := fresh "E" in
               destruct (Qle_bool x y) eqn:E;
               [apply Qle_bool_iff in E | apply Qle_bool_false in E]
           end; lra.
Qed.

Lemma penalty_lowers (score : Q) (p : AntiPattern.t) :
  (antiPatternPenalty score p <= score)%Q.
Proof.
  unfold antiPatternPenalty.
  destruct (_ =? "high")%string; [lra |].
  destruct (_ =? "medium")%string; lra.
Qed.

Lemma bonus_raises (score : Q) (p : PositivePattern.t) :
  (score <= positivePatternBonus score p)%Q.
Proof.
  unfold positivePatternBonus.
  repeat match goal with
         | |- context [if ?b then _ else _] => destruct b
         end; lra.
Qed.

Lemma penalties_monotone (l : list AntiPattern.t) :
  forall a b, (a <= b)%Q ->
              (fold_left antiPatternPenalty l a
               <= fold_left antiPatternPenalty l b)%Q.
Proof.
  induction l as [|p l IH]; intros a b H; [exact H |].
  cbn [fold_left]. apply IH. unfold antiPatternPenalty.
  destruct (_ =? "high")%string; [lra |].
  destruct (_ =? "medium")%string; lra.
Qed.

Lemma bonuses_monotone (l : list PositivePattern.t) :
  forall a b, (a <= b)%Q ->
              (fold_left positivePatternBonus l a
               <= fold_left positivePatternBonus l b)%Q.
Proof.
  induction l as [|p l IH]; intros a b H; [exact H |].
  cbn [fold_left]. apply IH. unfold positivePatternBonus.
  repeat match goal with
         | |- context [if ?b then _ else _] => destruct b
         end; lra.
Qed.

(** X22.  One more anti-pattern never raises the understanding score, and
    one more positive pattern never lowers it, whatever the other inputs
    are. *)
Theorem understanding_monotone
        (antiPatterns : list AntiPattern.t)
        (positivePatterns : list PositivePattern.t)
        (patternAnalysis : option PatternAnalysis.t) :
  (forall p,
     (scoreUnderstanding (Some (p :: antiPatterns)) (Some positivePatterns)
                         patternAnalysis
      <= scoreUnderstanding (Some antiPatterns) (Some positivePatterns)
                            patternAnalysis)%Q)
  /\ (forall p,
        (scoreUnderstanding (Some antiPatterns) (Some positivePatterns)
                            patternAnalysis
         <= scoreUnderstanding (Some antiPatterns)
                               (Some (p :: positivePatterns))
                               patternAnalysis)%Q).
Proof.
  split; intros p; unfold scoreUnderstanding; cbv zeta; cbn [fold_left];
    apply clamp_monotone.
  - assert (H : (fold_left positivePatternBonus positivePatterns
                   (fold_left antiPatternPenalty antiPatterns
                              (antiPatternPenalty 60 p))
                 <= fold_left positivePatternBonus positivePatterns
                      (fold_left antiPatternPenalty antiPatterns 60))%Q)
      by (apply bonuses_monotone, penalties_monotone, penalty_lowers).
    destruct patternAnalysis as [pa|]; [| exact H].
    destruct (PatternAnalysis.productivity_score pa); [lra | exact H].
  - assert (H : (fold_left positivePatternBonus positivePatterns
                   (fold_left antiPatternPenalty antiPatterns 60)
                 <= fold_left positivePatternBonus positivePatterns
                      (positivePatternBonus
                         (fold_left antiPatternPenalty antiPatterns 60) p))%Q)
      by (apply bonuses_monotone, bonus_raises).
    destruct patternAnalysis as [pa|]; [| exact H].
    destruct (PatternAnalysis.productivity_score pa); [lra | exact H].
Qed.

End ScoringFacts.

Section FlagFacts.

Import Flags.

(** X23.  [getAssessmentLevel] never lowers the level when the score rises:
    the number of stars, between 1 and 5, is monotone in the overall
    score, and the five levels start at 0, 40, 55, 70 and 85. *)
Theorem assessment_monotone (score1 score2 : Q) :
  (score1 <= score2)%Q ->
  (Assessment.stars (getAssessmentLevel score1)
   <= Assessment.stars (getAssessmentLevel score2))%nat
  /\ (1 <= Assessment.stars (getAssessmentLevel score1) <= 5)%nat
  /\ (Assessment.level (getAssessmentLevel score1) = "Expert"
      <-> (85 <= score1)%Q)
  /\ (Assessment.level (getAssessmentLevel score1) = "Concerning"
      <-> (score1 < 40)%Q).
Proof.
  intros H. unfold getAssessmentLevel.
  destruct (Qle_bool 85 score1) eqn:A1;
    [apply Qle_bool_iff in A1 | apply Qle_bool_false in A1];
    (destruct (Qle_bool 70 score1) eqn:A2;
     [apply Qle_bool_iff in A2 | apply Qle_bool_false in A2]);
    (destruct (Qle_bool 55 score1) eqn:A3;
     [apply Qle_bool_iff in A3 | apply Qle_bool_false in A3]);
    (destruct (Qle_bool 40 score1) eqn:A4;
     [apply Qle_bool_iff in A4 | apply Qle_bool_false in A4]);
    try (exfalso; lra);
    (destruct (Qle_bool 85 score2) eqn:B1;
     [apply Qle_bool_iff in B1 | apply Qle_bool_false in B1]);
    (destruct (Qle_bool 70 score2) eqn:B2;
     [apply Qle_bool_iff in B2 | apply Qle_bool_false in B2]);
    (destruct (Qle_bool 55 score2) eqn:B3;
     [apply Qle_bool_iff in B3 | apply Qle_bool_false in B3]);
    (destruct (Qle_bool 40 score2) eqn:B4;
     [apply Qle_bool_iff in B4 | apply Qle_bool_false in B4]);
    try (exfalso; lra);
    cbn [Assessment.stars Assessment.level];
    (split; [lia |]); (split; [lia |]);
    split; split; intros G; try reflexivity; try discriminate G;
    try assumption; try (exfalso; lra).
Qed.

Lemma known_sorted (flags : list Flag.t) :
  Forall (fun f => Flag.severity f = "high" \/ Flag.severity f = "medium")
         flags ->
  StronglySorted Z.le (map rank flags) ->
  StronglySorted (fun f g => Flag.severity g = "high"
                             -> Flag.severity f = "high") flags.
Proof.
  induction 1 as [|f flags Hf Hall IH]; intros Hs; [constructor |].
  cbn [map] in Hs. inversion Hs as [| ? ? Hs' Hle]; subst.
  constructor; [now apply IH |].
  rewrite Forall_map in Hle. rewrite Forall_forall in *.
  intros g Hg Hhigh. specialize (Hle g Hg).
  unfold rank, severityOrder in Hle. rewrite Hhigh in Hle.
  destruct Hf as [Hf | Hf]; [exact Hf |].
  rewrite Hf in Hle. simpl in Hle. lia.
Qed.

End FlagFacts.

Section Pipeline.

Import CorrelationEngine.
Import CodePatternAnalyzer.
Import DevEvaluator.

Variable analyzePrompt :
  string -> Z -> ScoringEngine.SemanticAnalysis.t * option string.

Lemma antiPatterns_severity (correlations : list Correlation.t)
      (iterationPatterns : list Iteration.Pattern.t) :
  Forall (fun p => AntiPattern.severity p = "high"
                   \/ AntiPattern.severity p = "medium")
         (detectAntiPatterns correlations iterationPatterns).
Proof.
  unfold detectAntiPatterns. cbv zeta.
  repeat (apply Forall_app; split);
    match goal with |- Forall _ (if ?b then _ else _) => destruct b end;
    repeat constructor; cbn [AntiPattern.severity]; tauto.
Qed.

(** X24.  The red flags of a report have severity ["high"] or ["medium"]
    only, and every high one comes before every medium one.  There is
    one flag per anti-pattern, carrying its type, severity and count,
    and at most three further flags, so at most seven in all. *)
Theorem red_flags_ordered (db : Db.t) :
  let r := runAnalysis analyzePrompt db in
  Forall (fun f => Flags.Flag.severity f = "high"
                   \/ Flags.Flag.severity f = "medium")
         (Report.redFlags r)
  /\ StronglySorted (fun f g => Flags.Flag.severity g = "high"
                                -> Flags.Flag.severity f = "high")
                    (Report.redFlags r)
  /\ (List.length (Report.antiPatterns r)
      <= List.length (Report.redFlags r)
      <= List.length (Report.antiPatterns r) + 3)%nat
  /\ (List.length (Report.redFlags r) <= 7)%nat
  /\ (forall p, In p (Report.antiPatterns r) ->
        exists f, In f (Report.redFlags r)
                  /\ Flags.Flag.category f = "anti_pattern"
                  /\ Flags.Flag.type f = AntiPattern.type p
                  /\ Flags.Flag.severity f = AntiPattern.severity p
                  /\ Flags.Flag.count f = Some (AntiPattern.count p)).
Proof.
  cbv zeta. unfold runAnalysis. cbv zeta.
  cbn [Report.redFlags Report.antiPatterns].
  set (correlations := correlatePromptsToEdits db).
  set (patterns := Iteration.detectIterationPatterns correlations).
  set (anti := detectAntiPatterns correlations patterns).
  unfold Flags.generateRedFlags. cbv zeta.
  match goal with |- context [Db.orderBy Flags.rank ?l] => set (all := l) end.
  assert (Hperm : Permutation (Db.orderBy Flags.rank all) all)
    by apply orderBy_Permutation.
  assert (Hall : Forall (fun f => Flags.Flag.severity f = "high"
                                  \/ Flags.Flag.severity f = "medium") all).
  { unfold all. repeat (apply Forall_app; split).
    - rewrite Forall_map. eapply Forall_impl;
        [| apply (antiPatterns_severity correlations patterns)].
      intros p Hp. exact Hp.
    - match goal with |- Forall _ (if ?b then _ else _) => destruct b end;
        repeat constructor; cbn [Flags.Flag.severity]; tauto.
    - match goal with |- Forall _ (if ?b then _ else _) => destruct b end;
        repeat constructor; cbn [Flags.Flag.severity]; tauto.
    - match goal with |- Forall _ (if ?b then _ else _) => destruct b end;
        repeat constructor; cbn [Flags.Flag.severity]; tauto. }
  assert (Hsorted : Forall (fun f => Flags.Flag.severity f = "high"
                                     \/ Flags.Flag.severity f = "medium")
                           (Db.orderBy Flags.rank all))
    by (eapply Permutation_Forall; [apply Permutation_sym, Hperm | exact Hall]).
  assert (Hlen : (List.length anti <= List.length all
                  <= List.length anti + 3)%nat).
  { unfold all. rewrite !length_app, length_map.
    repeat match goal with
           | |- context [List.length (if ?b then _ else _)] => destruct b
           end; cbn [List.length]; lia. }
  assert (Hanti : (List.length anti <= 4)%nat).
  { unfold anti, detectAntiPatterns. cbv zeta. rewrite !length_app.
    repeat match goal with
           | |- context [List.length (if ?b then _ else _)] => destruct b
           end; cbn [List.length]; lia. }
  split; [exact Hsorted |].
  split; [apply known_sorted; [exact Hsorted | apply orderBy_sorted] |].
  rewrite (Permutation_length Hperm).
  split; [exact Hlen |]. split; [lia |].
  intros p Hp. eexists. split.
  - apply (Permutation_in _ (Permutation_sym Hperm)). unfold all.
    apply in_or_app. left. apply in_map_iff. exists p.
    split; [reflexivity | exact Hp].
  - repeat split.
Qed.

Lemma produced_with_edits (db : Db.t) (c : Correlation.t) :
  In c (correlatePromptsToEdits db) ->
  negb (Stats.total_edits (Correlation.stats c) =? 0)%nat
  = match Correlation.related_edits c with
    | [] => false
    | _ :: _ => true
    end.
Proof.
  intros Hc. apply In_correlations in Hc.
  destruct Hc as [cid [i [p [_ [_ ->]]]]].
  unfold correlatePrompt. cbn [Correlation.stats Correlation.related_edits].
  match goal with |- context [statsOf ?l] => destruct l end; reflexivity.
Qed.

Lemma filter_ext_length {A : Type} (f g : A -> bool) (l : list A) :
  (forall x, In x l -> f x = g x) ->
  List.length (filter f l) = List.length (filter g l).
Proof. intros H. now rewrite (filter_ext_in f g l H). Qed.

(** X25.  The parts of a report agree with each other and with the store:
    there is one correlation and one semantic analysis per stored
    prompt; the prompts counted as coherent or incoherent are those the
    effectiveness analysis counts as having edits; every iterated file
    is counted as highly or moderately iterated; the reversals counted
    are at least as many as the files that have one; the iterated
    files are among the files touched; and all six scores lie between
    0 and 100. *)
Theorem report_consistent (db : Db.t) :
  let r := runAnalysis analyzePrompt db in
  let pa := Report.patternAnalysis r in
  List.length (Report.correlations r) = List.length (Db.prompts db)
  /\ List.length (Report.semanticAnalyses r) = List.length (Db.prompts db)
  /\ Effectiveness.total_prompts (Report.effectiveness r)
     = List.length (Db.prompts db)
  /\ (EditCoherence.coherent_prompts (Analysis.edit_coherence pa)
      + EditCoherence.incoherent_prompts (Analysis.edit_coherence pa))%nat
     = Effectiveness.prompts_with_edits (Report.effectiveness r)
  /\ (IterationAnalysis.high_iteration_files (Analysis.iteration_analysis pa)
      + IterationAnalysis.moderate_iteration_files
          (Analysis.iteration_analysis pa))%nat
     = List.length (Report.iterationPatterns r)
  /\ (ReversalAnalysis.files_with_reversals (Analysis.reversal_analysis pa)
      <= ReversalAnalysis.total_reversals (Analysis.reversal_analysis pa))%nat
  /\ (List.length (Report.iterationPatterns r)
      <= FileFocus.total_files_touched (Analysis.file_focus pa))%nat
  /\ percent (ScoringEngine.Scores.prompt_quality (Report.scores r))
  /\ percent (ScoringEngine.Scores.self_sufficiency (Report.scores r))
  /\ percent (ScoringEngine.Scores.technical_depth (Report.scores r))
  /\ percent (ScoringEngine.Scores.code_coherence (Report.scores r))
  /\ percent (ScoringEngine.Scores.understanding (Report.scores r))
  /\ percent (ScoringEngine.Scores.overall (Report.scores r)).
Proof.
  cbv zeta. unfold runAnalysis. cbv zeta.
  cbn [Report.correlations Report.semanticAnalyses Report.effectiveness
       Report.patternAnalysis Report.iterationPatterns Report.scores].
  set (correlations := correlatePromptsToEdits db).
  set (patterns := Iteration.detectIterationPatterns correlations).
  assert (Hlen : List.length correlations = List.length (Db.prompts db)).
  { unfold correlations, correlatePromptsToEdits, getConversationGroups.
    rewrite length_flat_map_sum, map_map.
    rewrite <- (@group_sizes _ Prompt.conversation_id (Db.prompts db)
                  (Js.setOf (map Prompt.conversation_id
                               (Db.orderBy Prompt.timestamp (Db.prompts db))))).
    - f_equal. apply map_ext. intros k.
      unfold correlateConversation. rewrite forEachIndexed_length.
      unfold getConversationData. cbn [Conversation.prompts].
      apply orderBy_length.
    - apply setOf_NoDup.
    - intros p Hp. apply groups_ids. now exists p. }
  split; [exact Hlen |].
  split; [now rewrite !length_map |].
  split; [exact Hlen |].
  unfold analyzePatterns.
  cbn [Analysis.edit_coherence Analysis.iteration_analysis
       Analysis.reversal_analysis Analysis.file_focus].
  split.
  { unfold analyzeEditCoherence, analyzeEffectiveness. cbv zeta.
    cbn [EditCoherence.coherent_prompts EditCoherence.incoherent_prompts
         Effectiveness.prompts_with_edits].
    destruct (coherence_fold correlations (Counts.mk 0 0 0 0 0 0)) as [H1 _].
    destruct (tally_counts correlations (Tally.mk 0 0 0 0 0 0)) as [_ H2].
    cbv zeta in H1, H2. rewrite H1, H2.
    cbn [Counts.coherent Counts.incoherent Tally.withEdits].
    apply filter_ext_length. intros c Hc.
    now apply (produced_with_edits db). }
  destruct (patterns_wellformed correlations) as [Hcount [Hrev Hpaths]].
  fold patterns in Hcount, Hrev, Hpaths.
  split; [exact (@iterations_cover patterns Hcount) |].
  split; [exact (@reversals_total patterns Hrev) |].
  split.
  { destruct (fileEditCount_spec correlations) as [Hk _]. cbv zeta in Hk.
    assert (Htouched : FileFocus.total_files_touched
                         (analyzeFileFocus correlations)
                       = List.length (fileEditCount correlations)).
    { unfold analyzeFileFocus.
      destruct (fileEditCount correlations); reflexivity. }
    rewrite Htouched, <- (length_map fst), Hk.
    rewrite <- (length_map Iteration.Pattern.file_path patterns).
    apply NoDup_incl_length; [exact (proj1 Hpaths) |].
    exact (proj2 Hpaths). }
  match goal with |- context [ScoringEngine.calculateDeveloperScore ?d] =>
    exact (calculateDeveloperScore_range d)
  end.
Qed.

(** X26.  For a store without prompts, whatever edits it holds, the report
    has no correlation, the effectiveness score is not a number, and the
    scores are 50 for prompt quality and self-sufficiency, 60 for
    technical depth (technical specificity is reported for the empty
    list) and code coherence, 58 for understanding and 56 overall: the
    assessment is ["Developing"], with three stars, and there is no red
    flag. *)
Theorem empty_store_report (db : Db.t) :
  Db.prompts db = [] ->
  let r := runAnalysis analyzePrompt db in
  Report.correlations r = []
  /\ Effectiveness.effectiveness_score (Report.effectiveness r) = Js.NaN
  /\ (ScoringEngine.Scores.prompt_quality (Report.scores r) == 50)%Q
  /\ (ScoringEngine.Scores.self_sufficiency (Report.scores r) == 50)%Q
  /\ (ScoringEngine.Scores.technical_depth (Report.scores r) == 60)%Q
  /\ (ScoringEngine.Scores.code_coherence (Report.scores r) == 60)%Q
  /\ (ScoringEngine.Scores.understanding (Report.scores r) == 58)%Q
  /\ (ScoringEngine.Scores.overall (Report.scores r) == 56)%Q
  /\ Flags.Assessment.level (Report.assessment r) = "Developing"
  /\ Flags.Assessment.stars (Report.assessment r) = 3%nat
  /\ Report.redFlags r = [].
Proof.
  intros Hnone. cbv zeta. unfold runAnalysis. cbv zeta.
  assert (Hc : correlatePromptsToEdits db = []).
  { unfold correlatePromptsToEdits, getConversationGroups.
    rewrite Hnone. reflexivity. }
  rewrite Hc. vm_compute. repeat split.
Qed.

End Pipeline.

(* ------------------------------------------------------------------ *)
(** ** The background service *)

Section Polling.

Import BackgroundAnalyzer.
Import BackgroundService.

(** Dropping rows keeps their keys distinct. *)
Lemma distinct_keys_filter {Row Key : Type} (key : Row -> Key)
      (keep : Row -> bool) (rows : list Row) :
  NoDup (map key rows) -> NoDup (map key (filter keep rows)).
Proof.
  induction rows as [|row rows IH]; cbn [map filter]; intros Hdistinct.
  - constructor.
  - apply NoDup_cons_iff in Hdistinct. destruct Hdistinct as [Hfresh Hrest].
    destruct (keep row); [| exact (IH Hrest)].
    cbn [map]. apply NoDup_cons; [| exact (IH Hrest)].
    intros Hin. apply Hfresh. apply in_map_iff in Hin.
    destruct Hin as [other [Hkey Hother]]. apply filter_In in Hother.
    apply in_map_iff. exists other. tauto.
Qed.

Lemma lastActivity_max (prompts : list Prompt.t) :
  (forall p, In p prompts -> Prompt.timestamp p <= lastActivity prompts)
  /\ (prompts <> [] ->
      exists p, In p prompts /\ Prompt.timestamp p = lastActivity prompts).
Proof.
  destruct prompts as [|p0 rest]; [split; [intros p [] | intros H; now elim H] |].
  unfold lastActivity.
  assert (Hgen : forall l m,
            m <= fold_left (fun m q => Z.max m (Prompt.timestamp q)) l m
            /\ (forall p, In p l ->
                  Prompt.timestamp p
                  <= fold_left (fun m q => Z.max m (Prompt.timestamp q)) l m)
            /\ (fold_left (fun m q => Z.max m (Prompt.timestamp q)) l m = m
                \/ exists p, In p l
                     /\ Prompt.timestamp p
                        = fold_left (fun m q => Z.max m (Prompt.timestamp q))
                                    l m)).
  { induction l as [|q l IH]; intros m; cbn [fold_left].
    - split; [lia |]. split; [intros p [] | now left].
    - destruct (IH (Z.max m (Prompt.timestamp q))) as [H1 [H2 H3]].
      split; [lia |]. split.
      + intros p [<- | Hp]; [lia | now apply H2].
      + destruct H3 as [H3 | [p [Hp H3]]].
        * destruct (Z.max_spec m (Prompt.timestamp q)) as [[_ Hm] | [_ Hm]].
          -- right. exists q. split; [now left | congruence].
          -- left. congruence.
        * right. exists p. split; [now right | exact H3]. }
  destruct (Hgen rest (Prompt.timestamp p0)) as [H1 [H2 H3]].
  split.
  - intros p [<- | Hp]; [exact H1 | now apply H2].
  - intros _. destruct H3 as [H3 | [p [Hp H3]]].
    + exists p0. split; [now left | now rewrite H3].
    + exists p. split; [now right | exact H3].
Qed.

Lemma In_unanalyzed (db : Db.t) (analyzed : list string) (c : Candidate.t) :
  In c (getUnanalyzedConversations db analyzed) <->
  c = Candidate.mk (Candidate.conversation_id c)
                   (List.length (promptsOf db (Candidate.conversation_id c)))
                   (lastActivity (promptsOf db (Candidate.conversation_id c)))
  /\ (MIN_PROMPTS_THRESHOLD
      <= List.length (promptsOf db (Candidate.conversation_id c)))%nat
  /\ ~ In (Candidate.conversation_id c) analyzed.
Proof.
  unfold getUnanalyzedConversations. cbv zeta.
  rewrite !filter_In, in_map_iff, negb_true_iff. split.
  - intros [[[cid [<- Hcid]] Hcount] Hnew].
    cbn [Candidate.conversation_id Candidate.prompt_count] in *.
    split; [reflexivity |]. split; [now apply Nat.leb_le |].
    intros Hin. apply mem_In in Hin. congruence.
  - intros [Hc [Hcount Hnew]]. split; [split |].
    + exists (Candidate.conversation_id c). split; [now rewrite <- Hc |].
      apply (proj2 (setOf_In _ _)).
      destruct (promptsOf db (Candidate.conversation_id c)) as [|p ps] eqn:E;
        [unfold MIN_PROMPTS_THRESHOLD in Hcount; simpl in Hcount; lia |].
      assert (Hp : In p (promptsOf db (Candidate.conversation_id c)))
        by (rewrite E; now left).
      apply filter_In in Hp. destruct Hp as [Hp Hk].
      apply String.eqb_eq in Hk. apply in_map_iff. now exists p.
    + rewrite Hc. cbn [Candidate.prompt_count]. now apply Nat.leb_le.
    + destruct (Js.mem (Candidate.conversation_id c) analyzed) eqn:E;
        [| reflexivity].
      apply mem_In in E. now elim Hnew.
Qed.

(** X27.  [getUnanalyzedConversations] lists, each once, exactly the
    conversations that have at least three prompts and are not in the
    analysed set; the prompt count of a row is the number of prompts of
    the conversation and its last activity the latest of their
    timestamps. *)
Theorem unanalyzed_conversations (db : Db.t) (analyzed : list string) :
  let found := getUnanalyzedConversations db analyzed in
  NoDup (map Candidate.conversation_id found)
  /\ (forall cid,
        In cid (map Candidate.conversation_id found)
        <-> (3 <= List.length (promptsOf db cid))%nat /\ ~ In cid analyzed)
  /\ (forall c, In c found ->
        Candidate.prompt_count c
        = List.length (promptsOf db (Candidate.conversation_id c))
        /\ (forall p, In p (Db.prompts db) ->
              Prompt.conversation_id p = Candidate.conversation_id c ->
              Prompt.timestamp p <= Candidate.last_activity c)
        /\ exists p, In p (Db.prompts db)
                     /\ Prompt.conversation_id p = Candidate.conversation_id c
                     /\ Prompt.timestamp p = Candidate.last_activity c).
Proof.
  cbv zeta. split; [| split].
  - unfold getUnanalyzedConversations. cbv zeta.
    do 2 apply distinct_keys_filter. rewrite map_map. cbn [Candidate.conversation_id].
    rewrite map_id. apply setOf_NoDup.
  - intros cid. rewrite in_map_iff. split.
    + intros [c [<- Hc]]. apply In_unanalyzed in Hc. tauto.
    + intros [Hcount Hnew].
      exists (Candidate.mk cid (List.length (promptsOf db cid))
                           (lastActivity (promptsOf db cid))).
      split; [reflexivity |]. apply In_unanalyzed.
      cbn [Candidate.conversation_id]. tauto.
  - intros c Hc. apply In_unanalyzed in Hc. destruct Hc as [Hc [Hcount _]].
    destruct (lastActivity_max (promptsOf db (Candidate.conversation_id c)))
      as [Hmax Hhit].
    split; [rewrite Hc at 1; reflexivity |]. split.
    + intros p Hp Hk. rewrite Hc. cbn [Candidate.last_activity].
      apply Hmax. apply filter_In. split; [exact Hp |].
      now apply String.eqb_eq.
    + destruct Hhit as [p [Hp Ht]].
      { intros Hnil. rewrite Hnil in Hcount.
        unfold MIN_PROMPTS_THRESHOLD in Hcount. simpl in Hcount. lia. }
      apply filter_In in Hp. destruct Hp as [Hp Hk].
      apply String.eqb_eq in Hk. exists p.
      split; [exact Hp |]. split; [exact Hk |].
      rewrite Hc. cbn [Candidate.last_activity]. exact Ht.
Qed.

Variable regexTest : string -> string -> bool.
Variable judge : nat -> string -> Understanding.Outcome.
Variable stringify : Understanding.Result.t -> string.
Variable clock : Z -> string.

Lemma nameOf_injective (a b : Understanding.Analyzer) :
  nameOf a = nameOf b -> a = b.
Proof. destruct a, b; simpl; intros H; try reflexivity; discriminate H. Qed.

(** The rows of a key after [runAnalyzer]. *)
Lemma runAnalyzer_rows (a : Understanding.Analyzer) (db : Db.t)
      (conversationId : string) (table : Table.t) (log : list string)
      (cid name : string) :
  let table' := fst (runAnalyzer regexTest judge stringify clock a db
                                 conversationId table log) in
  (cid = conversationId /\ name = nameOf a ->
   List.length (rowsFor table' cid name) = 1%nat)
  /\ (~ (cid = conversationId /\ name = nameOf a) ->
      rowsFor table' cid name = rowsFor table cid name).
Proof.
  cbv zeta. unfold runAnalyzer, Understanding.bind, Understanding.ret.
  destruct (Understanding.analyze regexTest judge a db conversationId log)
    as [result log'].
  cbn [fst].
  change (storeResult stringify table conversationId (nameOf a) result
                      (clock (Table.sequence table + 1)))
    with (store stringify table
                (Call.mk conversationId (nameOf a) result
                         (clock (Table.sequence table + 1)))).
  rewrite rowsFor_store. unfold callKey.
  cbn [Call.conversationId Call.analyzerName].
  destruct (String.eqb_spec conversationId cid) as [-> | Hc];
    destruct (String.eqb_spec (nameOf a) name) as [<- | Hn]; cbn [andb];
    split; intros H; try reflexivity; try tauto;
    destruct H as [H1 H2]; congruence.
Qed.

(** The state after [analyzeConversation]. *)
Lemma analyzeConversation_state (db : Db.t) (state : State.t)
      (conv : Candidate.t) (log : list string) :
  let state' := fst (analyzeConversation regexTest judge stringify clock
                                         db state conv log) in
  State.analyzedConversations state'
  = Js.add (State.analyzedConversations state) (Candidate.conversation_id conv)
  /\ forall cid name,
       (cid = Candidate.conversation_id conv
        /\ (exists a, name = nameOf a) ->
        List.length (rowsFor (State.table state') cid name) = 1%nat)
       /\ (~ (cid = Candidate.conversation_id conv
              /\ exists a, name = nameOf a) ->
           rowsFor (State.table state') cid name
           = rowsFor (State.table state) cid name).
Proof.
  cbv zeta. unfold analyzeConversation.
  unfold Understanding.bind, Understanding.ret.
  pose proof (fun cid name =>
                runAnalyzer_rows Understanding.CriticalThinking db
                  (Candidate.conversation_id conv) (State.table state) log
                  cid name) as R1.
  destruct (runAnalyzer regexTest judge stringify clock
              Understanding.CriticalThinking db
              (Candidate.conversation_id conv) (State.table state) log)
    as [t1 log1].
  pose proof (fun cid name =>
                runAnalyzer_rows Understanding.DebuggingReasoning db
                  (Candidate.conversation_id conv) t1 log1 cid name) as R2.
  destruct (runAnalyzer regexTest judge stringify clock
              Understanding.DebuggingReasoning db
              (Candidate.conversation_id conv) t1 log1)
    as [t2 log2].
  pose proof (fun cid name =>
                runAnalyzer_rows Understanding.MistakeCatcher db
                  (Candidate.conversation_id conv) t2 log2 cid name) as R3.
  destruct (runAnalyzer regexTest judge stringify clock
              Understanding.MistakeCatcher db
              (Candidate.conversation_id conv) t2 log2)
    as [t3 log3].
  cbn [fst State.analyzedConversations State.table] in *.
  split; [reflexivity |]. intros cid name.
  destruct (R1 cid name) as [A1 B1]. destruct (R2 cid name) as [A2 B2].
  destruct (R3 cid name) as [A3 B3]. cbv zeta in A1, B1, A2, B2, A3, B3.
  split.
  - intros [-> [a ->]]. destruct a.
    + rewrite B3, B2 by (intros [_ H]; discriminate H). now apply A1.
    + rewrite B3 by (intros [_ H]; discriminate H). now apply A2.
    + now apply A3.
  - intros Hnot.
    rewrite B3, B2, B1; [reflexivity | | |];
      intros [Hc Hn]; apply Hnot; (split; [exact Hc |]); eexists; exact Hn.
Qed.

(** The state after [analyzeEach]. *)
Lemma analyzeEach_state (db : Db.t) (conversations : list Candidate.t) :
  forall state log,
    let out := analyzeEach regexTest judge stringify clock db state
                           conversations log in
    State.analyzedConversations (fst out)
    = fold_left Js.add (map Candidate.conversation_id conversations)
                (State.analyzedConversations state)
    /\ (conversations = [] -> out = (state, log))
    /\ forall cid name,
         (forall a : Understanding.Analyzer, name = nameOf a ->
            (In cid (map Candidate.conversation_id conversations)
             \/ List.length (rowsFor (State.table state) cid name) = 1%nat) ->
            List.length (rowsFor (State.table (fst out)) cid name) = 1%nat)
         /\ (~ (In cid (map Candidate.conversation_id conversations)
                /\ exists a, name = nameOf a) ->
             rowsFor (State.table (fst out)) cid name
             = rowsFor (State.table state) cid name).
Proof.
  induction conversations as [|conv rest IH]; intros state log; cbv zeta.
  - cbn [analyzeEach]. unfold Understanding.ret. cbn [fst map fold_left In].
    split; [reflexivity |]. split; [reflexivity |].
    intros cid name. split; [| reflexivity].
    intros a _ [[] | H]. exact H.
  - cbn [analyzeEach]. unfold Understanding.bind.
    destruct (analyzeConversation_state db state conv log) as [Hset Hrows].
    cbv zeta in Hset, Hrows.
    destruct (analyzeConversation regexTest judge stringify clock db state
                                  conv log) as [state1 log1].
    cbn [fst] in Hset, Hrows. cbv beta iota.
    destruct (IH state1 log1) as [Hset' [_ Hrows']]. cbv zeta in Hset', Hrows'.
    split; [| split; [discriminate |]].
    + rewrite Hset', Hset. reflexivity.
    + intros cid name. destruct (Hrows cid name) as [A1 B1].
      destruct (Hrows' cid name) as [A2 B2]. split.
      * intros a Hname Hor. apply (A2 a Hname).
        destruct (in_dec string_dec cid
                         (map Candidate.conversation_id rest)) as [Hin | Hout];
          [now left | right].
        destruct (string_dec cid (Candidate.conversation_id conv))
          as [Heq | Hne].
        -- apply A1. split; [exact Heq | now exists a].
        -- rewrite B1 by (intros [Hc _]; contradiction).
           destruct Hor as [[Hc | Hin] | Hone];
             [now elim Hne | contradiction | exact Hone].
      * intros Hnot. rewrite B2, B1; [reflexivity | |].
        -- intros [Hc Hn]. apply Hnot. split; [now left | exact Hn].
        -- intros [Hin Hn]. apply Hnot. split; [now right | exact Hn].
Qed.

(** X28.  After one round of [poll] no conversation is left to analyse,
    so that the next round stores nothing and calls nothing.  The
    analysed set has grown by exactly the conversations found; each of
    them has exactly one result row per analyzer, whatever rows it had
    before; and the rows of every other conversation are untouched. *)
Theorem poll_settles (db : Db.t) (state : State.t) (log : list string) :
  let found :=
    getUnanalyzedConversations db (State.analyzedConversations state) in
  let out := poll regexTest judge stringify clock db state log in
  let state' := fst out in
  getUnanalyzedConversations db (State.analyzedConversations state') = []
  /\ (forall log', poll regexTest judge stringify clock db state' log'
                   = (state', log'))
  /\ (forall cid, In cid (State.analyzedConversations state')
                  <-> In cid (State.analyzedConversations state)
                      \/ In cid (map Candidate.conversation_id found))
  /\ (forall c a, In c found ->
        List.length (rowsFor (State.table state')
                             (Candidate.conversation_id c) (nameOf a)) = 1%nat)
  /\ (forall cid name,
        ~ In cid (map Candidate.conversation_id found) ->
        rowsFor (State.table state') cid name
        = rowsFor (State.table state) cid name).
Proof.
  cbv zeta. unfold poll at 1 2 3 4.
  destruct (analyzeEach_state db
              (getUnanalyzedConversations db (State.analyzedConversations state))
              state log) as [Hset [_ Hrows]].
  cbv zeta in Hset, Hrows.
  set (found := getUnanalyzedConversations db
                  (State.analyzedConversations state)) in *.
  set (out := analyzeEach regexTest judge stringify clock db state found log)
    in *.
  assert (Hmem : forall cid, In cid (State.analyzedConversations (fst out))
                             <-> In cid (State.analyzedConversations state)
                                 \/ In cid (map Candidate.conversation_id found)).
  { intros cid. rewrite Hset. apply setOf_fold_In. }
  assert (Hnone : getUnanalyzedConversations db
                    (State.analyzedConversations (fst out)) = []).
  { destruct (getUnanalyzedConversations db
                (State.analyzedConversations (fst out))) as [|c cs] eqn:E;
      [reflexivity |].
    assert (Hc : In c (getUnanalyzedConversations db
                         (State.analyzedConversations (fst out))))
      by (rewrite E; now left).
    apply In_unanalyzed in Hc. destruct Hc as [Hc [Hcount Hnew]].
    exfalso. apply Hnew. apply Hmem.
    destruct (in_dec string_dec (Candidate.conversation_id c)
                     (State.analyzedConversations state)) as [Hold | Hfresh];
      [now left | right].
    apply in_map. apply In_unanalyzed. tauto. }
  split; [exact Hnone |]. split.
  { intros log'. unfold poll. rewrite Hnone. reflexivity. }
  split; [exact Hmem |]. split.
  - intros c a Hc.
    destruct (Hrows (Candidate.conversation_id c) (nameOf a)) as [A _].
    apply (A a eq_refl). left. now apply in_map.
  - intros cid name Hout. destruct (Hrows cid name) as [_ B].
    apply B. tauto.
Qed.

End Polling.

(* ------------------------------------------------------------------ *)
(** ** The semantic analyzer *)

Section SemanticFacts.

Import SemanticAnalyzer.

Lemma flagIf_length (b : bool) (flag : string) :
  (List.length (flagIf b flag) <= 1)%nat.
Proof. destruct b; simpl; lia. Qed.

(** X29.  [combineInsights] gives a confidence between 0 and 100, at least
    50 when there is no red flag and at most 50 when there is no green
    flag; it raises at most six red flags and eight green ones, and at
    most four and five when the semantic analysis is missing; and a
    semantic analysis that carries an error counts as missing. *)
Theorem insights_shape (ruleMetrics : RuleMetrics.t)
        (semanticAnalysis : option Intent.t) :
  let r := combineInsights ruleMetrics semanticAnalysis in
  (0 <= Insights.confidence_score r <= 100)%Q
  /\ (Insights.red_flags r = [] -> (50 <= Insights.confidence_score r)%Q)
  /\ (Insights.green_flags r = [] -> (Insights.confidence_score r <= 50)%Q)
  /\ (List.length (Insights.red_flags r) <= 6)%nat
  /\ (List.length (Insights.green_flags r) <= 8)%nat
  /\ (semanticAnalysis = None ->
      (List.length (Insights.red_flags r) <= 4)%nat
      /\ (List.length (Insights.green_flags r) <= 5)%nat)
  /\ (forall s, semanticAnalysis = Some s -> Intent.error s = true ->
                r = combineInsights ruleMetrics None).
Proof.
  cbv zeta. unfold combineInsights. cbv zeta.
  cbn [Insights.confidence_score Insights.red_flags Insights.green_flags].
  match goal with
  | |- context [Js.Qmax 0 (Js.Qmin 100 (50 + Js.ofNat (List.length ?g) * 15
                                        - Js.ofNat (List.length ?r) * 10))] =>
      set (green := g); set (red := r)
  end.
  pose proof (ofNat_nonneg (List.length green)) as Hg.
  pose proof (ofNat_nonneg (List.length red)) as Hr.
  assert (Hconf : forall x,
            (0 <= Js.Qmax 0 (Js.Qmin 100 x) <= 100)%Q
            /\ ((50 <= x)%Q -> (50 <= Js.Qmax 0 (Js.Qmin 100 x))%Q)
            /\ ((x <= 50)%Q -> (Js.Qmax 0 (Js.Qmin 100 x) <= 50)%Q)).
  { intros x. unfold Js.Qmax, Js.Qmin.
    destruct (Qle_bool 100 x) eqn:E1;
      [apply Qle_bool_iff in E1 | apply Qle_bool_false in E1];
      match goal with |- context [Qle_bool 0 ?y] =>
        destruct (Qle_bool 0 y) eqn:E2;
        [apply Qle_bool_iff in E2 | apply Qle_bool_false in E2]
      end; repeat split; intros; lra. }
  destruct (Hconf (50 + Js.ofNat (List.length green) * 15
                   - Js.ofNat (List.length red) * 10)%Q) as [H1 [H2 H3]].
  split; [exact H1 |]. split.
  { intros Hnil. apply H2. rewrite Hnil. change (Js.ofNat (List.length [])) with 0%Q.
    lra. }
  split.
  { intros Hnil. apply H3. rewrite Hnil. change (Js.ofNat (List.length [])) with 0%Q.
    lra. }
  assert (Hred : (List.length red
                  <= 4 + match semanticAnalysis with
                         | Some s => if Intent.error s then 0 else 2
                         | None => 0
                         end)%nat).
  { unfold red. rewrite !length_app.
    repeat match goal with
           | |- context [List.length (flagIf ?b ?f)] =>
               let H := fresh "F" in
               pose proof (flagIf_length b f) as H;
               generalize dependent (List.length (flagIf b f)); intros
           end.
    destruct semanticAnalysis as [s|]; [destruct (Intent.error s) |];
      try rewrite !length_app;
      repeat match goal with
             | |- context [List.length (flagIf ?b ?f)] =>
                 let H := fresh "F" in
                 pose proof (flagIf_length b f) as H;
                 generalize dependent (List.length (flagIf b f)); intros
             end;
      cbn [List.length]; lia. }
  assert (Hgreen : (List.length green
                    <= 5 + match semanticAnalysis with
                           | Some s => if Intent.error s then 0 else 3
                           | None => 0
                           end)%nat).
  { unfold green. rewrite !length_app.
    repeat match goal with
           | |- context [List.length (flagIf ?b ?f)] =>
               let H := fresh "F" in
               pose proof (flagIf_length b f) as H;
               generalize dependent (List.length (flagIf b f)); intros
           end.
    destruct semanticAnalysis as [s|]; [destruct (Intent.error s) |];
      try rewrite !length_app;
      repeat match goal with
             | |- context [List.length (flagIf ?b ?f)] =>
                 let H := fresh "F" in
                 pose proof (flagIf_length b f) as H;
                 generalize dependent (List.length (flagIf b f)); intros
             end;
      cbn [List.length]; lia. }
  split.
  { destruct semanticAnalysis as [s|]; [destruct (Intent.error s) |]; lia. }
  split.
  { destruct semanticAnalysis as [s|]; [destruct (Intent.error s) |]; lia. }
  split.
  { intros ->. lia. }
  intros s -> He. unfold red, green. rewrite He. reflexivity.
Qed.

Lemma compare_counts (words1 words2 : list string) :
  words1 <> [] ->
  (0 < List.length (Js.setOf (words1 ++ words2)%list))%nat
  /\ (List.length (Js.setOf (filter (fun w => Js.mem w words2) words1))
      <= List.length (Js.setOf (words1 ++ words2)%list))%nat.
Proof.
  intros Hne. split.
  - destruct words1 as [|t ts]; [now elim Hne |].
    apply (@In_length_pos _ t), (proj2 (setOf_In _ _)), in_or_app.
    left. now left.
  - apply NoDup_incl_length; [apply setOf_NoDup |].
    intros x Hx. apply (proj1 (setOf_In _ _)) in Hx.
    apply filter_In in Hx.
    apply (proj2 (setOf_In _ _)), in_or_app. left. apply Hx.
Qed.

(** X30.  [basicCompare] returns a whole similarity between 0 and 100 and
    never claims learning.  The two prompts are called repetitive exactly
    above 70 and a refinement exactly strictly between 40 and 70, so
    never both, and neither at exactly 70.  The comparison is symmetric,
    and a prompt compared with itself scores 100. *)
Theorem basicCompare_shape (text1 text2 : string) :
  let r := basicCompare text1 text2 in
  (exists z, Comparison.similarity_score r = Js.Fin (inject_Z z)
             /\ 0 <= z <= 100
             /\ (Comparison.is_repetitive r = true <-> 70 < z)
             /\ (Comparison.is_refinement r = true <-> 40 < z < 70))
  /\ Comparison.shows_learning r = false
  /\ r = basicCompare text2 text1
  /\ Comparison.similarity_score (basicCompare text1 text1)
     = Js.Fin (inject_Z 100)
  /\ Comparison.is_repetitive (basicCompare text1 text1) = true.
Proof.
  cbv zeta.
  assert (Hself : Comparison.similarity_score (basicCompare text1 text1)
                  = Js.Fin (inject_Z 100)).
  { unfold basicCompare. cbv zeta. cbn [Comparison.similarity_score].
    set (s := Js.setOf (Js.splitWs (ScoringEngine.lowercase text1))).
    assert (Hi : List.length (Js.setOf (filter (fun x => Js.mem x s) s))
                 = List.length s).
    { apply same_members_length;
        [apply setOf_NoDup | apply setOf_NoDup |].
      intros x. rewrite setOf_In, filter_In, mem_In. tauto. }
    assert (Hu : List.length (Js.setOf (s ++ s)%list) = List.length s).
    { apply same_members_length;
        [apply setOf_NoDup | apply setOf_NoDup |].
      intros x. rewrite setOf_In, in_app_iff. tauto. }
    rewrite Hi, Hu.
    assert (Hpos : (0 < List.length s)%nat).
    { pose proof (tokens_nonempty (ScoringEngine.lowercase text1)) as Hne.
      fold s in Hne. destruct s; [now elim Hne | simpl; lia]. }
    destruct (div_counts Hpos (Nat.le_refl _)) as [-> _].
    cbn [Js.scale Js.round]. do 2 f_equal.
    assert (Hq : (Js.ofNat (List.length s) / Js.ofNat (List.length s) * 100
                  == 100)%Q)
      by (pose proof (ofNat_pos Hpos); field; lra).
    assert (Hb : 100 <= Js.roundQ (Js.ofNat (List.length s)
                                   / Js.ofNat (List.length s) * 100) <= 100)
      by (apply roundQ_bounds; change (inject_Z 100) with 100%Q;
          rewrite Hq; lra).
    lia. }
  split; [| split; [reflexivity | split; [| split; [exact Hself |]]]].
  - unfold basicCompare. cbv zeta.
    cbn [Comparison.similarity_score Comparison.is_repetitive
         Comparison.is_refinement].
    destruct (@compare_counts
                (Js.setOf (Js.splitWs (ScoringEngine.lowercase text1)))
                (Js.setOf (Js.splitWs (ScoringEngine.lowercase text2)))
                (tokens_nonempty _)) as [Hpos Hle].
    destruct (div_counts Hpos Hle) as [-> [Hlo Hhi]].
    cbn [Js.scale Js.round Js.gtb].
    match goal with |- context [Js.roundQ ?x] =>
      assert (Hb : 0 <= Js.roundQ x <= 100)
        by (apply roundQ_bounds;
            [change (inject_Z 0) with 0%Q | change (inject_Z 100) with 100%Q];
            lra);
      generalize dependent (Js.roundQ x)
    end.
    intros z Hb. exists z. split; [reflexivity |]. split; [exact Hb |].
    assert (H70 : Qle_bool (inject_Z z) 70 = true <-> z <= 70).
    { rewrite Qle_bool_iff. change 70%Q with (inject_Z 70).
      now rewrite <- Zle_Qle. }
    assert (H40 : Qle_bool (inject_Z z) 40 = true <-> z <= 40).
    { rewrite Qle_bool_iff. change 40%Q with (inject_Z 40).
      now rewrite <- Zle_Qle. }
    assert (H70' : Js.Qltb (inject_Z z) 70 = true <-> z < 70).
    { rewrite Qltb_true. change 70%Q with (inject_Z 70).
      now rewrite <- Zlt_Qlt. }
    split.
    + destruct (Qle_bool (inject_Z z) 70); cbn [negb]; split; intros G;
        try reflexivity; try discriminate G.
      * assert (z <= 70) by now apply H70. lia.
      * destruct (Z_le_gt_dec z 70) as [Hle' | Hgt]; [| lia].
        apply H70 in Hle'. discriminate Hle'.
    + destruct (Qle_bool (inject_Z z) 40) eqn:E40;
        destruct (Js.Qltb (inject_Z z) 70) eqn:E70; cbn [negb andb];
        split; intros G; try reflexivity; try discriminate G.
      * assert (z <= 40) by now apply H40. lia.
      * assert (z <= 40) by now apply H40. lia.
      * split; [| now apply H70'].
        destruct (Z_le_gt_dec z 40) as [Hle' | Hgt]; [| lia].
        apply H40 in Hle'. discriminate Hle'.
      * destruct G as [_ G]. apply H70' in G. discriminate G.
  - unfold basicCompare. cbv zeta.
    assert (Hsim :
      Js.round
        (Js.scale
           (Js.div
              (Js.ofNat
                 (List.length
                    (Js.setOf
                       (filter
                          (fun w => Js.mem w
                             (Js.setOf (Js.splitWs (ScoringEngine.lowercase text2))))
                          (Js.setOf (Js.splitWs (ScoringEngine.lowercase text1)))))))
              (Js.ofNat
                 (List.length
                    (Js.setOf
                       (Js.setOf (Js.splitWs (ScoringEngine.lowercase text1))
                        ++ Js.setOf (Js.splitWs (ScoringEngine.lowercase text2)))%list))))
           100)
      = Js.round
          (Js.scale
             (Js.div
                (Js.ofNat
                   (List.length
                      (Js.setOf
                         (filter
                            (fun w => Js.mem w
                               (Js.setOf (Js.splitWs (ScoringEngine.lowercase text1))))
                            (Js.setOf (Js.splitWs (ScoringEngine.lowercase text2)))))))
                (Js.ofNat
                   (List.length
                      (Js.setOf
                         (Js.setOf (Js.splitWs (ScoringEngine.lowercase text2))
                          ++ Js.setOf (Js.splitWs (ScoringEngine.lowercase text1)))%list))))
             100)).
    { do 2 f_equal. f_equal; f_equal; apply setOf_length_ext; intros x.
      - rewrite !filter_In, !mem_In. tauto.
      - rewrite !in_app_iff. tauto. }
    rewrite Hsim. reflexivity.
  - unfold basicCompare in *. cbv zeta in *.
    cbn [Comparison.similarity_score Comparison.is_repetitive] in *.
    rewrite Hself. reflexivity.
Qed.

End SemanticFacts.

Lemma score_zero_or_at_least_two_witness :
  let r := fst (Understanding.run
                  (Understanding.analyze noRuleMatches alwaysRelevant
                     Understanding.MistakeCatcher sampleDb "c1")) in
  (Understanding.Findings.count (Understanding.Result.findings r) = 0%nat ->
   Understanding.Result.findings r = Understanding.noFindings
   /\ Understanding.Result.score r = 0%Q
   /\ Understanding.Result.verdict r
      = Judged.bottomVerdict Understanding.MistakeCatcher)
  /\ ((0 < Understanding.Findings.count (Understanding.Result.findings r))%nat ->
      (2 <= Understanding.Result.score r <= 10)%Q).
Proof.
  apply (@score_zero_or_at_least_two noRuleMatches alwaysRelevant
           Understanding.MistakeCatcher sampleDb "c1").
  vm_compute. discriminate.
Defined.

Lemma unparseable_answers_give_nothing_witness :
  let r := fst (Understanding.run
                  (Understanding.analyze noRuleMatches chatty
                     Understanding.CriticalThinking sampleDb "c1")) in
  Understanding.Result.findings r = Understanding.noFindings
  /\ Understanding.Result.score r = 0%Q
  /\ Understanding.Result.verdict r
     = Judged.bottomVerdict Understanding.CriticalThinking
  /\ (exists rate,
        Understanding.Result.aiSuccessRate r = Some rate /\ (rate == 0)%Q)
  /\ (exists c, Understanding.Result.confidence r = Some c /\ (c == 3 # 10)%Q)
  /\ (Understanding.longEnough
        (Understanding.promptsToAnalyze Understanding.CriticalThinking
           (Understanding.getConversationPrompts sampleDb "c1")) <> [] ->
      Understanding.Result.analysisMethod r = "fallback").
Proof.
  apply (@unparseable_answers_give_nothing noRuleMatches chatty
           Understanding.CriticalThinking sampleDb "c1").
  - intros n text. left. reflexivity.
  - vm_compute. discriminate.
Defined.

Lemma short_prompts_only_witness :
  let out := Understanding.run
               (Understanding.analyze noRuleMatches alwaysRelevant
                  Understanding.DebuggingReasoning shortDb "c3") in
  let r := fst out in
  snd out = []
  /\ Understanding.Result.findings r = Understanding.noFindings
  /\ Understanding.Result.score r = 0%Q
  /\ Understanding.Result.verdict r
     = Judged.bottomVerdict Understanding.DebuggingReasoning
  /\ Understanding.Result.analysisMethod r = "ai"
  /\ (exists rate,
        Understanding.Result.aiSuccessRate r = Some rate /\ (rate == 0)%Q)
  /\ (exists c, Understanding.Result.confidence r = Some c /\ (c == 3 # 10)%Q).
Proof.
  apply (@short_prompts_only noRuleMatches alwaysRelevant
           Understanding.DebuggingReasoning shortDb "c3").
  - vm_compute. discriminate.
  - constructor; [simpl; lia | constructor].
Defined.

(* ------------------------------------------------------------------ *)
(** ** The statements above at sample data *)

Lemma correlation_contents_witness :
  exists c,
    In c (CorrelationEngine.correlatePromptsToEdits sampleDb)
    /\ CorrelationEngine.Stats.total_edits (CorrelationEngine.Correlation.stats c)
       = List.length (CorrelationEngine.Correlation.related_edits c).
Proof.
  eexists. split; [left; reflexivity |].
  refine (proj1 (@correlation_contents sampleDb _ _)).
  left; reflexivity.
Defined.

Lemma effectiveness_counts_witness :
  CorrelationEngine.Effectiveness.total_prompts
    (CorrelationEngine.analyzeEffectiveness
       (CorrelationEngine.correlatePromptsToEdits sampleDb))
  = List.length (CorrelationEngine.correlatePromptsToEdits sampleDb).
Proof.
  refine (proj1 (@effectiveness_counts
                   (CorrelationEngine.correlatePromptsToEdits sampleDb) _)).
  vm_compute. discriminate.
Defined.

Lemma assessment_monotone_witness :
  (Flags.Assessment.stars (Flags.getAssessmentLevel 56)
   <= Flags.Assessment.stars (Flags.getAssessmentLevel 85))%nat.
Proof.
  refine (proj1 (@assessment_monotone 56 85 _)).
  unfold Qle. simpl. lia.
Defined.

Lemma empty_store_report_witness :
  DevEvaluator.Report.correlations
    (DevEvaluator.runAnalysis noSemantics emptyStore) = [].
Proof.
  refine (proj1 (@empty_store_report noSemantics emptyStore _)).
  reflexivity.
Defined.
